(** * sfp_watchguard: reputation lookups against configured checks

    A shallow embedding of [modules/sfp_watchguard.py]: the pattern
    classifier [contentMalicious], the two resolvers [resourceQuery] and
    [resourceList], their selector [lookupItem] and the event handler
    [handleEvent].  The module's state (the [results] dictionary and the
    option dictionary) and its collaborators (fetch, cache, base-domain
    lookup, stop signal, event bus, log) are threaded through a small
    state-and-exception monad that also records every collaborator call. *)

From Stdlib Require Import Ascii ZArith Lia.
From stdpp Require Import gmap strings list fin_maps.

Set Warnings "-register-all".

(** ** Python values, exceptions and string built-ins *)

(** The values an option of the module can hold. *)
Inductive pyval :=
| PyNone
| PyBool (b : bool)
| PyInt (z : Z)
| PyStr (s : string)
| PyList (l : list string).

(** Python truth value testing. *)
Definition truthy (v : pyval) : bool :=
  match v with
  | PyNone => false
  | PyBool b => b
  | PyInt z => negb (z =? 0)%Z
  | PyStr s => negb (String.eqb s "")
  | PyList l => match l with [] => false | _ :: _ => true end
  end.

(** The exceptions the module can meet.  The last four come from the
    libraries it calls ([re], [str.format], [netaddr]) and carry the
    library's message. *)
Inductive exn :=
| KeyError (key : string)
| UnboundLocalError (var : string)
| TypeError (msg : string)
| AttributeError (msg : string)
| ReError (msg : string)
| FormatError (msg : string)
| IndexError (msg : string)
| AddrFormatError (msg : string).

(** [str(e)]. *)
Definition str_exn (e : exn) : string :=
  match e with
  | KeyError k => "'" +:+ k +:+ "'"
  | UnboundLocalError v =>
      "local variable '" +:+ v +:+ "' referenced before assignment"
  | TypeError m | AttributeError m | ReError m | FormatError m | IndexError m
  | AddrFormatError m => m
  end.

Inductive result (A : Type) :=
| Ok (a : A)
| Raise (e : exn).
Arguments Ok {A} a.
Arguments Raise {A} e.

(** [s.startswith(p)]. *)
Definition startswith (p s : string) : bool := String.prefix p s.

(** [s.split(sep)] for a one-character separator: never empty. *)
Fixpoint str_split (sep : ascii) (s : string) : list string :=
  match s with
  | "" => [""]
  | String c s' =>
      if Ascii.eqb c sep then "" :: str_split sep s'
      else match str_split sep s' with
           | [] => [String c ""]
           | h :: t => String c h :: t
           end
  end.

(** [sep.join(l)], the inverse of [str_split]. *)
Fixpoint str_join (sep : ascii) (l : list string) : string :=
  match l with
  | [] => ""
  | [h] => h
  | h :: t => h +:+ String sep (str_join sep t)
  end.

(** White space as [str.strip] sees it, on code points below 256. *)
Definition py_isspace (c : ascii) : bool :=
  let n := N_of_ascii c in
  ((9 <=? n) && (n <=? 13) || (28 <=? n) && (n <=? 32)
   || (n =? 133) || (n =? 160))%N.

Fixpoint str_lstrip (s : string) : string :=
  match s with
  | "" => ""
  | String c s' => if py_isspace c then str_lstrip s' else s
  end.

Fixpoint str_rstrip (s : string) : string :=
  match s with
  | "" => ""
  | String c s' =>
      match str_rstrip s' with
      | "" => if py_isspace c then "" else String c ""
      | r => String c r
      end
  end.

(** [s.strip()]. *)
Definition str_strip (s : string) : string := str_rstrip (str_lstrip s).

Fixpoint str_drop (n : nat) (s : string) : string :=
  match n, s with
  | S n', String _ s' => str_drop n' s'
  | _, _ => s
  end.

Fixpoint str_replace_go (fuel : nat) (old new s : string) : string :=
  match fuel with
  | O => s
  | S fuel' =>
      match s with
      | "" => ""
      | String c s' =>
          if String.prefix old s
          then new +:+ str_replace_go fuel' old new (str_drop (String.length old) s)
          else String c (str_replace_go fuel' old new s')
      end
  end.

(** [s.replace(old, new)] for a non-empty [old]. *)
Definition str_replace (old new s : string) : string :=
  str_replace_go (String.length s) old new s.

(** ** The libraries the module calls *)

(** The flags a call of [re] passes. *)
Record re_flags := ReFlags { IGNORECASE : bool; DOTALL : bool }.

(** An item of the list [re.findall] returns: a string for a pattern with
    at most one group (the text of the group, or of the whole match when
    there is none), the tuple of the texts of the groups for a pattern with
    several. *)
Inductive found :=
| FoundStr (s : string)
| FoundTuple (groups : list string).

(** What the module uses of [re], [str.format] and [netaddr].
    - [re_match rx s fl]: whether [re.match(rx, s, fl)] is a match object,
      or the [re.error] of a pattern that does not compile;
    - [re_compile rx fl]: whether [re.compile(rx, fl)] succeeds;
    - [re_findall rx fl s]: [re.findall] of the compiled pattern on [s];
    - [str_format t a]: [t.format(a)];
    - [ip_in_network ip net]: [IPAddress(ip) in IPNetwork(net)], or the
      exception of a text that does not parse. *)
Class PyRuntime := {
  re_match : string → string → re_flags → result bool;
  re_compile : string → re_flags → result unit;
  re_findall : string → re_flags → string → list found;
  str_format : string → string → result string;
  ip_in_network : string → string → result bool
}.

(** ** Events, collaborator calls and the module's world *)

(** [SpiderFootEvent(eventType, data, module, sourceEvent)]. *)
Inductive event :=
| SpiderFootEvent (eventType data module : string) (sourceEvent : option event).

Definition eventType (e : event) : string :=
  match e with SpiderFootEvent t _ _ _ => t end.
Definition data (e : event) : string :=
  match e with SpiderFootEvent _ d _ _ => d end.
Definition module (e : event) : string :=
  match e with SpiderFootEvent _ _ m _ => m end.

(** One entry per call that leaves the module.  [Enter] is not a
    collaborator call: it marks the entry of one of the module's own
    functions, so that invocations can be counted. *)
Inductive effect :=
| SfDebug (msg : string)
| SfError (msg : string)
| FetchUrl (url : string) (timeout useragent : pyval)
| CacheGet (key : string) (period : pyval)
| CachePut (key content : string)
| HostDomain (host : string) (tlds : pyval)
| CheckForStop
| NotifyListeners (evt : event)
| Enter (fn : string) (args : list string).

(** The module instance and its surroundings.  [results] is [None] until
    [setup] ran.  The answers of the collaborators are scripts: the head
    of each list answers the next call, and an exhausted script answers
    with no content (no stop request). *)
Record world := World {
  results : option (gmap string bool);
  opts : gmap string pyval;
  net : list (string → option string);
  cache : list (string → option string);
  domains : list (string → option string);
  stops : list bool
}.

Definition set_results (r : option (gmap string bool)) (w : world) : world :=
  World r (opts w) (net w) (cache w) (domains w) (stops w).
Definition set_opts (o : gmap string pyval) (w : world) : world :=
  World (results w) o (net w) (cache w) (domains w) (stops w).
Definition set_net (n : list (string → option string)) (w : world) : world :=
  World (results w) (opts w) n (cache w) (domains w) (stops w).
Definition set_cache (c : list (string → option string)) (w : world) : world :=
  World (results w) (opts w) (net w) c (domains w) (stops w).
Definition set_domains (d : list (string → option string)) (w : world) : world :=
  World (results w) (opts w) (net w) (cache w) d (stops w).
Definition set_stops (s : list bool) (w : world) : world :=
  World (results w) (opts w) (net w) (cache w) (domains w) s.

(** ** The monad: state, exceptions and a log of calls *)

Definition M (A : Type) : Type := world → result A * world * list effect.

Definition ret {A} (a : A) : M A := λ w, (Ok a, w, []).
Definition raise {A} (e : exn) : M A := λ w, (Raise e, w, []).
Definition bind {A B} (m : M A) (k : A → M B) : M B :=
  λ w, match m w with
       | (Ok a, w1, l1) =>
           match k a w1 with (r, w2, l2) => (r, w2, l1 ++ l2) end
       | (Raise e, w1, l1) => (Raise e, w1, l1)
       end.
(** [try: m except Exception as e: h e]. *)
Definition try_except {A} (m : M A) (h : exn → M A) : M A :=
  λ w, match m w with
       | (Ok a, w1, l1) => (Ok a, w1, l1)
       | (Raise e, w1, l1) =>
           match h e w1 with (r, w2, l2) => (r, w2, l1 ++ l2) end
       end.
(** The outcome of a pure library call. *)
Definition lift {A} (r : result A) : M A := λ w, (r, w, []).
Definition emit (e : effect) : M unit := λ w, (Ok tt, w, [e]).

Notation "'let*' x ':=' m 'in' k" := (bind m (λ x, k))
  (at level 10, x pattern, m at level 100, k at level 200).
Notation "m ';;' k" := (bind m (λ _, k))
  (at level 100, k at level 200, right associativity).

(** The value, the world and the calls of an outcome. *)
Definition value {A} (o : result A * world * list effect) : result A := o.1.1.
Definition after {A} (o : result A * world * list effect) : world := o.1.2.
Definition calls {A} (o : result A * world * list effect) : list effect := o.2.

(** [self.sf.debug], [self.sf.error(msg, False)]. *)
Definition debug (msg : string) : M unit := emit (SfDebug msg).
Definition error (msg : string) : M unit := emit (SfError msg).

(** [self.opts[k]]. *)
Definition opts_item (k : string) : M pyval :=
  λ w, match opts w !! k with
       | Some v => (Ok v, w, [])
       | None => (Raise (KeyError k), w, [])
       end.
(** [self.opts.get(k, d)]. *)
Definition opts_get (k : string) (d : pyval) : M pyval :=
  λ w, (Ok (default d (opts w !! k)), w, []).

(** [self.sf.fetchUrl(url, timeout=.., useragent=..)['content']]. *)
Definition fetchUrl (url : string) (timeout useragent : pyval) : M (option string) :=
  λ w, match net w with
       | [] => (Ok None, w, [FetchUrl url timeout useragent])
       | f :: rest => (Ok (f url), set_net rest w, [FetchUrl url timeout useragent])
       end.
(** [self.sf.cacheGet(key, period)]. *)
Definition cacheGet (key : string) (period : pyval) : M (option string) :=
  λ w, match cache w with
       | [] => (Ok None, w, [CacheGet key period])
       | f :: rest => (Ok (f key), set_cache rest w, [CacheGet key period])
       end.
(** [self.sf.cachePut(key, content)]. *)
Definition cachePut (key content : string) : M unit := emit (CachePut key content).
(** [self.sf.hostDomain(host, tlds)]. *)
Definition hostDomain (host : string) (tlds : pyval) : M (option string) :=
  λ w, match domains w with
       | [] => (Ok None, w, [HostDomain host tlds])
       | f :: rest => (Ok (f host), set_domains rest w, [HostDomain host tlds])
       end.
(** [self.checkForStop()]. *)
Definition checkForStop : M bool :=
  λ w, match stops w with
       | [] => (Ok false, w, [CheckForStop])
       | b :: rest => (Ok b, set_stops rest w, [CheckForStop])
       end.
(** [self.notifyListeners(evt)]. *)
Definition notifyListeners (evt : event) : M unit := emit (NotifyListeners evt).
Definition enter (fn : string) (args : list string) : M unit := emit (Enter fn args).

(** ** The configured checks *)

(** One entry of the [malchecks] dictionary; [c_regex] is the optional
    ['regex'] key. *)
Record check := MkCheck {
  c_id : string;
  c_type : string;
  c_checks : list string;
  c_url : string;
  c_badregex : list string;
  c_goodregex : list string;
  c_regex : option string
}.

(** The dictionary as shipped, in insertion order. *)
Definition malchecks : list (string * check) :=
  [ ("Watchguard Reputation Authority Lookup",
     {| c_id := "_watchguard";
        c_type := "query";
        c_checks := ["ip"];
        c_url := "http://reputationauthority.org/lookup?ip={0}";
        c_badregex := [".*>[6-9][0-9]/100 </td>.*"; ".*>100/100 </td>.*"];
        c_goodregex := [];
        c_regex := None |}) ].

(** The default options of the class. *)
Definition default_opts : gmap string pyval := {[ "checkaffiliates" := PyBool true ]}.

(** [x in l] on a list of strings. *)
Definition str_in (x : string) (l : list string) : bool := existsb (String.eqb x) l.

(** [self.__name__], as the module loader sets it. *)
Definition self_name : string := "sfp_watchguard".

Section Plugin.
Context {rt : PyRuntime}.
(** The dictionary the functions iterate over; the module as shipped is the
    instance at [malchecks]. *)
Variable table : list (string * check).

(** [setup]: a fresh [results] store, and the user's options written over
    the current ones. *)
Definition setup (userOpts : gmap string pyval) : M unit :=
  λ w, (Ok tt, set_opts (userOpts ∪ opts w) (set_results (Some ∅) w), []).

Definition watchedEvents : list string := ["IP_ADDRESS"; "AFFILIATE_IPADDR"].
Definition producedEvents : list string :=
  ["MALICIOUS_IPADDR"; "MALICIOUS_AFFILIATE_IPADDR"].

(** The flags [contentMalicious] passes to [re.match]. *)
Definition flags_content : re_flags := ReFlags true true.
(** The flags of the list resolver: [re.IGNORECASE] alone. *)
Definition flags_list : re_flags := ReFlags true false.

(** One of the two [for rx in ...] loops of [contentMalicious]: [true] when
    the loop returned, after its trace line. *)
Fixpoint match_any (msg content : string) (rxs : list string) : M bool :=
  match rxs with
  | [] => ret false
  | rx :: rest =>
      let* m := lift (re_match rx content flags_content) in
      if m then debug (msg +:+ rx);; ret true
      else match_any msg content rest
  end.

(** [contentMalicious]: [Some true] is True, [Some false] is False, [None]
    is None. *)
Definition contentMalicious (content : string) (goodregex badregex : list string)
  : M (option bool) :=
  let* bad := (if (0 <? length badregex)%nat
               then match_any "Found to be bad against bad regex: " content badregex
               else ret false) in
  if bad then ret (Some true)
  else
    let* good := (if (0 <? length goodregex)%nat
                  then match_any "Found to be good againt good regex: " content goodregex
                  else ret false) in
    if good then ret (Some false)
    else debug "Neither good nor bad, unknown.";; ret None.

(** The loop of [resourceQuery] over the dictionary. *)
Fixpoint resourceQuery_loop (tbl : list (string * check)) (id target : string)
  : M (option string) :=
  match tbl with
  | [] => ret None
  | (check, ck) :: rest =>
      let cid := c_id ck in
      if String.eqb id cid && String.eqb (c_type ck) "query" then
        let url := c_url ck in
        let* u := lift (str_format url target) in
        let* timeout := opts_item "_fetchtimeout" in
        let* useragent := opts_item "_useragent" in
        let* content := fetchUrl u timeout useragent in
        match content with
        | None =>
            let* u := lift (str_format url target) in
            error ("Unable to fetch " +:+ u);; ret None
        | Some content =>
            let* verdict := contentMalicious content (c_goodregex ck) (c_badregex ck) in
            match verdict with
            | Some true => let* u := lift (str_format url target) in ret (Some u)
            | _ => resourceQuery_loop rest id target
            end
        end
      else resourceQuery_loop rest id target
  end.

Definition resourceQuery (id target targetType : string) : M (option string) :=
  enter "resourceQuery" [id; target; targetType];;
  debug ("Querying " +:+ id +:+ " for maliciousness of " +:+ target);;
  resourceQuery_loop table id target.

(** The list of a check: from the cache, or fetched and cached.  [None]
    when the fetch failed, after the error was reported. *)
Definition list_content (cid url : string) : M (option string) :=
  let* period := opts_get "cacheperiod" (PyInt 0) in
  let* cached := cacheGet ("sfmal_" +:+ cid) period in
  match cached with
  | Some content => ret (Some content)
  | None =>
      let* timeout := opts_item "_fetchtimeout" in
      let* useragent := opts_item "_useragent" in
      let* fetched := fetchUrl url timeout useragent in
      match fetched with
      | None => error ("Unable to fetch " +:+ url);; ret None
      | Some content => cachePut ("sfmal_" +:+ cid) content;; ret (Some content)
      end
  end.

(** The first occurrence of the compiled pattern on each line that has
    one: [grp[0]], a string or, with several groups, a tuple. *)
Fixpoint regex_iplist (rx : string) (lines : list string) : list found :=
  match lines with
  | [] => []
  | line :: rest =>
      match re_findall rx flags_list line with
      | [] => regex_iplist rx rest
      | g :: _ => g :: regex_iplist rx rest
      end
  end.

(** The [for ip in iplist] loop of the netblock branch.  The test
    [len(ip) < 8 or ip.startswith("#")] stands before the guarded block: on
    a tuple [len] counts the groups, and a tuple that passes it has no
    [startswith]. *)
Fixpoint netblock_scan (check url target : string) (iplist : list found)
  : M (option string) :=
  match iplist with
  | [] => ret None
  | FoundTuple groups :: rest =>
      if (length groups <? 8)%nat
      then netblock_scan check url target rest
      else raise (AttributeError "'tuple' object has no attribute 'startswith'")
  | FoundStr ip :: rest =>
      if (String.length ip <? 8)%nat || startswith "#" ip
      then netblock_scan check url target rest
      else
        let ip := str_strip ip in
        match ip_in_network ip target with
        | Ok true =>
            debug (ip +:+ " found within netblock/subnet " +:+ target
                      +:+ " in " +:+ check);;
            ret (Some url)
        | Ok false => netblock_scan check url target rest
        | Raise e =>
            debug ("Error encountered parsing: " +:+ str_exn e);;
            netblock_scan check url target rest
        end
  end.

(** The test of one line in the branch without a line template. *)
Definition line_hit (target targetType targetDom line : string) : bool :=
  String.eqb line target
  || String.eqb targetType "domain" && String.eqb line targetDom.

(** The [for line in ...] loop of the branch with a line template: [true]
    when a line matched. *)
Fixpoint regex_scan (rxDom rxTgt targetType : string) (lines : list string) : M bool :=
  match lines with
  | [] => ret false
  | line :: rest =>
      let* hit :=
        (if String.eqb targetType "domain"
         then let* m := lift (re_match rxDom line flags_list) in
              if m then ret true else lift (re_match rxTgt line flags_list)
         else lift (re_match rxTgt line flags_list)) in
      if hit then ret true else regex_scan rxDom rxTgt targetType rest
  end.

(** The loop of [resourceList] over the dictionary. *)
Fixpoint resourceList_loop (tbl : list (string * check))
    (id target targetType targetDom : string) : M (option string) :=
  match tbl with
  | [] => ret None
  | (check, ck) :: rest =>
      let cid := c_id ck in
      if String.eqb id cid && String.eqb (c_type ck) "list" then
        let url := c_url ck in
        let* content := list_content cid url in
        match content with
        | None => ret None
        | Some content =>
            if String.eqb targetType "netblock" then
              let* iplist :=
                match c_regex ck with
                | Some r =>
                    let rx := str_replace "{0}" "(\d+\.\d+\.\d+\.\d+)" r in
                    lift (re_compile rx flags_list);;
                    debug ("New regex for " +:+ check +:+ ": " +:+ rx);;
                    ret (regex_iplist rx (str_split "010" content))
                | None => ret (map FoundStr (str_split "010" content))
                end in
              netblock_scan check url target iplist
            else
              let found_msg :=
                target +:+ "/" +:+ targetDom +:+ " found in " +:+ check +:+ " list." in
              match c_regex ck with
              | None =>
                  if existsb (line_hit target targetType targetDom)
                       (str_split "010" content)
                  then debug found_msg;; ret (Some url)
                  else resourceList_loop rest id target targetType targetDom
              | Some r =>
                  let* found :=
                    try_except
                      (let* rxDom := lift (str_format r targetDom) in
                       let* rxTgt := lift (str_format r target) in
                       let* hit := regex_scan rxDom rxTgt targetType
                                     (str_split "010" content) in
                       if hit then debug found_msg;; ret true else ret false)
                      (λ e, debug ("Error encountered parsing 2: " +:+ str_exn e);;
                            ret false) in
                  if found then ret (Some url)
                  else resourceList_loop rest id target targetType targetDom
              end
        end
      else resourceList_loop rest id target targetType targetDom
  end.

Definition resourceList (id target targetType : string) : M (option string) :=
  enter "resourceList" [id; target; targetType];;
  let* targetDom :=
    (if String.eqb targetType "domain" then
       let* tlds := opts_item "_internettlds" in
       hostDomain target tlds
     else ret (Some "")) in
  match targetDom with
  | None => ret None
  | Some targetDom =>
      if String.eqb targetType "domain" && String.eqb targetDom "" then ret None
      else resourceList_loop table id target targetType targetDom
  end.

(** The loop of [lookupItem] over the dictionary. *)
Fixpoint lookupItem_loop (tbl : list (string * check))
    (resourceId itemType target : string) : M (option string) :=
  match tbl with
  | [] => ret None
  | (check, ck) :: rest =>
      let cid := c_id ck in
      if String.eqb cid resourceId && str_in itemType (c_checks ck) then
        debug ("Checking maliciousness of " +:+ target +:+ " (" +:+ itemType
                  +:+ ") with: " +:+ cid);;
        if String.eqb (c_type ck) "query" then resourceQuery cid target itemType
        else if String.eqb (c_type ck) "list" then resourceList cid target itemType
        else lookupItem_loop rest resourceId itemType target
      else lookupItem_loop rest resourceId itemType target
  end.

Definition lookupItem (resourceId itemType target : string) : M (option string) :=
  enter "lookupItem" [resourceId; itemType; target];;
  lookupItem_loop table resourceId itemType target.

(** The assignments to [typeId] and [evtType] in the body of the dispatch
    loop; [None] is a local that was never assigned. *)
Definition route (eventName : string) (locals : option string * option string)
  : option string * option string :=
  let locals :=
    if str_in eventName ["IP_ADDRESS"; "AFFILIATE_IPADDR"] then
      (Some "ip",
       if String.eqb eventName "IP_ADDRESS" then Some "MALICIOUS_IPADDR"
       else Some "MALICIOUS_AFFILIATE_IPADDR")
    else locals in
  let locals :=
    if str_in eventName ["BGP_AS_OWNER"; "BGP_AS_MEMBER"] then
      (Some "asn", Some "MALICIOUS_ASN")
    else locals in
  let locals :=
    if str_in eventName ["INTERNET_NAME"; "CO_HOSTED_SITE"; "AFFILIATE_INTERNET_NAME"] then
      let evtType := locals.2 in
      let evtType :=
        if String.eqb eventName "INTERNET_NAME"
        then Some "MALICIOUS_INTERNET_NAME" else evtType in
      let evtType :=
        if String.eqb eventName "AFFILIATE_INTERNET_NAME"
        then Some "MALICIOUS_AFFILIATE_INTERNET_NAME" else evtType in
      let evtType :=
        if String.eqb eventName "CO_HOSTED_SITE"
        then Some "MALICIOUS_COHOST" else evtType in
      (Some "domain", evtType)
    else locals in
  let locals :=
    if String.eqb eventName "NETBLOCK_OWNER"
    then (Some "netblock", Some "MALICIOUS_NETBLOCK") else locals in
  let locals :=
    if String.eqb eventName "NETBLOCK_MEMBER"
    then (Some "netblock", Some "MALICIOUS_SUBNET") else locals in
  locals.

(** Reading a local: unbound locals raise. *)
Definition local (name : string) (v : option string) : M string :=
  match v with
  | Some x => ret x
  | None => raise (UnboundLocalError name)
  end.

(** The [for check in ...] loop of [handleEvent]; the locals [typeId] and
    [evtType] live across iterations. *)
Fixpoint dispatch (tbl : list (string * check)) (event : event)
    (locals : option string * option string) : M unit :=
  match tbl with
  | [] => ret tt
  | (check, ck) :: rest =>
      let eventName := eventType event in
      let eventData := data event in
      let cid := c_id ck in
      let* enabled := opts_item cid in
      if truthy enabled then
        let locals := route eventName locals in
        let* typeId := local "typeId" locals.1 in
        let* url := lookupItem cid typeId eventData in
        let* stop := checkForStop in
        if stop then ret tt
        else
          match url with
          | Some url =>
              let text := check +:+ " [" +:+ eventData +:+ "]" +:+ String "010" ""
                            +:+ "<SFURL>" +:+ url +:+ "</SFURL>" in
              let* evtType := local "evtType" locals.2 in
              notifyListeners (SpiderFootEvent evtType text self_name (Some event));;
              dispatch rest event locals
          | None => dispatch rest event locals
          end
      else dispatch rest event locals
  end.

(** [eventData in self.results]. *)
Definition results_contains (k : string) : M bool :=
  λ w, match results w with
       | Some r => (Ok (bool_decide (is_Some (r !! k))), w, [])
       | None => (Raise (TypeError "argument of type 'NoneType' is not iterable"), w, [])
       end.
(** [self.results[eventData] = True]. *)
Definition results_mark (k : string) : M unit :=
  λ w, match results w with
       | Some r => (Ok tt, set_results (Some (<[k := true]> r)) w, [])
       | None => (Raise (TypeError "'NoneType' object does not support item assignment"), w, [])
       end.

(** [eventName == kind and not self.opts.get(opt, False)]. *)
Definition gated (eventName kind opt : string) : M bool :=
  if String.eqb eventName kind then
    let* v := opts_get opt (PyBool false) in ret (negb (truthy v))
  else ret false.

Definition handleEvent (event : event) : M unit :=
  let eventName := eventType event in
  let srcModuleName := module event in
  let eventData := data event in
  debug ("Received event, " +:+ eventName +:+ ", from " +:+ srcModuleName);;
  let* seen := results_contains eventData in
  if seen then debug ("Skipping " +:+ eventData +:+ ", already checked.");; ret tt
  else
    results_mark eventData;;
    let* g := gated eventName "CO_HOSTED_SITE" "checkcohosts" in
    if g then ret tt else
    let* g := gated eventName "AFFILIATE_IPADDR" "checkaffiliates" in
    if g then ret tt else
    let* g := gated eventName "NETBLOCK_OWNER" "checknetblocks" in
    if g then ret tt else
    let* g := gated eventName "NETBLOCK_MEMBER" "checksubnets" in
    if g then ret tt else
    dispatch table event (None, None).

End Plugin.

(** ** A model of [re] on a fragment of its pattern syntax

    Strings are sequences of code points below 256.  The fragment has
    literals, [.], escaped punctuation, [\d], bracketed classes of
    characters and ranges (optionally negated), the postfix operators
    [*], [+] and [?], grouping and alternation.  A pattern outside the
    fragment is rejected like one that does not compile. *)
Module PyRe.

Inductive atom :=
| AChr (c : ascii)
| AAny
| ACls (neg : bool) (ranges : list (ascii * ascii)).

Inductive regex :=
| Nul
| Eps
| Atom (a : atom)
| Cat (r1 r2 : regex)
| Alt (r1 r2 : regex)
| Star (r : regex)
| Grp (r : regex).

(** Case mapping below 256: the letters of ASCII and of Latin-1. *)
Definition is_upper (c : ascii) : bool :=
  let n := N_of_ascii c in
  ((65 <=? n) && (n <=? 90) || (192 <=? n) && (n <=? 222) && negb (n =? 215))%N.
Definition is_lower (c : ascii) : bool :=
  let n := N_of_ascii c in
  ((97 <=? n) && (n <=? 122) || (224 <=? n) && (n <=? 254) && negb (n =? 247))%N.
Definition lower (c : ascii) : ascii :=
  if is_upper c then ascii_of_N (N_of_ascii c + 32) else c.
Definition upper (c : ascii) : ascii :=
  if is_lower c then ascii_of_N (N_of_ascii c - 32) else c.

Fixpoint str_lower (s : string) : string :=
  match s with
  | "" => ""
  | String c s' => String (lower c) (str_lower s')
  end.

Definition in_ranges (ranges : list (ascii * ascii)) (c : ascii) : bool :=
  existsb (λ '(lo, hi), (N_of_ascii lo <=? N_of_ascii c)%N
                        && (N_of_ascii c <=? N_of_ascii hi)%N) ranges.

(** Whether an atom accepts one character under the flags. *)
Definition atom_ok (fl : re_flags) (a : atom) (d : ascii) : bool :=
  match a with
  | AChr c => if IGNORECASE fl then Ascii.eqb (lower c) (lower d) else Ascii.eqb c d
  | AAny => DOTALL fl || negb (Ascii.eqb d "010")
  | ACls neg ranges =>
      xorb neg (if IGNORECASE fl
                then in_ranges ranges (lower d) || in_ranges ranges (upper d)
                else in_ranges ranges d)
  end.

(** The words a pattern denotes. *)
Inductive matches (fl : re_flags) : regex → string → Prop :=
| m_eps : matches fl Eps ""
| m_atom a d : atom_ok fl a d = true → matches fl (Atom a) (String d "")
| m_cat r1 r2 s1 s2 :
    matches fl r1 s1 → matches fl r2 s2 → matches fl (Cat r1 r2) (s1 +:+ s2)
| m_alt_l r1 r2 s : matches fl r1 s → matches fl (Alt r1 r2) s
| m_alt_r r1 r2 s : matches fl r2 s → matches fl (Alt r1 r2) s
| m_star_nil r : matches fl (Star r) ""
| m_star_app r s1 s2 :
    matches fl r s1 → matches fl (Star r) s2 → matches fl (Star r) (s1 +:+ s2)
| m_grp r s : matches fl r s → matches fl (Grp r) s.

Fixpoint nullable (r : regex) : bool :=
  match r with
  | Nul | Atom _ => false
  | Eps | Star _ => true
  | Cat r1 r2 => nullable r1 && nullable r2
  | Alt r1 r2 => nullable r1 || nullable r2
  | Grp r1 => nullable r1
  end.

(** The derivative of a pattern by one character. *)
Fixpoint deriv (fl : re_flags) (d : ascii) (r : regex) : regex :=
  match r with
  | Nul | Eps => Nul
  | Atom a => if atom_ok fl a d then Eps else Nul
  | Cat r1 r2 =>
      Alt (Cat (deriv fl d r1) r2) (if nullable r1 then deriv fl d r2 else Nul)
  | Alt r1 r2 => Alt (deriv fl d r1) (deriv fl d r2)
  | Star r1 => Cat (deriv fl d r1) (Star r1)
  | Grp r1 => deriv fl d r1
  end.

(** Whether the pattern matches at the start of the string, as [re.match]
    tries it: some prefix of the string is a word of the pattern. *)
Fixpoint match_prefix (fl : re_flags) (r : regex) (s : string) : bool :=
  nullable r
  || match s with
     | "" => false
     | String c s' => match_prefix fl (deriv fl c r) s'
     end.

(** *** Reading a pattern *)

Definition is_alnum (c : ascii) : bool :=
  let n := N_of_ascii c in
  ((48 <=? n) && (n <=? 57) || (65 <=? n) && (n <=? 90)
   || (97 <=? n) && (n <=? 122) || (128 <=? n))%N.

(** The items of a bracketed class up to the closing bracket. *)
Fixpoint parse_class (s : string) : option (list (ascii * ascii) * string) :=
  match s with
  | "" => None
  | String c s1 =>
      if Ascii.eqb c "]" then Some ([], s1)
      else if Ascii.eqb c "\" || Ascii.eqb c "[" || Ascii.eqb c "-" || Ascii.eqb c "^" then None
      else
        match s1 with
        | String m (String hi s2) =>
            if Ascii.eqb m "-" then
              if Ascii.eqb hi "]" || Ascii.eqb hi "\" || Ascii.eqb hi "[" then None
              else if (N_of_ascii c <=? N_of_ascii hi)%N then
                match parse_class s2 with
                | Some (rs, rest) => Some ((c, hi) :: rs, rest)
                | None => None
                end
              else None
            else
              match parse_class s1 with
              | Some (rs, rest) => Some ((c, c) :: rs, rest)
              | None => None
              end
        | _ =>
            match parse_class s1 with
            | Some (rs, rest) => Some ((c, c) :: rs, rest)
            | None => None
            end
        end
  end.

(** A postfix operator after an item, if any. *)
Definition parse_postfix (r : regex) (s : string) : regex * string :=
  match s with
  | String c s' =>
      if Ascii.eqb c "*" then (Star r, s')
      else if Ascii.eqb c "+" then (Cat r (Star r), s')
      else if Ascii.eqb c "?" then (Alt r Eps, s')
      else (r, s)
  | "" => (r, s)
  end.

(** Alternations, sequences and items, by recursive descent. *)
Fixpoint parse_alt (fuel : nat) (s : string) : option (regex * string) :=
  match fuel with
  | O => None
  | S fuel =>
      match parse_seq fuel s with
      | Some (r1, String c s1) =>
          if Ascii.eqb c "|" then
            match parse_alt fuel s1 with
            | Some (r2, s2) => Some (Alt r1 r2, s2)
            | None => None
            end
          else Some (r1, String c s1)
      | other => other
      end
  end
with parse_seq (fuel : nat) (s : string) : option (regex * string) :=
  match fuel with
  | O => None
  | S fuel =>
      match s with
      | "" => Some (Eps, s)
      | String c _ =>
          if Ascii.eqb c "|" || Ascii.eqb c ")" then Some (Eps, s)
          else
            match parse_item fuel s with
            | Some (r1, s1) =>
                let '(r1, s1) := parse_postfix r1 s1 in
                match parse_seq fuel s1 with
                | Some (r2, s2) => Some (Cat r1 r2, s2)
                | None => None
                end
            | None => None
            end
      end
  end
with parse_item (fuel : nat) (s : string) : option (regex * string) :=
  match fuel with
  | O => None
  | S fuel =>
      match s with
      | "" => None
      | String c s1 =>
          if Ascii.eqb c "." then Some (Atom AAny, s1)
          else if Ascii.eqb c "(" then
            match s1 with
            | String q _ =>
                if Ascii.eqb q "?" then None
                else
                  match parse_alt fuel s1 with
                  | Some (r, String e s2) =>
                      if Ascii.eqb e ")" then Some (Grp r, s2) else None
                  | _ => None
                  end
            | "" => None
            end
          else if Ascii.eqb c "[" then
            match s1 with
            | String n s2 =>
                if Ascii.eqb n "^" then
                  match parse_class s2 with
                  | Some ((_ :: _) as rs, rest) => Some (Atom (ACls true rs), rest)
                  | _ => None
                  end
                else
                  match parse_class s1 with
                  | Some ((_ :: _) as rs, rest) => Some (Atom (ACls false rs), rest)
                  | _ => None
                  end
            | "" => None
            end
          else if Ascii.eqb c "\" then
            match s1 with
            | String e s2 =>
                if Ascii.eqb e "d" then Some (Atom (ACls false [("0", "9")]%char), s2)
                else if is_alnum e then None
                else Some (Atom (AChr e), s2)
            | "" => None
            end
          else if Ascii.eqb c "*" || Ascii.eqb c "+" || Ascii.eqb c "?"
                  || Ascii.eqb c "{" || Ascii.eqb c "}" || Ascii.eqb c "^"
                  || Ascii.eqb c "$" || Ascii.eqb c "]" || Ascii.eqb c ")"
                  || Ascii.eqb c "|"
          then None
          else Some (Atom (AChr c), s1)
      end
  end.

(** The pattern a text denotes, when it is in the fragment. *)
Definition re_parse (rx : string) : option regex :=
  match parse_alt (2 * String.length rx + 2) rx with
  | Some (r, "") => Some r
  | _ => None
  end.

Definition unsupported : exn := ReError "pattern outside the modelled fragment".

(** [re.match(rx, s, fl) is not None]. *)
Definition re_match (rx s : string) (fl : re_flags) : result bool :=
  match re_parse rx with
  | Some r => Ok (match_prefix fl r s)
  | None => Raise unsupported
  end.

(** Whether a group stands under [+] in the text of a pattern.  The
    reading of [+] above writes its item twice, which would number such a
    group twice: these patterns are outside the fragment of the search
    ([re.compile] and [re.findall] below). *)
Fixpoint plus_on_group (rx : string) : bool :=
  match rx with
  | String c rest =>
      match rest with
      | String d _ => Ascii.eqb c ")" && Ascii.eqb d "+" || plus_on_group rest
      | "" => false
      end
  | "" => false
  end.

(** [re.compile(rx, fl)], for the search. *)
Definition re_compile (rx : string) (fl : re_flags) : result unit :=
  match re_parse rx with
  | Some _ => if plus_on_group rx then Raise unsupported else Ok tt
  | None => Raise unsupported
  end.

(** *** Searching, by backtracking *)

Fixpoint str_take (n : nat) (s : string) : string :=
  match n, s with
  | S n', String c s' => String c (str_take n' s')
  | _, _ => ""
  end.

(** The number of groups of a pattern; they are numbered from the left by
    their opening parenthesis. *)
Fixpoint groups (r : regex) : nat :=
  match r with
  | Grp r1 => S (groups r1)
  | Cat r1 r2 | Alt r1 r2 => groups r1 + groups r2
  | Star r1 => groups r1
  | _ => 0
  end.

Fixpoint size (r : regex) : nat :=
  match r with
  | Cat r1 r2 | Alt r1 r2 => S (size r1 + size r2)
  | Star r1 | Grp r1 => S (size r1)
  | _ => 1
  end.

(** The first way to match [r] at the start of [s] that the continuation
    accepts, trying the left alternative and the longer repetition first.
    [base] is the number of the first group of [r]; the continuation
    receives the rest of the string and the texts of the groups that took
    part. *)
Fixpoint backtrack {X} (fuel : nat) (fl : re_flags) (r : regex) (base : nat) (s : string)
    (g : list (option string)) (k : string → list (option string) → option X)
  : option X :=
  match fuel with
  | O => None
  | S fuel =>
      match r with
      | Nul => None
      | Eps => k s g
      | Atom a =>
          match s with
          | String d s' => if atom_ok fl a d then k s' g else None
          | "" => None
          end
      | Cat r1 r2 =>
          backtrack fuel fl r1 base s g
            (λ s1 g1, backtrack fuel fl r2 (base + groups r1) s1 g1 k)
      | Alt r1 r2 =>
          match backtrack fuel fl r1 base s g k with
          | Some x => Some x
          | None => backtrack fuel fl r2 (base + groups r1) s g k
          end
      | Star r1 =>
          match backtrack fuel fl r1 base s g
                  (λ s1 g1, if (String.length s1 <? String.length s)%nat
                            then backtrack fuel fl (Star r1) base s1 g1 k else None) with
          | Some x => Some x
          | None => k s g
          end
      | Grp r1 =>
          backtrack fuel fl r1 (S base) s g
            (λ s1 g1,
               k s1 (<[base := Some (str_take (String.length s - String.length s1) s)]> g1))
      end
  end.

(** The item [re.findall] gives for one match: the whole match without
    groups, the text of the group with one, the tuple of the texts with
    several; a group that took no part gives the empty text. *)
Definition found_item (whole : string) (g : list (option string)) : found :=
  match g with
  | [] => FoundStr whole
  | [x] => FoundStr (default "" x)
  | _ => FoundTuple (map (default "") g)
  end.

(** The matches from left to right, without overlap. *)
Fixpoint findall_go (fuel : nat) (fl : re_flags) (r : regex) (s : string) : list found :=
  match fuel with
  | O => []
  | S fuel =>
      let next := match s with
                  | "" => []
                  | String _ s' => findall_go fuel fl r s'
                  end in
      match backtrack (size r * (String.length s + 2)) fl r 0 s
              (replicate (groups r) None) (λ s1 g, Some (s1, g)) with
      | Some (s1, g) =>
          let whole := str_take (String.length s - String.length s1) s in
          let item := found_item whole g in
          if (String.length s1 <? String.length s)%nat
          then item :: findall_go fuel fl r s1
          else item :: next
      | None => next
      end
  end.

(** [re.findall(re.compile(rx, fl), s)]. *)
Definition re_findall (rx : string) (fl : re_flags) (s : string) : list found :=
  match re_parse rx with
  | Some r => if plus_on_group rx then [] else findall_go (String.length s + 1) fl r s
  | None => []
  end.

End PyRe.

(** ** A model of [str.format] with one positional argument

    Replacement fields [{0}] and [{}] and the doubled braces; a field that
    asks for a further argument (a second [{}], or [{1}] to [{9}]) raises
    IndexError, and any other field is rejected. *)
Module PyFormat.

Inductive numbering := Unset | Manual | Auto.

Definition prepend (p : string) (r : result string) : result string :=
  match r with
  | Ok s => Ok (p +:+ s)
  | Raise e => Raise e
  end.

Fixpoint format_go (mode : numbering) (t arg : string) : result string :=
  match t with
  | "" => Ok ""
  | String c t1 =>
      if Ascii.eqb c "{" then
        match t1 with
        | String c2 t2 =>
            if Ascii.eqb c2 "{" then prepend "{" (format_go mode t2 arg)
            else if Ascii.eqb c2 "}" then
              match mode with
              | Manual => Raise (FormatError "cannot switch from manual field specification to automatic field numbering")
              | Auto => Raise (IndexError "Replacement index 1 out of range for positional args tuple")
              | Unset => prepend arg (format_go Auto t2 arg)
              end
            else if Ascii.eqb c2 "0" then
              match t2 with
              | String c3 t3 =>
                  if Ascii.eqb c3 "}" then
                    match mode with
                    | Auto => Raise (FormatError "cannot switch from automatic field numbering to manual field specification")
                    | _ => prepend arg (format_go Manual t3 arg)
                    end
                  else Raise (FormatError "replacement field outside the modelled fragment")
              | "" => Raise (FormatError "expected '}' before end of string")
              end
            else if (49 <=? N_of_ascii c2)%N && (N_of_ascii c2 <=? 57)%N then
              match t2 with
              | String c3 _ =>
                  if Ascii.eqb c3 "}" then
                    match mode with
                    | Auto => Raise (FormatError "cannot switch from automatic field numbering to manual field specification")
                    | _ => Raise (IndexError ("Replacement index " +:+ String c2 ""
                                               +:+ " out of range for positional args tuple"))
                    end
                  else Raise (FormatError "replacement field outside the modelled fragment")
              | "" => Raise (FormatError "expected '}' before end of string")
              end
            else Raise (FormatError "replacement field outside the modelled fragment")
        | "" => Raise (FormatError "Single '{' encountered in format string")
        end
      else if Ascii.eqb c "}" then
        match t1 with
        | String c2 t2 =>
            if Ascii.eqb c2 "}" then prepend "}" (format_go mode t2 arg)
            else Raise (FormatError "Single '}' encountered in format string")
        | "" => Raise (FormatError "Single '}' encountered in format string")
        end
      else prepend (String c "") (format_go mode t1 arg)
  end.

(** [t.format(arg)]. *)
Definition str_format (t arg : string) : result string := format_go Unset t arg.

End PyFormat.

(** ** A model of [netaddr] on dotted-quad IPv4 texts *)
Module NetAddr.

Fixpoint digits (s : string) (acc : N) : option N :=
  match s with
  | "" => Some acc
  | String c s' =>
      let n := N_of_ascii c in
      if ((48 <=? n) && (n <=? 57))%N then digits s' (acc * 10 + (n - 48))%N
      else None
  end.

(** A decimal number without sign or leading zero, at most [bound]. *)
Definition number (bound : N) (s : string) : option N :=
  if String.eqb s "" then None
  else if (1 <? String.length s)%nat && startswith "0" s then None
  else if (3 <? String.length s)%nat then None
  else match digits s 0 with
       | Some n => if (n <=? bound)%N then Some n else None
       | None => None
       end.

Definition parse_ipv4 (s : string) : option N :=
  match str_split "." s with
  | [a; b; c; d] =>
      match number 255 a, number 255 b, number 255 c, number 255 d with
      | Some a, Some b, Some c, Some d =>
          Some (((a * 256 + b) * 256 + c) * 256 + d)%N
      | _, _, _, _ => None
      end
  | _ => None
  end.

(** An address with an optional prefix length. *)
Definition parse_cidr (s : string) : option (N * N) :=
  match str_split "/" s with
  | [a] => match parse_ipv4 a with Some ip => Some (ip, 32%N) | None => None end
  | [a; l] =>
      match parse_ipv4 a, number 32 l with
      | Some ip, Some len => Some (ip, len)
      | _, _ => None
      end
  | _ => None
  end.

Definition contains (net : N * N) (ip : N) : bool :=
  (N.shiftr ip (32 - net.2) =? N.shiftr net.1 (32 - net.2))%N.

(** [IPAddress(ip) in IPNetwork(net)]. *)
Definition ip_in_network (ip net : string) : result bool :=
  match parse_ipv4 ip with
  | None => Raise (AddrFormatError ("failed to detect a valid IP address from '" +:+ ip +:+ "'"))
  | Some i =>
      match parse_cidr net with
      | None => Raise (AddrFormatError ("invalid IPNetwork " +:+ net))
      | Some n => Ok (contains n i)
      end
  end.

End NetAddr.

(** The runtime built from the three models. *)
Definition fragment_runtime : PyRuntime :=
  {| re_match := PyRe.re_match;
     re_compile := PyRe.re_compile;
     re_findall := PyRe.re_findall;
     str_format := PyFormat.str_format;
     ip_in_network := NetAddr.ip_in_network |}.

(** ** Notions the statements use *)

(** The calls that count as an invocation of the resolver for a target:
    the entries of [lookupItem] with that target. *)
Definition is_lookup (target : string) (e : effect) : bool :=
  match e with
  | Enter fn [_; _; t] => String.eqb fn "lookupItem" && String.eqb t target
  | _ => false
  end.

(** Entries of [lookupItem], whatever the target. *)
Definition is_lookup_entry (e : effect) : bool :=
  match e with
  | Enter fn _ => String.eqb fn "lookupItem"
  | _ => false
  end.

Definition is_notify (e : effect) : bool :=
  match e with
  | NotifyListeners _ => true
  | _ => false
  end.

(** An entry of the dictionary that a resolver of the given mode takes up
    for a check identifier. *)
Definition selected (id mode : string) (entry : string * check) : bool :=
  String.eqb id (c_id entry.2) && String.eqb (c_type entry.2) mode.

(** [only_entry tbl id mode name ck]: the entry [(name, ck)] is in the
    dictionary and is the only one selected for [id] and [mode]. *)
Definition only_entry (tbl : list (string * check)) (id mode name : string)
    (ck : check) : Prop :=
  ∃ pre post, tbl = pre ++ (name, ck) :: post
    ∧ selected id mode (name, ck) = true
    ∧ forallb (λ e, negb (selected id mode e)) (pre ++ post) = true.

(** The answer of the next fetch, cache read and base-domain lookup. *)
Definition next_fetch (w : world) (url : string) : option string :=
  match net w with [] => None | f :: _ => f url end.
Definition next_cached (w : world) (key : string) : option string :=
  match cache w with [] => None | f :: _ => f key end.
Definition next_domain (w : world) (host : string) : option string :=
  match domains w with [] => None | f :: _ => f host end.

(** The list of a check is at hand with the given content: the cache has
    it, or the cache misses and the fetch of the check's URL delivers it. *)
Definition list_at_hand (w : world) (cid url content : string) : Prop :=
  next_cached w ("sfmal_" +:+ cid) = Some content
  ∨ (next_cached w ("sfmal_" +:+ cid) = None
     ∧ is_Some (opts w !! "_fetchtimeout") ∧ is_Some (opts w !! "_useragent")
     ∧ next_fetch w url = Some content).

(** A run of the module: the events are handled one after the other, a
    raised exception ending only the handling of its own event. *)
Fixpoint run {rt : PyRuntime} (tbl : list (string * check)) (evs : list event)
    (w : world) : world * list effect :=
  match evs with
  | [] => (w, [])
  | e :: rest =>
      let o := handleEvent tbl e w in
      let '(w', l) := run tbl rest (after o) in
      (w', calls o ++ l)
  end.

(** The number of resolver invocations for a target among some calls. *)
Definition lookups (target : string) (l : list effect) : nat :=
  length (filter (λ e, is_lookup target e = true) l).

(** The nine event kinds the dispatch loop routes. *)
Definition routed_kinds : list string :=
  ["IP_ADDRESS"; "AFFILIATE_IPADDR"; "BGP_AS_OWNER"; "BGP_AS_MEMBER";
   "INTERNET_NAME"; "AFFILIATE_INTERNET_NAME"; "CO_HOSTED_SITE";
   "NETBLOCK_OWNER"; "NETBLOCK_MEMBER"].

(** Whether the gate of an event kind lets it pass under the options. *)
Definition gate_open (o : gmap string pyval) (eventName : string) : bool :=
  let on opt := truthy (default (PyBool false) (o !! opt)) in
  if String.eqb eventName "CO_HOSTED_SITE" then on "checkcohosts"
  else if String.eqb eventName "AFFILIATE_IPADDR" then on "checkaffiliates"
  else if String.eqb eventName "NETBLOCK_OWNER" then on "checknetblocks"
  else if String.eqb eventName "NETBLOCK_MEMBER" then on "checksubnets"
  else true.

(** A candidate that the netblock scan takes for a finding: a string of
    eight characters or more that is no comment and, once stripped, an
    address inside the netblock.  A tuple never is one. *)
Definition netblock_hit {rt : PyRuntime} (target : string) (c : found) : bool :=
  match c with
  | FoundStr ip =>
      (8 <=? String.length ip)%nat && negb (startswith "#" ip)
      && match ip_in_network (str_strip ip) target with
         | Ok true => true
         | _ => false
         end
  | FoundTuple _ => false
  end.

(** A candidate on which the scan breaks: a tuple of eight groups or more. *)
Definition netblock_breaks (c : found) : bool :=
  match c with
  | FoundStr _ => false
  | FoundTuple groups => (8 <=? length groups)%nat
  end.

(** A candidate the scan passes over on its length alone. *)
Definition short (c : found) : Prop :=
  match c with
  | FoundStr ip => (String.length ip < 8)%nat
  | FoundTuple groups => (length groups < 8)%nat
  end.

(** The exception of the scan on a tuple that passes the length test. *)
Definition no_startswith : exn :=
  AttributeError "'tuple' object has no attribute 'startswith'".

(** A bad or good pattern that does not match the content, and one that
    does, as [contentMalicious] evaluates them. *)
Definition misses {rt : PyRuntime} (content rx : string) : Prop :=
  re_match rx content flags_content = Ok false.
Definition hits {rt : PyRuntime} (content rx : string) : Prop :=
  re_match rx content flags_content = Ok true.

(** [first_entry tbl id mode name ck]: the entry [(name, ck)] is the first
    one of the dictionary selected for [id] and [mode]. *)
Definition first_entry (tbl : list (string * check)) (id mode name : string)
    (ck : check) : Prop :=
  ∃ pre post, tbl = pre ++ (name, ck) :: post
    ∧ selected id mode (name, ck) = true
    ∧ forallb (λ e, negb (selected id mode e)) pre = true.

(** The candidate addresses of the netblock branch. *)
Definition candidates {rt : PyRuntime} (ck : check) (content : string) : list found :=
  match c_regex ck with
  | Some r =>
      regex_iplist (str_replace "{0}" "(\d+\.\d+\.\d+\.\d+)" r) (str_split "010" content)
  | None => map FoundStr (str_split "010" content)
  end.

(** The two trace lines of [handleEvent] before the dispatch. *)
Definition received (e : event) : effect :=
  SfDebug ("Received event, " +:+ eventType e +:+ ", from " +:+ module e).
Definition skipping (e : event) : effect :=
  SfDebug ("Skipping " +:+ data e +:+ ", already checked.").

(** What [handleEvent] does once the payload is marked: the four gates and
    the dispatch loop. *)
Definition after_mark {rt : PyRuntime} (table : list (string * check)) (event : event)
  : M unit :=
  let eventName := eventType event in
  let* g := gated eventName "CO_HOSTED_SITE" "checkcohosts" in
  if g then ret tt else
  let* g := gated eventName "AFFILIATE_IPADDR" "checkaffiliates" in
  if g then ret tt else
  let* g := gated eventName "NETBLOCK_OWNER" "checknetblocks" in
  if g then ret tt else
  let* g := gated eventName "NETBLOCK_MEMBER" "checksubnets" in
  if g then ret tt else
  dispatch table table event (None, None).

(** The world after the next answer of a script was consumed. *)
Definition fetched (w : world) : world :=
  match net w with [] => w | _ :: rest => set_net rest w end.
Definition cache_read (w : world) : world :=
  match cache w with [] => w | _ :: rest => set_cache rest w end.
Definition domain_asked (w : world) : world :=
  match domains w with [] => w | _ :: rest => set_domains rest w end.

Definition is_stop (e : effect) : bool :=
  match e with CheckForStop => true | _ => false end.

(** The calls below [lookupItem]: no entry of [lookupItem], no event, no
    poll of the stop signal. *)
Definition inner (e : effect) : bool :=
  negb (is_lookup_entry e) && negb (is_notify e) && negb (is_stop e).

(** A computation that makes inner calls only and leaves the results
    store, the options and the stop script alone. *)
Definition quiet {A} (m : M A) : Prop :=
  ∀ w, Forall (λ e, inner e = true) (calls (m w))
       ∧ results (after (m w)) = results w
       ∧ opts (after (m w)) = opts w
       ∧ stops (after (m w)) = stops w.

(** A computation of [handleEvent] on payload [d]: it leaves the results
    store and the options alone, enters [lookupItem] for [d] only, and at
    most [n] times. *)
Definition tame (d : string) (n : nat) {A} (m : M A) : Prop :=
  ∀ w, results (after (m w)) = results w
       ∧ opts (after (m w)) = opts w
       ∧ (∀ v, v ≠ d → lookups v (calls (m w)) = 0)
       ∧ (∀ v, lookups v (calls (m w)) ≤ n).

(** ** Further notions: lists, templates, routing and findings *)

(** [derives w target ty dom]: the first step of [resourceList] ends with
    the base domain [dom] (the empty text off domains). *)
Definition derives (w : world) (target ty dom : string) : Prop :=
  if String.eqb ty "domain"
  then is_Some (opts w !! "_internettlds") ∧ next_domain w target = Some dom ∧ dom ≠ ""
  else dom = "".
(** The world after that step. *)
Definition derived_world (w : world) (ty : string) : world :=
  if String.eqb ty "domain" then domain_asked w else w.

(** The template patterns on one line of a list, as the loop evaluates
    them: no match, and a match. *)
Definition template_miss {rt : PyRuntime} (rxDom rxTgt ty line : string) : Prop :=
  (ty = "domain" → re_match rxDom line flags_list = Ok false)
  ∧ re_match rxTgt line flags_list = Ok false.
Definition template_hit {rt : PyRuntime} (rxDom rxTgt ty line : string) : Prop :=
  (ty = "domain" ∧ re_match rxDom line flags_list = Ok true)
  ∨ ((ty = "domain" → re_match rxDom line flags_list = Ok false)
     ∧ re_match rxTgt line flags_list = Ok true).

(** The key under which the list of a check is cached. *)
Definition cache_key (cid : string) : string := "sfmal_" +:+ cid.

(** A template pattern whose evaluation on a line raises. *)
Definition template_raises {rt : PyRuntime} (rxDom rxTgt ty line : string) (ex : exn) : Prop :=
  (ty = "domain" ∧ re_match rxDom line flags_list = Raise ex)
  ∨ ((ty = "domain" → re_match rxDom line flags_list = Ok false)
     ∧ re_match rxTgt line flags_list = Raise ex).

(** What the guarded block of the template branch comes to: the two
    patterns are built from the template, then the lines are scanned (the
    scan reads nothing of the world). *)
Definition template_attempt {rt : PyRuntime} (r dom target ty : string)
    (lines : list string) : result bool :=
  match str_format r dom with
  | Raise ex => Raise ex
  | Ok rxDom =>
      match str_format r target with
      | Raise ex => Raise ex
      | Ok rxTgt =>
          value (regex_scan rxDom rxTgt ty lines (World None ∅ [] [] [] []))
      end
  end.

(** An entry that [lookupItem] takes up for an identifier and an indicator kind. *)
Definition item_selected (rid ty : string) (entry : string * check) : bool :=
  String.eqb (c_id entry.2) rid && str_in ty (c_checks entry.2).

(** The answer of the next poll of the stop signal, and the world after it. *)
Definition next_stop (w : world) : bool :=
  match stops w with [] => false | b :: _ => b end.
Definition polled (w : world) : world :=
  match stops w with [] => w | _ :: rest => set_stops rest w end.

(** The gated event kinds with their options. *)
Definition gates : list (string * string) :=
  [ ("CO_HOSTED_SITE", "checkcohosts"); ("AFFILIATE_IPADDR", "checkaffiliates");
    ("NETBLOCK_OWNER", "checknetblocks"); ("NETBLOCK_MEMBER", "checksubnets") ].

(** The routed event kinds with their indicator kind and the kind of the
    event that reports a finding: the assignments of the dispatch loop read
    as a table ([route_table] below shows that [route] computes it). *)
Definition kinds : list (string * (string * string)) :=
  [ ("IP_ADDRESS", ("ip", "MALICIOUS_IPADDR"));
    ("AFFILIATE_IPADDR", ("ip", "MALICIOUS_AFFILIATE_IPADDR"));
    ("BGP_AS_OWNER", ("asn", "MALICIOUS_ASN"));
    ("BGP_AS_MEMBER", ("asn", "MALICIOUS_ASN"));
    ("INTERNET_NAME", ("domain", "MALICIOUS_INTERNET_NAME"));
    ("AFFILIATE_INTERNET_NAME", ("domain", "MALICIOUS_AFFILIATE_INTERNET_NAME"));
    ("CO_HOSTED_SITE", ("domain", "MALICIOUS_COHOST"));
    ("NETBLOCK_OWNER", ("netblock", "MALICIOUS_NETBLOCK"));
    ("NETBLOCK_MEMBER", ("netblock", "MALICIOUS_SUBNET")) ].

Fixpoint kind_row (name : string) (rows : list (string * (string * string)))
  : option (string * string) :=
  match rows with
  | [] => None
  | (k, row) :: rest => if String.eqb name k then Some row else kind_row name rest
  end.

(** The text of a finding. *)
Definition finding_text (check payload url : string) : string :=
  check +:+ " [" +:+ payload +:+ "]" +:+ String "010" ""
    +:+ "<SFURL>" +:+ url +:+ "</SFURL>".

(** A check whose option is present and true. *)
Definition enabled (o : gmap string pyval) (entry : string * check) : bool :=
  match o !! c_id entry.2 with
  | Some v => truthy v
  | None => false
  end.
(** A check whose option is present and false. *)
Definition disabled (o : gmap string pyval) (entry : string * check) : Prop :=
  ∃ v, o !! c_id entry.2 = Some v ∧ truthy v = false.

(** A computation all of whose calls satisfy [P]. *)
Definition only (P : effect → Prop) {A} (m : M A) : Prop :=
  ∀ w, Forall P (calls (m w)).

(** An event among the calls is a finding on the payload of [e] by a check
    of [tbl], of the kind the row of the event kind names. *)
Definition finding_of (tbl : list (string * check)) (e : event) (eff : effect) : Prop :=
  ∀ evt, eff = NotifyListeners evt →
    ∃ name ck url ty kind,
      (name, ck) ∈ tbl
      ∧ kind_row (eventType e) kinds = Some (ty, kind)
      ∧ evt = SpiderFootEvent kind (finding_text name (data e) url) self_name (Some e).

(** ** Scenarios

    Concrete checks, options and worlds on which the statements below are
    exercised. *)

(** The options of a scan with the shipped check enabled. *)
Definition scan_opts : gmap string pyval :=
  <["_watchguard" := PyBool true]>
    (<["_fetchtimeout" := PyInt 5]>
       (<["_useragent" := PyStr "SpiderFoot"]>
          (<["_internettlds" := PyList ["com"; "org"]]> default_opts))).

(** A world after [setup] whose fetches answer the given contents. *)
Definition scan_world (o : gmap string pyval) (answers : list (option string)) : world :=
  World (Some ∅) o (map (λ a _, a) answers) [] [] [].

(** Three query checks on three resources. *)
Definition query_check (id url : string) : check :=
  MkCheck id "query" ["ip"] url [".*bad.*"] [] None.
Definition three_checks : list (string * check) :=
  [ ("First", query_check "_first" "http://first/{0}");
    ("Second", query_check "_second" "http://second/{0}");
    ("Third", query_check "_third" "http://third/{0}") ].
Definition three_opts : gmap string pyval :=
  <["_first" := PyBool true]>
    (<["_second" := PyBool true]> (<["_third" := PyBool true]> scan_opts)).

(** A list check without line template, and a world whose cache holds its list. *)
Definition list_check : check :=
  MkCheck "_list" "list" ["netblock"; "domain"; "ip"] "http://lists/bad.txt" [] [] None.
Definition list_world (content : string) (base : option string) : world :=
  World (Some ∅) (<["_list" := PyBool true]> scan_opts) []
        [λ _, Some content] [λ _, base] [].

Definition an_event (kind payload : string) : event :=
  SpiderFootEvent kind payload "sfp_dnsresolve" None.

(** A list for a line template: a line without address, then a line with
    two. *)
Definition tagged_list : string :=
  "# blocked" +:+ String "010" "ip=10.0.0.9 ip=10.0.0.1".

(** The list of the netblock scenario. *)
Definition sample_list : string :=
  "10.0.0.1" +:+ String "010" ("10.0.0.5" +:+ String "010" ("#comment" +:+ String "010" "bad")).

(** Two query checks on one identifier. *)
Definition two_queries : list (string * check) :=
  [ ("A", query_check "_dup" "http://a/{0}"); ("B", query_check "_dup" "http://b/{0}") ].

(** A list check with a line template, and a second list under the
    identifier of [list_check]. *)
Definition template_check (r : string) : check :=
  MkCheck "_list" "list" ["netblock"; "domain"; "ip"] "http://lists/tpl.txt" [] [] (Some r).
Definition second_list : check :=
  MkCheck "_list" "list" ["netblock"; "domain"; "ip"] "http://lists/second.txt" [] [] None.

(** The shipped check. *)
Definition watchguard : check :=
  MkCheck "_watchguard" "query" ["ip"] "http://reputationauthority.org/lookup?ip={0}"
    [".*>[6-9][0-9]/100 </td>.*"; ".*>100/100 </td>.*"] [] None.

(** * Properties *)

(** ** The monad *)

Lemma bind_ok {A B} (m : M A) (k : A → M B) w a w1 l1 :
  m w = (Ok a, w1, l1) →
  bind m k w = (value (k a w1), after (k a w1), l1 ++ calls (k a w1)).
Proof. intros E. unfold bind. rewrite E. by destruct (k a w1) as [[??]?]. Qed.

Lemma bind_raise {A B} (m : M A) (k : A → M B) w e w1 l1 :
  m w = (Raise e, w1, l1) → bind m k w = (Raise e, w1, l1).
Proof. intros E. unfold bind. by rewrite E. Qed.

(** ** The pattern loops of the classifier *)

Section Classifier.
Context {rt : PyRuntime}.


Lemma match_any_miss msg content rxs w :
  Forall (misses content) rxs → match_any msg content rxs w = (Ok false, w, []).
Proof.
  induction 1 as [|rx rxs Hrx _ IH]; [done|].
  simpl. unfold bind, lift. rewrite Hrx. by rewrite IH.
Qed.

Lemma match_any_first msg content pre rx post w :
  Forall (misses content) pre → hits content rx →
  match_any msg content (pre ++ rx :: post) w = (Ok true, w, [SfDebug (msg +:+ rx)]).
Proof.
  intros Hpre Hrx. induction Hpre as [|p pre Hp _ IH]; simpl.
  - unfold bind, lift. by rewrite Hrx.
  - unfold bind, lift. rewrite Hp. by rewrite IH.
Qed.

Lemma first_hit content rxs :
  Forall (λ rx, ∃ b, re_match rx content flags_content = Ok b) rxs →
  Exists (hits content) rxs →
  ∃ pre rx post, rxs = pre ++ rx :: post ∧ Forall (misses content) pre ∧ hits content rx.
Proof.
  induction 1 as [|rx rxs [b Hb] _ IH]; intros Hex.
  - by apply Exists_nil in Hex.
  - destruct b.
    + by exists [], rx, rxs.
    + apply Exists_cons in Hex as [Hhit|Hex].
      { unfold hits in Hhit. congruence. }
      destruct (IH Hex) as (pre & rx' & post & -> & Hpre & Hrx').
      exists (rx :: pre), rx', post. split; [done|]. split; [|done].
      by constructor.
Qed.

Lemma contentMalicious_first_bad content goodregex pre rx post w :
  Forall (misses content) pre → hits content rx →
  contentMalicious content goodregex (pre ++ rx :: post) w
  = (Ok (Some true), w, [SfDebug ("Found to be bad against bad regex: " +:+ rx)]).
Proof.
  intros Hpre Hrx. unfold contentMalicious.
  erewrite bind_ok.
  2:{ replace (0 <? length (pre ++ rx :: post))%nat with true.
      - by apply match_any_first.
      - symmetry. apply Nat.ltb_lt. rewrite length_app. simpl. lia. }
  done.
Qed.
End Classifier.

(** ** Strings *)

Lemma str_app_cons c s t : String c s +:+ t = String c (s +:+ t).
Proof. reflexivity. Qed.

Lemma str_app_nil_r s : s +:+ "" = s.
Proof. induction s as [|c s IH]; [done|]. by rewrite str_app_cons, IH. Qed.

Lemma str_app_assoc s1 s2 s3 : (s1 +:+ s2) +:+ s3 = s1 +:+ (s2 +:+ s3).
Proof. induction s1 as [|c s1 IH]; [done|]. by rewrite !str_app_cons, IH. Qed.

Lemma str_app_eq_nil s1 s2 : s1 +:+ s2 = "" → s1 = "" ∧ s2 = "".
Proof. destruct s1; [done|]. rewrite str_app_cons. discriminate. Qed.

Lemma str_app_eq_cons s1 s2 d s :
  s1 +:+ s2 = String d s →
  (s1 = "" ∧ s2 = String d s) ∨ (∃ s1', s1 = String d s1' ∧ s = s1' +:+ s2).
Proof.
  destruct s1 as [|c s1]; [by left|]. rewrite str_app_cons. intros E.
  injection E as -> <-. right. by exists s1.
Qed.

Lemma str_split_cons sep s : ∃ h t, str_split sep s = h :: t.
Proof.
  induction s as [|c s (h & t & E)]; simpl; [by eexists _, _|].
  rewrite E. destruct (Ascii.eqb c sep); by eexists _, _.
Qed.

Lemma str_split_join sep s : str_join sep (str_split sep s) = s.
Proof.
  induction s as [|c s IH]; [done|]. simpl.
  destruct (str_split_cons sep s) as (h & t & E). rewrite E in *.
  destruct (Ascii.eqb_spec c sep) as [->|Hne].
  - change (str_join sep ("" :: h :: t)) with (String sep (str_join sep (h :: t))).
    by rewrite IH.
  - destruct t as [|h' t]; simpl in *; [by rewrite IH|].
    by rewrite str_app_cons, IH.
Qed.

(** ** The pattern model *)
Module PyReFacts.
Import PyRe.

Lemma matches_nil_nullable fl r s : matches fl r s → s = "" → nullable r = true.
Proof.
  induction 1 as [|a d Ha|r1 r2 s1 s2 _ IH1 _ IH2|r1 r2 s _ IH|r1 r2 s _ IH
                  |r|r s1 s2 _ _ _ _|r s _ IH]; intros E; simpl; try done.
  - apply str_app_eq_nil in E as [-> ->]. by rewrite IH1, IH2.
  - by rewrite IH.
  - rewrite IH; [|done]. by destruct (nullable r1).
  - by apply IH.
Qed.

Lemma nullable_matches fl r : nullable r = true ↔ matches fl r "".
Proof.
  split; [|intros H; by eapply matches_nil_nullable].
  induction r as [| |a|r1 IH1 r2 IH2|r1 IH1 r2 IH2|r _|r IH]; simpl; intros H; try done.
  - constructor.
  - apply andb_true_iff in H as [H1 H2].
    change "" with ("" +:+ ""). constructor; auto.
  - apply orb_true_iff in H as [H|H]; [apply m_alt_l|apply m_alt_r]; auto.
  - constructor.
  - constructor; auto.
Qed.

Lemma deriv_sound fl d r s : matches fl (deriv fl d r) s → matches fl r (String d s).
Proof.
  revert s. induction r as [| |a|r1 IH1 r2 IH2|r1 IH1 r2 IH2|r IH|r IH];
    simpl; intros s H.
  - inversion H.
  - inversion H.
  - destruct (atom_ok fl a d) eqn:Ha; inversion H; subst. by constructor.
  - inversion H as [| | |? ? ? H1|? ? ? H1| | |]; subst.
    + inversion H1 as [| |? ? s1 s2 Hd H2| | | | |]; subst.
      change (String d (s1 +:+ s2)) with (String d s1 +:+ s2).
      constructor; auto.
    + destruct (nullable r1) eqn:Hn; [|inversion H1].
      change (String d s) with ("" +:+ String d s).
      constructor; [by apply nullable_matches|auto].
  - inversion H; subst; [apply m_alt_l|apply m_alt_r]; auto.
  - inversion H as [| |? ? s1 s2 Hd H2| | | | |]; subst.
    change (String d (s1 +:+ s2)) with (String d s1 +:+ s2).
    constructor; auto.
  - constructor; auto.
Qed.

Lemma deriv_complete fl r s' :
  matches fl r s' → ∀ d s, s' = String d s → matches fl (deriv fl d r) s.
Proof.
  induction 1 as [|a d0 Ha|r1 r2 s1 s2 H1 IH1 H2 IH2|r1 r2 s0 _ IH|r1 r2 s0 _ IH
                  |r|r s1 s2 H1 IH1 H2 IH2|r s0 _ IH]; intros d s E; simpl.
  - discriminate.
  - injection E as -> <-. rewrite Ha. constructor.
  - apply str_app_eq_cons in E as [[-> ->]|(s1' & -> & ->)].
    + apply m_alt_r. rewrite (matches_nil_nullable _ _ _ H1 eq_refl). by apply IH2.
    + apply m_alt_l. constructor; [by apply IH1|done].
  - apply m_alt_l. by apply IH.
  - apply m_alt_r. by apply IH.
  - discriminate.
  - apply str_app_eq_cons in E as [[-> ->]|(s1' & -> & ->)].
    + by apply IH2.
    + constructor; [by apply IH1|done].
  - by apply IH.
Qed.

(** [match_prefix] decides whether a prefix of the string is a word of the
    pattern. *)
Lemma match_prefix_spec fl r s :
  match_prefix fl r s = true ↔ ∃ p q, s = p +:+ q ∧ matches fl r p.
Proof.
  revert r. induction s as [|c s IH]; intros r; simpl.
  - rewrite orb_false_r, nullable_matches. split.
    + intros H. by exists "", "".
    + intros (p & q & E & H). symmetry in E. by apply str_app_eq_nil in E as [-> _].
  - rewrite orb_true_iff, IH. split.
    + intros [H|(p & q & -> & H)].
      * exists "", (String c s). split; [done|]. by apply nullable_matches.
      * exists (String c p), q. split; [done|]. by apply deriv_sound.
    + intros (p & q & E & H). symmetry in E.
      apply str_app_eq_cons in E as [[-> _]|(p' & -> & ->)].
      * left. by eapply nullable_matches.
      * right. exists p', q. split; [done|]. by eapply deriv_complete.
Qed.

Lemma lower_idem d : lower (lower d) = lower d.
Proof. by destruct d as [[] [] [] [] [] [] [] []]. Qed.

Lemma upper_lower d : upper (lower d) = upper d.
Proof. by destruct d as [[] [] [] [] [] [] [] []]. Qed.

Lemma lower_newline d : Ascii.eqb (lower d) "010" = Ascii.eqb d "010".
Proof. by destruct d as [[] [] [] [] [] [] [] []]. Qed.

Lemma atom_ok_lower fl a d :
  IGNORECASE fl = true → atom_ok fl a (lower d) = atom_ok fl a d.
Proof.
  intros Hi. destruct a as [c| |neg rs]; simpl; rewrite ?Hi.
  - by rewrite lower_idem.
  - by rewrite lower_newline.
  - by rewrite lower_idem, upper_lower.
Qed.

Lemma deriv_lower fl d r :
  IGNORECASE fl = true → deriv fl (lower d) r = deriv fl d r.
Proof.
  intros Hi.
  induction r as [| |a|r1 IH1 r2 IH2|r1 IH1 r2 IH2|r IH|r IH]; simpl;
    rewrite ?atom_ok_lower, ?IH1, ?IH2, ?IH by done; done.
Qed.

Lemma match_prefix_lower fl r s :
  IGNORECASE fl = true → match_prefix fl r (str_lower s) = match_prefix fl r s.
Proof.
  intros Hi. revert r. induction s as [|c s IH]; intros r; simpl; [done|].
  by rewrite deriv_lower, IH.
Qed.

Lemma star_any_dotall fl s : DOTALL fl = true → matches fl (Star (Atom AAny)) s.
Proof.
  intros Hd. induction s as [|c s IH]; [constructor|].
  change (String c s) with (String c "" +:+ s).
  constructor; [|done]. constructor. simpl. by rewrite Hd.
Qed.

Lemma match_prefix_span fl r a s :
  DOTALL fl = true → match_prefix fl r s = true →
  match_prefix fl (Cat (Star (Atom AAny)) r) (a +:+ s) = true.
Proof.
  intros Hd. rewrite !match_prefix_spec. intros (p & q & -> & H).
  exists (a +:+ p), q. split; [by rewrite str_app_assoc|].
  constructor; [by apply star_any_dotall|done].
Qed.

End PyReFacts.


(** ** Inner calls: what [lookupItem] and the resolvers may do *)

Lemma bind_cases {A B} (m : M A) (k : A → M B) w :
  (∃ a, value (m w) = Ok a
        ∧ bind m k w = (value (k a (after (m w))), after (k a (after (m w))),
                        calls (m w) ++ calls (k a (after (m w)))))
  ∨ (∃ e, value (m w) = Raise e ∧ bind m k w = (Raise e, after (m w), calls (m w))).
Proof.
  unfold bind, value, after, calls. destruct (m w) as [[[a|e] w1] l1]; simpl.
  - left. exists a. split; [done|]. by destruct (k a w1) as [[??]?].
  - right. by exists e.
Qed.

Section Quiet.
Context {rt : PyRuntime}.
Variable table : list (string * check).

Lemma quiet_ret {A} (a : A) : quiet (ret a).
Proof. by intros w. Qed.
Lemma quiet_raise {A} e : quiet (@raise A e).
Proof. by intros w. Qed.
Lemma quiet_lift {A} (r : result A) : quiet (lift r).
Proof. by intros w. Qed.
Lemma quiet_emit e : inner e = true → quiet (emit e).
Proof. intros H w. repeat split. by repeat constructor. Qed.
Lemma quiet_bind {A B} (m : M A) (k : A → M B) :
  quiet m → (∀ a, quiet (k a)) → quiet (bind m k).
Proof.
  intros Hm Hk w. destruct (Hm w) as (H1 & H2 & H3 & H4).
  destruct (bind_cases m k w) as [(a & _ & ->)|(e & _ & ->)]; [|done].
  destruct (Hk a (after (m w))) as (K1 & K2 & K3 & K4).
  unfold calls, after in *; simpl. repeat split; try congruence.
  by apply Forall_app.
Qed.
Lemma quiet_try {A} (m : M A) h : quiet m → (∀ e, quiet (h e)) → quiet (try_except m h).
Proof.
  intros Hm Hh w. destruct (Hm w) as (H1 & H2 & H3 & H4). unfold try_except.
  destruct (m w) as [[[a|e] w1] l1]; [done|].
  destruct (Hh e w1) as (K1 & K2 & K3 & K4). unfold calls, after in *; simpl in *.
  destruct (h e w1) as [[r w2] l2]; simpl in *. repeat split; try congruence.
  by apply Forall_app.
Qed.
Lemma quiet_opts_item k : quiet (opts_item k).
Proof. intros w. unfold opts_item. by destruct (opts w !! k). Qed.
Lemma quiet_opts_get k d : quiet (opts_get k d).
Proof. by intros w. Qed.
Lemma quiet_fetchUrl u t a : quiet (fetchUrl u t a).
Proof. intros w. unfold fetchUrl. destruct (net w); repeat split; by repeat constructor. Qed.
Lemma quiet_cacheGet k p : quiet (cacheGet k p).
Proof. intros w. unfold cacheGet. destruct (cache w); repeat split; by repeat constructor. Qed.
Lemma quiet_hostDomain h t : quiet (hostDomain h t).
Proof. intros w. unfold hostDomain. destruct (domains w); repeat split; by repeat constructor. Qed.

Create HintDb quiet.

Ltac quiet_step :=
  first
    [ assumption
    | solve [auto 1 with quiet nocore]
    | apply quiet_ret | apply quiet_raise | apply quiet_lift
    | apply quiet_opts_item | apply quiet_opts_get | apply quiet_fetchUrl
    | apply quiet_cacheGet | apply quiet_hostDomain
    | apply quiet_emit; reflexivity
    | apply quiet_bind; [|intros ?]
    | apply quiet_try; [|intros ?]
    | match goal with
      | |- quiet (match ?x with _ => _ end) => destruct x
      | |- quiet (if ?x then _ else _) => destruct x
      end ].
Ltac quiet_auto := repeat quiet_step.

Lemma quiet_match_any msg content rxs : quiet (match_any msg content rxs).
Proof. induction rxs as [|rx rxs IH]; simpl; quiet_auto. Qed.
#[local] Hint Resolve quiet_match_any : quiet.

Lemma quiet_contentMalicious content good bad : quiet (contentMalicious content good bad).
Proof. unfold contentMalicious. quiet_auto. Qed.
#[local] Hint Resolve quiet_contentMalicious : quiet.

Lemma quiet_resourceQuery_loop tbl id target : quiet (resourceQuery_loop tbl id target).
Proof. induction tbl as [|[name ck] tbl IH]; simpl; quiet_auto. Qed.
#[local] Hint Resolve quiet_resourceQuery_loop : quiet.

Lemma quiet_resourceQuery id target ty : quiet (resourceQuery table id target ty).
Proof. unfold resourceQuery. quiet_auto. Qed.
#[local] Hint Resolve quiet_resourceQuery : quiet.

Lemma quiet_list_content cid url : quiet (list_content cid url).
Proof. unfold list_content. quiet_auto. Qed.
#[local] Hint Resolve quiet_list_content : quiet.

Lemma quiet_netblock_scan check url target l : quiet (netblock_scan check url target l).
Proof. induction l as [|ip l IH]; simpl; quiet_auto. Qed.
#[local] Hint Resolve quiet_netblock_scan : quiet.

Lemma quiet_regex_scan a b ty l : quiet (regex_scan a b ty l).
Proof. induction l as [|ip l IH]; simpl; quiet_auto. Qed.
#[local] Hint Resolve quiet_regex_scan : quiet.

Lemma quiet_resourceList_loop tbl id target ty dom :
  quiet (resourceList_loop tbl id target ty dom).
Proof. induction tbl as [|[name ck] tbl IH]; simpl; quiet_auto. Qed.
#[local] Hint Resolve quiet_resourceList_loop : quiet.

Lemma quiet_resourceList id target ty : quiet (resourceList table id target ty).
Proof. unfold resourceList. quiet_auto. Qed.
#[local] Hint Resolve quiet_resourceList : quiet.

Lemma quiet_lookupItem_loop tbl rid ty target : quiet (lookupItem_loop table tbl rid ty target).
Proof. induction tbl as [|[name ck] tbl IH]; simpl; quiet_auto. Qed.

End Quiet.


(** ** The dispatch loop and [handleEvent] *)

Lemma lookups_app v l1 l2 : lookups v (l1 ++ l2) = lookups v l1 + lookups v l2.
Proof. unfold lookups. by rewrite filter_app, length_app. Qed.

Lemma is_lookup_entry_of v e : is_lookup v e = true → is_lookup_entry e = true.
Proof.
  destruct e as [| | | | | | | |fn args]; try done. simpl.
  destruct args as [|? [|? [|? [|]]]]; try done. by intros [? _]%andb_true_iff.
Qed.

Lemma lookups_inner v l : Forall (λ e, inner e = true) l → lookups v l = 0.
Proof.
  unfold lookups. induction 1 as [|e l He _ IH]; [done|].
  rewrite filter_cons. destruct (decide _) as [Hl|_]; [|done].
  apply is_lookup_entry_of in Hl. unfold inner in He. by rewrite Hl in He.
Qed.

Lemma filter_inner_notify l :
  Forall (λ e, inner e = true) l → filter (λ e, is_notify e = true) l = [].
Proof.
  induction 1 as [|e l He _ IH]; [done|].
  rewrite filter_cons, IH. destruct (decide _) as [Hl|_]; [|done].
  unfold inner in He. rewrite Hl in He. by destruct (is_lookup_entry e).
Qed.

Lemma filter_inner_entry l :
  Forall (λ e, inner e = true) l → filter (λ e, is_lookup_entry e = true) l = [].
Proof.
  induction 1 as [|e l He _ IH]; [done|].
  rewrite filter_cons, IH. destruct (decide _) as [Hl|_]; [|done].
  unfold inner in He. by rewrite Hl in He.
Qed.

Section Dispatch.
Context {rt : PyRuntime}.
Variable table : list (string * check).

Lemma tame_quiet d {A} (m : M A) : quiet m → tame d 0 m.
Proof.
  intros Hm w. destruct (Hm w) as (H1 & H2 & H3 & _).
  repeat split; try done; intros v; rewrite lookups_inner; done.
Qed.

Lemma tame_bind d n1 n2 n {A B} (m : M A) (k : A → M B) :
  tame d n1 m → (∀ a, tame d n2 (k a)) → n1 + n2 ≤ n → tame d n (bind m k).
Proof.
  intros Hm Hk Hn w. destruct (Hm w) as (H1 & H2 & H3 & H4).
  destruct (bind_cases m k w) as [(a & _ & ->)|(e & _ & ->)].
  - destruct (Hk a (after (m w))) as (K1 & K2 & K3 & K4).
    unfold calls, after in *; simpl. repeat split; try congruence.
    + intros v Hv. rewrite lookups_app, H3, K3; done.
    + intros v. rewrite lookups_app. specialize (H4 v). specialize (K4 v). lia.
  - unfold calls, after in *; simpl. repeat split; try done.
    intros v. specialize (H4 v). lia.
Qed.

Lemma tame_weaken d n n' {A} (m : M A) : tame d n m → n ≤ n' → tame d n' m.
Proof.
  intros Hm Hn w. destruct (Hm w) as (H1 & H2 & H3 & H4).
  repeat split; try done. intros v. specialize (H4 v). lia.
Qed.

Lemma tame_checkForStop d : tame d 0 checkForStop.
Proof. intros w. unfold checkForStop. by destruct (stops w). Qed.

Lemma tame_notify d evt : tame d 0 (notifyListeners evt).
Proof. by intros w. Qed.

Lemma tame_local d name v : tame d 0 (local name v).
Proof. by destruct v. Qed.

(** [lookupItem] enters once, and all its other calls are inner calls. *)
Lemma lookupItem_shape rid ty target w :
  ∃ l, calls (lookupItem table rid ty target w)
       = Enter "lookupItem" [rid; ty; target] :: l
       ∧ Forall (λ e, inner e = true) l
       ∧ results (after (lookupItem table rid ty target w)) = results w
       ∧ opts (after (lookupItem table rid ty target w)) = opts w
       ∧ stops (after (lookupItem table rid ty target w)) = stops w.
Proof.
  destruct (quiet_lookupItem_loop table table rid ty target w) as (H1 & H2 & H3 & H4).
  unfold lookupItem, enter, emit, bind.
  destruct (lookupItem_loop table table rid ty target w) as [[r w1] l1].
  exists l1. by destruct r.
Qed.

Lemma tame_lookupItem d rid ty : tame d 1 (lookupItem table rid ty d).
Proof.
  intros w. destruct (lookupItem_shape rid ty d w) as (l & -> & Hl & H1 & H2 & _).
  repeat split; try done.
  - intros v Hv. unfold lookups. rewrite filter_cons.
    destruct (decide _) as [Hd|_].
    + simpl in Hd. by apply String.eqb_eq in Hd.
    + by apply lookups_inner.
  - intros v. change (Enter "lookupItem" [rid; ty; d] :: l)
      with ([Enter "lookupItem" [rid; ty; d]] ++ l).
    rewrite lookups_app, (lookups_inner _ l) by done.
    unfold lookups. rewrite filter_cons. destruct (decide _); simpl; lia.
Qed.

Lemma tame_dispatch tbl e locals :
  tame (data e) (length tbl) (dispatch table tbl e locals).
Proof.
  revert locals. induction tbl as [|[name ck] tbl IH]; intros locals; simpl.
  { by apply tame_quiet, quiet_ret. }
  apply (tame_bind _ 0 (S (length tbl))); [apply tame_quiet, quiet_opts_item| |lia].
  intros enabled. destruct (truthy enabled); [|by eapply tame_weaken; [apply IH|lia]].
  apply (tame_bind _ 0 (S (length tbl))); [apply tame_local| |lia].
  intros typeId.
  apply (tame_bind _ 1 (length tbl)); [apply tame_lookupItem| |lia].
  intros url.
  apply (tame_bind _ 0 (length tbl)); [apply tame_checkForStop| |lia].
  intros [|].
  { eapply tame_weaken; [apply tame_quiet, quiet_ret|lia]. }
  destruct url as [url|]; [|apply IH].
  apply (tame_bind _ 0 (length tbl)); [apply tame_local| |lia].
  intros evtType.
  apply (tame_bind _ 0 (length tbl)); [apply tame_notify| |lia].
  intros _. apply IH.
Qed.

Lemma quiet_gated name kind opt : quiet (gated name kind opt).
Proof.
  unfold gated. destruct (String.eqb name kind); [|apply quiet_ret].
  apply quiet_bind; [apply quiet_opts_get|intros; apply quiet_ret].
Qed.

Lemma tame_after_mark e : tame (data e) (length table) (after_mark table e).
Proof.
  unfold after_mark.
  repeat (apply (tame_bind _ 0 (length table)); [apply tame_quiet, quiet_gated| |lia];
          intros [|]; [eapply tame_weaken; [apply tame_quiet, quiet_ret|lia]|]).
  apply tame_dispatch.
Qed.

(** The three ways [handleEvent] starts. *)
Lemma handleEvent_unset e w :
  results w = None →
  handleEvent table e w
  = (Raise (TypeError "argument of type 'NoneType' is not iterable"), w, [received e]).
Proof. intros H. unfold handleEvent, bind, debug, emit, results_contains. by rewrite H. Qed.

Lemma handleEvent_seen e w r :
  results w = Some r → is_Some (r !! data e) →
  handleEvent table e w = (Ok tt, w, [received e; skipping e]).
Proof.
  intros H Hs. unfold handleEvent, bind, debug, emit, results_contains. rewrite H.
  by rewrite bool_decide_true.
Qed.

Lemma handleEvent_fresh e w r :
  results w = Some r → r !! data e = None →
  let o := after_mark table e (set_results (Some (<[data e := true]> r)) w) in
  handleEvent table e w = (value o, after o, received e :: calls o).
Proof.
  intros H Hs. unfold handleEvent, bind at 1 2 3, debug, emit, results_contains, results_mark.
  rewrite H. rewrite bool_decide_false by (rewrite Hs; by intros [? ?]).
  fold (after_mark table e). unfold bind. simpl. rewrite H.
  unfold value, after, calls. by destruct (after_mark _ _ _) as [[??]?].
Qed.

End Dispatch.

Section Handle.
Context {rt : PyRuntime}.
Variable table : list (string * check).

Lemma after_mark_closed e w :
  gate_open (opts w) (eventType e) = false → after_mark table e w = (Ok tt, w, []).
Proof.
  unfold after_mark, gate_open, gated. generalize (eventType e) as name. intros name.
  destruct (String.eqb_spec name "CO_HOSTED_SITE") as [->|_].
  { intros H. unfold bind, opts_get, ret. simpl. by rewrite H. }
  destruct (String.eqb_spec name "AFFILIATE_IPADDR") as [->|_].
  { intros H. unfold bind, opts_get, ret. simpl. by rewrite H. }
  destruct (String.eqb_spec name "NETBLOCK_OWNER") as [->|_].
  { intros H. unfold bind, opts_get, ret. simpl. by rewrite H. }
  destruct (String.eqb_spec name "NETBLOCK_MEMBER") as [->|_]; [|done].
  intros H. unfold bind, opts_get, ret. simpl. by rewrite H.
Qed.

Lemma after_mark_open e w :
  gate_open (opts w) (eventType e) = true →
  after_mark table e w = dispatch table table e (None, None) w.
Proof.
  unfold after_mark, gate_open, gated. generalize (eventType e) as name. intros name.
  destruct (String.eqb_spec name "CO_HOSTED_SITE") as [->|_].
  { intros H. unfold bind, opts_get, ret. simpl. rewrite H. simpl.
    by destruct (dispatch _ _ _ _ _) as [[??]?]. }
  destruct (String.eqb_spec name "AFFILIATE_IPADDR") as [->|_].
  { intros H. unfold bind, opts_get, ret. simpl. rewrite H. simpl.
    by destruct (dispatch _ _ _ _ _) as [[??]?]. }
  destruct (String.eqb_spec name "NETBLOCK_OWNER") as [->|_].
  { intros H. unfold bind, opts_get, ret. simpl. rewrite H. simpl.
    by destruct (dispatch _ _ _ _ _) as [[??]?]. }
  destruct (String.eqb_spec name "NETBLOCK_MEMBER") as [->|_].
  { intros H. unfold bind, opts_get, ret. simpl. rewrite H. simpl.
    by destruct (dispatch _ _ _ _ _) as [[??]?]. }
  intros _. unfold bind, ret. simpl. by destruct (dispatch _ _ _ _ _) as [[??]?].
Qed.

(** One event handled after [setup]: the store grows, the payload is in it
    afterwards, and [lookupItem] is entered for the payload only, at most
    once per check and never for a value already in the store. *)
Lemma handleEvent_step e w r :
  results w = Some r →
  let o := handleEvent table e w in
  ∃ r', results (after o) = Some r'
        ∧ (∀ k, is_Some (r !! k) → is_Some (r' !! k))
        ∧ is_Some (r' !! data e)
        ∧ (∀ v, lookups v (calls o)
                ≤ if decide (is_Some (r !! v)) then 0 else length table).
Proof.
  intros H. destruct (r !! data e) as [b|] eqn:Hd.
  - simpl. rewrite (handleEvent_seen table e w r) by (rewrite ?Hd; eauto).
    exists r. split_and!; [done|done|by rewrite Hd|].
    intros v. unfold lookups. simpl. lia.
  - simpl. rewrite (handleEvent_fresh table e w r) by done.
    set (w1 := set_results _ w).
    destruct (tame_after_mark table e w1) as (T1 & T2 & T3 & T4).
    exists (<[data e := true]> r). unfold after, calls in *. simpl. split_and!.
    + by rewrite T1.
    + intros k Hk. destruct (decide (data e = k)) as [<-|Hne].
      * rewrite lookup_insert_eq. eauto.
      * by rewrite lookup_insert_ne.
    + rewrite lookup_insert_eq. eauto.
    + intros v. change (received e :: ?l) with ([received e] ++ l).
      rewrite lookups_app. change (lookups v [received e]) with 0. simpl.
      destruct (decide (is_Some (r !! v))) as [Hv|_]; [|apply T4].
      rewrite T3; [done|]. intros ->. rewrite Hd in Hv. by destruct Hv.
Qed.

Lemma run_step evs w r v :
  results w = Some r →
  ∃ r', results (run table evs w).1 = Some r'
        ∧ (∀ k, is_Some (r !! k) → is_Some (r' !! k))
        ∧ lookups v (run table evs w).2
          ≤ if decide (is_Some (r !! v)) then 0 else length table.
Proof.
  revert w r. induction evs as [|e evs IH]; intros w r H; simpl.
  { exists r. split_and!; [done..|]. unfold lookups. simpl. lia. }
  destruct (handleEvent_step e w r H) as (r1 & H1 & Hmono & Hin & Hl).
  destruct (IH (after (handleEvent table e w)) r1 H1) as (r2 & H2 & Hmono2 & Hl2).
  destruct (run table evs _) as [w2 l2]. simpl in *.
  exists r2. split_and!; [done|by auto|].
  rewrite lookups_app. specialize (Hl v).
  destruct (decide (is_Some (r !! v))) as [Hv|Hv].
  - rewrite decide_True in Hl2 by auto. lia.
  - destruct (decide (is_Some (r1 !! v))) as [Hv1|Hv1]; [lia|].
    destruct (decide (data e = v)) as [<-|Hne]; [done|].
    assert (lookups v (calls (handleEvent table e w)) = 0) as ->; [|lia].
    destruct (r !! data e) as [b|] eqn:Hd.
    + rewrite (handleEvent_seen table e w r) by (rewrite ?Hd; eauto). done.
    + rewrite (handleEvent_fresh table e w r) by done.
      destruct (tame_after_mark table e (set_results (Some (<[data e := true]> r)) w))
        as (_ & _ & T3 & _).
      unfold calls in *. simpl.
      change (received e :: ?l) with ([received e] ++ l).
      rewrite lookups_app, T3 by done. done.
Qed.

Lemma run_app evs1 evs2 w :
  run table (evs1 ++ evs2) w
  = (( run table evs2 (run table evs1 w).1).1,
     (run table evs1 w).2 ++ (run table evs2 (run table evs1 w).1).2).
Proof.
  revert w. induction evs1 as [|e evs1 IH]; intros w; simpl.
  { by destruct (run table evs2 w). }
  rewrite IH. destruct (run table evs1 _) as [w1 l1]. simpl.
  by rewrite app_assoc.
Qed.

End Handle.

Section HandleMore.
Context {rt : PyRuntime}.
Variable table : list (string * check).

Lemma run_marks evs1 e evs2 w r :
  results w = Some r →
  ∃ r', results (run table (evs1 ++ e :: evs2) w).1 = Some r' ∧ is_Some (r' !! data e).
Proof.
  intros H. rewrite run_app. simpl.
  destruct (run_step table evs1 w r "" H) as (r1 & H1 & _ & _).
  destruct (handleEvent_step table e _ r1 H1) as (r2 & H2 & _ & Hin & _).
  destruct (run_step table evs2 _ r2 "" H2) as (r3 & H3 & Hmono & _).
  destruct (run table evs2 _) as [w3 l3]. simpl in *. eauto.
Qed.

(** The dispatch loop on a first check that is enabled, when the next poll
    of the stop signal answers yes. *)
Lemma dispatch_stop name ck rest e locals w v typeId ss :
  opts w !! c_id ck = Some v → truthy v = true →
  (route (eventType e) locals).1 = Some typeId →
  stops w = true :: ss →
  let lk := lookupItem table (c_id ck) typeId (data e) w in
  dispatch table ((name, ck) :: rest) e locals w
  = match value lk with
    | Raise ex => (Raise ex, after lk, calls lk)
    | Ok _ => (Ok tt, set_stops ss (after lk), calls lk ++ [CheckForStop])
    end.
Proof.
  intros Hv Ht Hr Hs. simpl.
  destruct (lookupItem_shape table (c_id ck) typeId (data e) w) as (l & _ & _ & _ & _ & Hst).
  unfold bind at 1, opts_item. rewrite Hv, Ht. unfold bind at 1. rewrite Hr. simpl.
  match goal with
  | |- context [bind (lookupItem ?a ?b ?c ?d) ?k ?w] =>
      destruct (bind_cases (lookupItem a b c d) k w) as [(url & Hu & E)|(ex & Hex & E)]
  end.
  - rewrite E, Hu. clear E.
    unfold bind, checkForStop. rewrite Hst, Hs. simpl. done.
  - by rewrite E, Hex.
Qed.

Lemma route_unrouted name :
  str_in name routed_kinds = false → route name (None, None) = (None, None).
Proof.
  unfold str_in, routed_kinds, route. simpl. intros H.
  repeat (apply orb_false_iff in H as [? H]).
  unfold str_in. simpl.
  repeat match goal with E : String.eqb _ _ = false |- _ => rewrite E; clear E end.
  done.
Qed.

Lemma gate_open_unrouted o name :
  str_in name routed_kinds = false → gate_open o name = true.
Proof.
  unfold str_in, routed_kinds, gate_open. simpl. intros H.
  repeat (apply orb_false_iff in H as [? H]).
  repeat match goal with E : String.eqb _ _ = false |- _ => rewrite E; clear E end.
  done.
Qed.

Lemma dispatch_unrouted tbl e w :
  str_in (eventType e) routed_kinds = false →
  Forall (λ entry, is_Some (opts w !! c_id entry.2)) tbl →
  Exists (λ entry, ∃ v, opts w !! c_id entry.2 = Some v ∧ truthy v = true) tbl →
  dispatch table tbl e (None, None) w = (Raise (UnboundLocalError "typeId"), w, []).
Proof.
  intros Hk Hall Hex. induction Hall as [|[name ck] tbl [v Hv] _ IH].
  { by apply Exists_nil in Hex. }
  simpl in *. unfold bind at 1, opts_item. rewrite Hv.
  destruct (truthy v) eqn:Ht.
  - by rewrite route_unrouted.
  - apply Exists_cons in Hex as [(v' & Hv' & Ht')|Hex].
    + simpl in Hv'. congruence.
    + by rewrite IH.
Qed.

End HandleMore.

Lemma setup_results {rt : PyRuntime} userOpts w0 :
  results (after (setup userOpts w0)) = Some ∅.
Proof. done. Qed.

(** C2: within a run, the resolver is invoked at most once per check for a
    payload value (at most once with the dictionary as shipped), and once
    an event with that payload was handled, handling another one with the
    same payload, of whatever kind, only writes two trace lines: no
    resolver is entered, no collaborator is called and no event is emitted. *)
Theorem lookup_once_per_value {rt : PyRuntime} userOpts w0 v :
  (∀ table evs,
     lookups v (run table evs (after (setup userOpts w0))).2 ≤ length table)
  ∧ (∀ evs, lookups v (run malchecks evs (after (setup userOpts w0))).2 ≤ 1)
  ∧ (∀ table evs1 kind1 module1 source1 evs2 kind2 module2 source2,
       let e1 := SpiderFootEvent kind1 v module1 source1 in
       let e2 := SpiderFootEvent kind2 v module2 source2 in
       let w := (run table (evs1 ++ e1 :: evs2) (after (setup userOpts w0))).1 in
       handleEvent table e2 w = (Ok tt, w, [received e2; skipping e2])).
Proof.
  assert (∀ table evs,
    lookups v (run table evs (after (setup userOpts w0))).2 ≤ length table) as Hgen.
  { intros table evs.
    destruct (run_step table evs _ ∅ v (setup_results userOpts w0)) as (r & _ & _ & H).
    by rewrite lookup_empty, decide_False in H by (by intros [? ?]). }
  split_and!; [done|intros evs; apply (Hgen malchecks)|].
  intros table evs1 kind1 module1 source1 evs2 kind2 module2 source2 e1 e2 w.
  destruct (run_marks table evs1 e1 evs2 _ ∅ (setup_results userOpts w0)) as (r & Hr & Hin).
  by apply (handleEvent_seen table e2 w r).
Qed.

(** C4: when the first configured check is enabled and the stop signal
    answers yes at the poll that follows its lookup, [handleEvent] enters
    [lookupItem] for that check alone and emits no event, whatever the
    lookups of the first and of the later checks would find; unless the
    lookup itself raised, the call ends normally right after the poll. *)
Theorem stop_after_first_check {rt : PyRuntime} name1 ck1 rest e w r v typeId ss :
  results w = Some r → r !! data e = None →
  gate_open (opts w) (eventType e) = true →
  (route (eventType e) (None, None)).1 = Some typeId →
  opts w !! c_id ck1 = Some v → truthy v = true →
  stops w = true :: ss →
  let o := handleEvent ((name1, ck1) :: rest) e w in
  filter (λ x, is_notify x = true) (calls o) = []
  ∧ filter (λ x, is_lookup_entry x = true) (calls o)
    = [Enter "lookupItem" [c_id ck1; typeId; data e]]
  ∧ ((∃ ex, value o = Raise ex)
     ∨ (value o = Ok tt ∧ last (calls o) = Some CheckForStop ∧ stops (after o) = ss)).
Proof.
  intros Hres Hfresh Hgate Hroute Hv Ht Hs. simpl.
  rewrite (handleEvent_fresh _ e w r) by done.
  set (w1 := set_results _ w).
  rewrite (after_mark_open _ e w1) by done.
  destruct (lookupItem_shape ((name1, ck1) :: rest) (c_id ck1) typeId (data e) w1)
    as (l & Hl & Hin & _).
  rewrite (dispatch_stop ((name1, ck1) :: rest) name1 ck1 rest e (None, None) w1
             v typeId ss Hv Ht Hroute Hs).
  destruct (value (lookupItem _ _ _ _ _)) as [url|ex];
    unfold value, after, calls in *; simpl; rewrite Hl.
  - split_and!.
    + rewrite filter_cons_False, filter_app, filter_cons_False by (by vm_compute).
      rewrite (filter_inner_notify l) by done. reflexivity.
    + rewrite filter_cons_False, filter_app, filter_cons_True by (by vm_compute).
      rewrite (filter_inner_entry l) by done. reflexivity.
    + right. split_and!; [done| |done].
      by rewrite app_comm_cons, last_snoc.
  - split_and!.
    + rewrite !filter_cons_False by (by vm_compute). by apply filter_inner_notify.
    + rewrite filter_cons_False, filter_cons_True by (by vm_compute).
      by rewrite filter_inner_entry.
    + left. eauto.
Qed.

(** C5: an [AFFILIATE_IPADDR] event handled while [checkaffiliates] is
    absent or false writes only trace lines: no resolver is entered, no
    collaborator is called and no event is emitted, whatever the world
    would answer. *)
Theorem affiliate_gate_closed {rt : PyRuntime} table payload source cause w :
  truthy (default (PyBool false) (opts w !! "checkaffiliates")) = false →
  let e := SpiderFootEvent "AFFILIATE_IPADDR" payload source cause in
  let o := handleEvent table e w in
  (calls o = [received e] ∨ calls o = [received e; skipping e])
  ∧ filter (λ x, is_notify x = true) (calls o) = []
  ∧ filter (λ x, is_lookup_entry x = true) (calls o) = []
  ∧ ∀ v, lookups v (calls o) = 0.
Proof.
  intros Hopt e o.
  assert (calls o = [received e] ∨ calls o = [received e; skipping e]) as Hc.
  { subst o. destruct (results w) as [r|] eqn:Hres.
    - destruct (r !! payload) as [b|] eqn:Hp.
      + right. rewrite (handleEvent_seen table e w r); [done..|]. simpl. rewrite Hp. eauto.
      + left. rewrite (handleEvent_fresh table e w r) by done.
        by rewrite after_mark_closed.
    - left. by rewrite handleEvent_unset. }
  split; [done|]. by destruct Hc as [-> | ->].
Qed.

(** C10: an event of a kind outside the nine routed ones, with a payload
    not seen before, no option of a check missing and some check enabled,
    makes [handleEvent] raise the error of the unassigned local [typeId],
    after the payload was marked and before any lookup. *)
Theorem unrouted_kind_raises {rt : PyRuntime} table e w r :
  results w = Some r → r !! data e = None →
  str_in (eventType e) routed_kinds = false →
  Forall (λ entry, is_Some (opts w !! c_id entry.2)) table →
  Exists (λ entry, ∃ v, opts w !! c_id entry.2 = Some v ∧ truthy v = true) table →
  handleEvent table e w
  = (Raise (UnboundLocalError "typeId"),
     set_results (Some (<[data e := true]> r)) w, [received e]).
Proof.
  intros Hres Hfresh Hk Hall Hex.
  rewrite (handleEvent_fresh table e w r) by done. simpl.
  rewrite after_mark_open by (by apply gate_open_unrouted).
  by rewrite dispatch_unrouted.
Qed.


(** ** The resolvers *)

Section Resolvers.
Context {rt : PyRuntime}.

Lemma fetchUrl_eq u t a w :
  fetchUrl u t a w = (Ok (next_fetch w u), fetched w, [FetchUrl u t a]).
Proof. unfold fetchUrl, next_fetch, fetched. by destruct (net w). Qed.

Lemma cacheGet_eq k p w :
  cacheGet k p w = (Ok (next_cached w k), cache_read w, [CacheGet k p]).
Proof. unfold cacheGet, next_cached, cache_read. by destruct (cache w). Qed.

Lemma hostDomain_eq h t w :
  hostDomain h t w = (Ok (next_domain w h), domain_asked w, [HostDomain h t]).
Proof. unfold hostDomain, next_domain, domain_asked. by destruct (domains w). Qed.

(** The classifier reads nothing of the world. *)
Lemma match_any_pure msg content rxs :
  ∃ r l, ∀ w, match_any msg content rxs w = (r, w, l).
Proof.
  induction rxs as [|rx rxs (r & l & IH)]; simpl; [by eexists _, _|].
  destruct (re_match rx content flags_content) as [[|]|ex];
    eexists _, _; intros w; unfold bind, lift; rewrite ?IH; reflexivity.
Qed.

Lemma contentMalicious_pure content good bad :
  ∃ r l, ∀ w, contentMalicious content good bad w = (r, w, l).
Proof.
  unfold contentMalicious.
  assert (∀ msg rxs, ∃ r l, ∀ w,
    (if (0 <? length rxs)%nat then match_any msg content rxs else ret false) w
    = (r, w, l)) as Hphase.
  { intros msg rxs. destruct (0 <? length rxs)%nat; [apply match_any_pure|].
    by eexists _, _. }
  destruct (Hphase "Found to be bad against bad regex: " bad) as (r1 & l1 & H1).
  destruct (Hphase "Found to be good againt good regex: " good) as (r2 & l2 & H2).
  destruct r1 as [[|]|ex1].
  - eexists _, _. intros w. unfold bind. rewrite H1. reflexivity.
  - destruct r2 as [[|]|ex2];
      eexists _, _; intros w; unfold bind; rewrite H1; simpl; rewrite H2; reflexivity.
  - eexists _, _. intros w. unfold bind. rewrite H1. reflexivity.
Qed.

Lemma resourceQuery_eq table id target ty w :
  let o := resourceQuery_loop table id target w in
  resourceQuery table id target ty w
  = (value o, after o,
     Enter "resourceQuery" [id; target; ty]
     :: SfDebug ("Querying " +:+ id +:+ " for maliciousness of " +:+ target)
     :: calls o).
Proof.
  simpl. unfold resourceQuery, enter, debug, emit, bind.
  by destruct (resourceQuery_loop table id target w) as [[??]?].
Qed.

Lemma resourceQuery_loop_skip pre tbl id target :
  forallb (λ e, negb (selected id "query" e)) pre = true →
  resourceQuery_loop (pre ++ tbl) id target = resourceQuery_loop tbl id target.
Proof.
  induction pre as [|[name ck] pre IH]; [done|]. simpl.
  intros [Hh Ht]%andb_true_iff. apply negb_true_iff in Hh.
  unfold selected in Hh. simpl in Hh. rewrite Hh. by apply IH.
Qed.

Lemma resourceQuery_loop_none tbl id target w :
  forallb (λ e, negb (selected id "query" e)) tbl = true →
  resourceQuery_loop tbl id target w = (Ok None, w, []).
Proof.
  intros H. rewrite <- (app_nil_r tbl). by rewrite resourceQuery_loop_skip.
Qed.

Lemma resourceList_loop_skip pre tbl id target ty dom :
  forallb (λ e, negb (selected id "list" e)) pre = true →
  resourceList_loop (pre ++ tbl) id target ty dom = resourceList_loop tbl id target ty dom.
Proof.
  induction pre as [|[name ck] pre IH]; [done|]. simpl.
  intros [Hh Ht]%andb_true_iff. apply negb_true_iff in Hh.
  unfold selected in Hh. simpl in Hh. rewrite Hh. by apply IH.
Qed.

Lemma resourceList_loop_none tbl id target ty dom w :
  forallb (λ e, negb (selected id "list" e)) tbl = true →
  resourceList_loop tbl id target ty dom w = (Ok None, w, []).
Proof.
  intros H. rewrite <- (app_nil_r tbl). by rewrite resourceList_loop_skip.
Qed.

(** [resourceQuery_loop] at an entry it takes up. *)
Lemma resourceQuery_loop_selected name ck post id target w t a u :
  selected id "query" (name, ck) = true →
  opts w !! "_fetchtimeout" = Some t → opts w !! "_useragent" = Some a →
  str_format (c_url ck) target = Ok u →
  resourceQuery_loop ((name, ck) :: post) id target w
  = match next_fetch w u with
    | None => (Ok None, fetched w, [FetchUrl u t a; SfError ("Unable to fetch " +:+ u)])
    | Some content =>
        let c := contentMalicious content (c_goodregex ck) (c_badregex ck) w in
        match value c with
        | Ok (Some true) => (Ok (Some u), fetched w, FetchUrl u t a :: calls c)
        | Ok _ =>
            let o := resourceQuery_loop post id target (fetched w) in
            (value o, after o, FetchUrl u t a :: calls c ++ calls o)
        | Raise ex => (Raise ex, fetched w, FetchUrl u t a :: calls c)
        end
    end.
Proof.
  intros Hsel Ht Ha Hu. simpl.
  unfold selected in Hsel. simpl in Hsel. rewrite Hsel.
  unfold bind at 1, lift. rewrite Hu.
  unfold bind at 1, opts_item. rewrite Ht.
  unfold bind at 1. rewrite Ha.
  unfold bind at 1. rewrite fetchUrl_eq.
  destruct (next_fetch w u) as [content|]; [|done].
  destruct (contentMalicious_pure content (c_goodregex ck) (c_badregex ck))
    as (r & l & Hpure).
  unfold bind at 1. rewrite !Hpure. unfold value, calls. simpl.
  destruct r as [[[|]|]|ex]; unfold bind, ret, after; simpl; rewrite ?app_nil_r;
    try done; by destruct (resourceQuery_loop post id target (fetched w)) as [[??]?].
Qed.

End Resolvers.

(** C3: with the check the only query-mode entry of its identifier, the
    fetch options present and the URL template taking the target: when
    the fetch answers no content, [resourceQuery] reports the error and
    returns nothing, raising nothing; when it answers a content on which
    the classifier gives a verdict, [resourceQuery] returns the formatted
    URL for the verdict True and nothing for False and None. *)
Theorem resourceQuery_verdict {rt : PyRuntime} table id target ty name ck w t a u :
  only_entry table id "query" name ck →
  opts w !! "_fetchtimeout" = Some t → opts w !! "_useragent" = Some a →
  str_format (c_url ck) target = Ok u →
  let o := resourceQuery table id target ty w in
  (next_fetch w u = None →
     value o = Ok None
     ∧ calls o = [Enter "resourceQuery" [id; target; ty];
                  SfDebug ("Querying " +:+ id +:+ " for maliciousness of " +:+ target);
                  FetchUrl u t a;
                  SfError ("Unable to fetch " +:+ u)])
  ∧ (∀ content verdict,
       next_fetch w u = Some content →
       value (contentMalicious content (c_goodregex ck) (c_badregex ck) w) = Ok verdict →
       value o = Ok (match verdict with Some true => Some u | _ => None end)
       ∧ (value o = Ok (Some u) ↔ verdict = Some true)).
Proof.
  intros (pre & post & -> & Hsel & Hothers) Ht Ha Hu o.
  rewrite forallb_app in Hothers. apply andb_true_iff in Hothers as [Hpre Hpost].
  assert (o = match next_fetch w u with
              | None =>
                  (Ok None, fetched w,
                   [Enter "resourceQuery" [id; target; ty];
                    SfDebug ("Querying " +:+ id +:+ " for maliciousness of " +:+ target);
                    FetchUrl u t a; SfError ("Unable to fetch " +:+ u)])
              | Some content =>
                  let c := contentMalicious content (c_goodregex ck) (c_badregex ck) w in
                  (match value c with
                   | Ok (Some true) => Ok (Some u)
                   | Ok _ => Ok None
                   | Raise ex => Raise ex
                   end, fetched w,
                   Enter "resourceQuery" [id; target; ty]
                   :: SfDebug ("Querying " +:+ id +:+ " for maliciousness of " +:+ target)
                   :: FetchUrl u t a :: calls c)
              end) as ->.
  { subst o. rewrite resourceQuery_eq, resourceQuery_loop_skip by done.
    rewrite (resourceQuery_loop_selected name ck post id target w t a u) by done.
    destruct (next_fetch w u) as [content|]; [|done]. simpl.
    rewrite resourceQuery_loop_none by done.
    destruct (value (contentMalicious _ _ _ _)) as [[[|]|]|ex]; try done;
      unfold value, after, calls; simpl; by rewrite app_nil_r. }
  split.
  - by intros ->.
  - intros content verdict Hf Hv. rewrite Hf. cbv zeta. rewrite Hv.
    unfold value. simpl.
    destruct verdict as [[|]|]; split; try done; split; intros; congruence.
Qed.


Section ListResolver.
Context {rt : PyRuntime}.

Lemma value_bind_ok {A B} (m : M A) (k : A → M B) w a :
  value (m w) = Ok a → value (bind m k w) = value (k a (after (m w))).
Proof.
  intros H. destruct (bind_cases m k w) as [(a' & Ha & ->)|(e & He & ->)]; [|congruence].
  rewrite H in Ha. by injection Ha as ->.
Qed.

Lemma value_bind_emit {B} e (k : unit → M B) w : value (bind (emit e) k w) = value (k tt w).
Proof. by rewrite (value_bind_ok _ _ _ tt). Qed.

(** The scan passes over a candidate that is neither a finding nor a
    tuple of eight groups or more. *)
Lemma netblock_scan_pass check url target c l w :
  netblock_breaks c = false → netblock_hit target c = false →
  value (netblock_scan check url target (c :: l) w)
  = value (netblock_scan check url target l w).
Proof.
  destruct c as [ip|gs]; intros Hb Hh.
  - unfold netblock_hit in Hh. cbn [netblock_scan]. rewrite Nat.ltb_antisym.
    destruct (8 <=? String.length ip)%nat; cbn [negb orb andb] in *; [|done].
    destruct (startswith "#" ip); cbn [negb orb andb] in *; [done|].
    destruct (ip_in_network (str_strip ip) target) as [[|]|ex]; [discriminate Hh|done|].
    unfold debug. by rewrite value_bind_emit.
  - cbn [netblock_scan netblock_breaks] in *. rewrite Nat.ltb_antisym, Hb. done.
Qed.

Lemma netblock_scan_hit check url target c l w :
  netblock_hit target c = true →
  value (netblock_scan check url target (c :: l) w) = Ok (Some url).
Proof.
  destruct c as [ip|gs]; intros Hh; [|discriminate Hh].
  unfold netblock_hit in Hh. cbn [netblock_scan].
  apply andb_true_iff in Hh as [[H8 Hs]%andb_true_iff Hip].
  rewrite Nat.ltb_antisym, H8. apply negb_true_iff in Hs. rewrite Hs.
  cbn [negb orb].
  destruct (ip_in_network (str_strip ip) target) as [[|]|ex]; [|done..].
  unfold debug. by rewrite value_bind_emit.
Qed.

Lemma netblock_scan_value check url target l w :
  Forall (λ c, netblock_breaks c = false) l →
  value (netblock_scan check url target l w)
  = Ok (if existsb (netblock_hit target) l then Some url else None).
Proof.
  induction 1 as [|c l Hc _ IH]; [done|].
  cbn [existsb]. destruct (netblock_hit target c) eqn:Hh.
  - by apply netblock_scan_hit.
  - by rewrite netblock_scan_pass.
Qed.

Lemma netblock_scan_first_hit check url target pre c post w :
  Forall (λ c, netblock_breaks c = false) pre →
  existsb (netblock_hit target) pre = false →
  netblock_hit target c = true →
  value (netblock_scan check url target (pre ++ c :: post) w) = Ok (Some url).
Proof.
  intros Hpre Hnone Hc. induction Hpre as [|c' pre Hb _ IH]; simpl app.
  - by apply netblock_scan_hit.
  - cbn [existsb] in Hnone. apply orb_false_iff in Hnone as [Hh Hnone].
    rewrite netblock_scan_pass by done. by apply IH.
Qed.

Lemma netblock_scan_breaks check url target pre gs post w :
  Forall (λ c, netblock_breaks c = false) pre →
  existsb (netblock_hit target) pre = false →
  (8 ≤ length gs)%nat →
  value (netblock_scan check url target (pre ++ FoundTuple gs :: post) w)
  = Raise no_startswith.
Proof.
  intros Hpre Hnone H8. induction Hpre as [|c' pre Hb _ IH]; simpl app.
  - cbn [netblock_scan]. rewrite Nat.ltb_antisym. apply Nat.leb_le in H8. by rewrite H8.
  - cbn [existsb] in Hnone. apply orb_false_iff in Hnone as [Hh Hnone].
    rewrite netblock_scan_pass by done. by apply IH.
Qed.

Lemma short_passes target c :
  short c → netblock_breaks c = false ∧ netblock_hit target c = false.
Proof.
  destruct c as [ip|gs]; unfold short, netblock_breaks, netblock_hit; intros H.
  - split; [done|]. apply Nat.leb_gt in H. by rewrite H.
  - split; [|done]. by apply Nat.leb_gt.
Qed.

(** Finding a candidate that is a finding, in the logical form. *)
Lemma netblock_hit_spec target l :
  existsb (netblock_hit target) l = true
  ↔ ∃ ip, FoundStr ip ∈ l
          ∧ (8 ≤ String.length ip)%nat ∧ startswith "#" ip = false
          ∧ ip_in_network (str_strip ip) target = Ok true.
Proof.
  rewrite existsb_exists. split.
  - intros ([ip|gs] & Hin & H); [|done]. exists ip. split; [by apply list_elem_of_In|].
    unfold netblock_hit in H. apply andb_true_iff in H as [[H8 Hs]%andb_true_iff Hip].
    apply Nat.leb_le in H8. apply negb_true_iff in Hs.
    by destruct (ip_in_network (str_strip ip) target) as [[|]|].
  - intros (ip & Hin & H8 & Hs & Hip). exists (FoundStr ip).
    split; [by apply list_elem_of_In|]. unfold netblock_hit.
    rewrite Hip, Hs. apply Nat.leb_le in H8. by rewrite H8.
Qed.

Lemma list_content_at_hand w cid url content :
  list_at_hand w cid url content →
  value (list_content cid url w) = Ok (Some content).
Proof.
  unfold list_content. intros [Hc|(Hc & [t Ht] & [a Ha] & Hf)];
    unfold bind at 1, opts_get; unfold bind at 1; rewrite cacheGet_eq, Hc; [done|].
  assert (opts (cache_read w) = opts w) as Ho.
  { unfold cache_read. by destruct (cache w). }
  assert (next_fetch (cache_read w) url = next_fetch w url) as Hn.
  { unfold next_fetch, cache_read. by destruct (cache w). }
  unfold bind at 1, opts_item. simpl. rewrite Ho, Ht.
  unfold bind at 1. rewrite Ho, Ha.
  unfold bind at 1. rewrite fetchUrl_eq, Hn, Hf. done.
Qed.

Lemma list_at_hand_domain_asked w cid url content :
  list_at_hand (domain_asked w) cid url content ↔ list_at_hand w cid url content.
Proof. unfold domain_asked. by destruct (domains w). Qed.

(** What a line template gives: of each line that the pattern occurs on,
    the first item of [re.findall], in the order of the lines. *)
Lemma regex_iplist_first_items rx lines :
  regex_iplist rx lines = omap (λ line, head (re_findall rx flags_list line)) lines.
Proof.
  induction lines as [|line lines IH]; [done|]. cbn [regex_iplist omap list_omap].
  destruct (re_findall rx flags_list line) as [|c cs]; simpl; by rewrite IH.
Qed.

(** The loop of [resourceList] on a netblock, at the first entry it takes
    up: the scan of the candidates decides. *)
Lemma resourceList_loop_netblock table id target dom name ck content w :
  first_entry table id "list" name ck →
  list_at_hand w (c_id ck) (c_url ck) content →
  (∀ r, c_regex ck = Some r →
        re_compile (str_replace "{0}" "(\d+\.\d+\.\d+\.\d+)" r) flags_list = Ok tt) →
  ∃ w', value (resourceList_loop table id target "netblock" dom w)
        = value (netblock_scan name (c_url ck) target (candidates ck content) w').
Proof.
  intros (pre & post & -> & Hsel & Hpre) Hhand Hcomp.
  rewrite resourceList_loop_skip by done. simpl.
  unfold selected in Hsel. simpl in Hsel. rewrite Hsel.
  rewrite (value_bind_ok _ _ _ (Some content)) by by apply list_content_at_hand.
  unfold candidates. destruct (c_regex ck) as [r|].
  - eexists.
    rewrite (value_bind_ok _ _ _ (regex_iplist (str_replace "{0}" "(\d+\.\d+\.\d+\.\d+)" r)
                                    (str_split "010" content))).
    + reflexivity.
    + unfold lift. rewrite (Hcomp r eq_refl). done.
  - eexists.
    rewrite (value_bind_ok _ _ _ (map FoundStr (str_split "010" content))) by done.
    reflexivity.
Qed.

Lemma resourceList_netblock table id target w :
  value (resourceList table id target "netblock" w)
  = value (resourceList_loop table id target "netblock" "" w).
Proof.
  unfold resourceList, enter. rewrite value_bind_emit. simpl.
  by rewrite (value_bind_ok _ _ _ (Some "")).
Qed.

(** The loop of [resourceList] off netblocks, at the only entry it takes
    up, when that entry has no line template. *)
Lemma resourceList_loop_exact table id target ty dom name ck content w :
  ty ≠ "netblock" → only_entry table id "list" name ck → c_regex ck = None →
  list_at_hand w (c_id ck) (c_url ck) content →
  value (resourceList_loop table id target ty dom w)
  = Ok (if existsb (line_hit target ty dom) (str_split "010" content)
        then Some (c_url ck) else None).
Proof.
  intros Hty (pre & post & -> & Hsel & Hothers) Hrx Hhand.
  rewrite forallb_app in Hothers. apply andb_true_iff in Hothers as [Hpre Hpost].
  rewrite resourceList_loop_skip by done. simpl.
  unfold selected in Hsel. simpl in Hsel. rewrite Hsel.
  rewrite (value_bind_ok _ _ _ (Some content)) by by apply list_content_at_hand.
  destruct (String.eqb_spec ty "netblock") as [?|_]; [done|]. rewrite Hrx.
  destruct (existsb _ _).
  - unfold debug. by rewrite value_bind_emit.
  - by rewrite resourceList_loop_none.
Qed.

End ListResolver.

(** C6: on a netblock target, with the list of the first list-mode entry
    of the identifier at hand (and its line template, if any, compiling).
    Without a line template the candidates are the lines of the list; with
    one they are what [re.findall] gives first on each line that the
    pattern occurs on, strings or, when the template has a group of its
    own, tuples.  When the candidates
    are strings or tuples of fewer than eight groups, [resourceList]
    returns the entry's URL exactly when some string candidate of at least
    eight characters that does not start with [#] is, once stripped, an
    address inside the netblock, and nothing otherwise: candidates that do
    not parse and tuples count for nothing.  A tuple of eight groups or
    more, met before any finding, ends the lookup with AttributeError. *)
Theorem resourceList_netblock_scan {rt : PyRuntime} table id target name ck content w :
  first_entry table id "list" name ck →
  list_at_hand w (c_id ck) (c_url ck) content →
  (∀ r, c_regex ck = Some r →
        re_compile (str_replace "{0}" "(\d+\.\d+\.\d+\.\d+)" r) flags_list = Ok tt) →
  let o := resourceList table id target "netblock" w in
  let hit ip := (8 ≤ String.length ip)%nat ∧ startswith "#" ip = false
                ∧ ip_in_network (str_strip ip) target = Ok true in
  let plain l := ∀ gs, FoundTuple gs ∈ l → (length gs < 8)%nat in
  (c_regex ck = None
   → candidates ck content = map FoundStr (str_split "010" content)
     ∧ plain (candidates ck content))
  ∧ (∀ r, c_regex ck = Some r →
          candidates ck content
          = omap (λ line, head (re_findall (str_replace "{0}" "(\d+\.\d+\.\d+\.\d+)" r)
                                  flags_list line))
              (str_split "010" content))
  ∧ (plain (candidates ck content) →
     (∃ ip, FoundStr ip ∈ candidates ck content ∧ hit ip) →
     value o = Ok (Some (c_url ck)))
  ∧ (plain (candidates ck content) →
     (¬ ∃ ip, FoundStr ip ∈ candidates ck content ∧ hit ip) →
     value o = Ok None)
  ∧ (∀ pre gs post,
       candidates ck content = pre ++ FoundTuple gs :: post →
       (8 ≤ length gs)%nat → plain pre →
       (¬ ∃ ip, FoundStr ip ∈ pre ∧ hit ip) →
       value o = Raise (AttributeError "'tuple' object has no attribute 'startswith'")).
Proof.
  intros Hentry Hhand Hcomp o hit plain.
  assert (∀ l, plain l → Forall (λ c, netblock_breaks c = false) l) as Hplain.
  { intros l Hl. apply Forall_forall. intros [ip|gs] Hin; [done|].
    unfold netblock_breaks. apply Nat.leb_gt. by apply Hl. }
  destruct (resourceList_loop_netblock table id target "" name ck content w Hentry Hhand Hcomp)
    as (w' & Hv).
  subst o. rewrite resourceList_netblock, Hv.
  split_and!.
  - intros Hrx. unfold candidates. rewrite Hrx. split; [done|].
    intros gs Hin. apply list_elem_of_fmap in Hin as (line & Heq & _). discriminate Heq.
  - intros r Hrx. unfold candidates. rewrite Hrx. apply regex_iplist_first_items.
  - intros Hp H. rewrite netblock_scan_value by by apply Hplain.
    apply netblock_hit_spec in H. by rewrite H.
  - intros Hp H. rewrite netblock_scan_value by by apply Hplain.
    destruct (existsb _ _) eqn:He; [|done]. destruct H. by apply netblock_hit_spec.
  - intros pre gs post Hcand H8 Hp H. rewrite Hcand.
    apply netblock_scan_breaks; [by apply Hplain| |done].
    apply not_true_is_false. intros He. apply H. by apply netblock_hit_spec.
Qed.

(** C7: off netblocks, with the check the only list-mode entry of the
    identifier and without a line template: once the base domain of a
    domain target is derived and the list is at hand, [resourceList]
    returns the entry's URL exactly when some line of the list equals the
    target or, for a domain target, the base domain, and nothing
    otherwise; when the derivation of the base domain gives nothing,
    [resourceList] returns nothing right after it, the list untouched. *)
Theorem resourceList_exact_lines {rt : PyRuntime} table id target ty name ck w :
  ty ≠ "netblock" → only_entry table id "list" name ck → c_regex ck = None →
  let o := resourceList table id target ty w in
  (∀ content targetDom,
     (ty = "domain" →
        is_Some (opts w !! "_internettlds")
        ∧ next_domain w target = Some targetDom ∧ targetDom ≠ "") →
     list_at_hand w (c_id ck) (c_url ck) content →
     let found := ∃ line, line ∈ str_split "010" content
                          ∧ (line = target ∨ (ty = "domain" ∧ line = targetDom)) in
     (found → value o = Ok (Some (c_url ck))) ∧ (¬ found → value o = Ok None))
  ∧ (∀ tlds,
       ty = "domain" → opts w !! "_internettlds" = Some tlds →
       next_domain w target = None ∨ next_domain w target = Some "" →
       value o = Ok None
       ∧ calls o = [Enter "resourceList" [id; target; ty]; HostDomain target tlds]).
Proof.
  intros Hty Hentry Hrx o. split.
  - intros content targetDom Hdom Hhand found.
    assert (value o = Ok (if existsb (line_hit target ty (if String.eqb ty "domain" then targetDom else ""))
                               (str_split "010" content)
                          then Some (c_url ck) else None)) as ->.
    { subst o. unfold resourceList, enter. rewrite value_bind_emit.
      destruct (String.eqb_spec ty "domain") as [->|Hnd].
      - destruct (Hdom eq_refl) as ([tlds Ht] & Hn & Hne).
        rewrite (value_bind_ok _ _ _ (Some targetDom)).
        2:{ unfold bind, opts_item. rewrite Ht, hostDomain_eq, Hn. done. }
        destruct (String.eqb_spec targetDom "") as [?|_]; [done|]. simpl.
        assert (after ((let* tlds0 := opts_item "_internettlds" in hostDomain target tlds0) w)
                = domain_asked w) as ->.
        { unfold bind, opts_item. rewrite Ht, hostDomain_eq. done. }
        apply (resourceList_loop_exact table id target "domain" targetDom name ck content);
          [done..|]. by apply list_at_hand_domain_asked.
      - rewrite (value_bind_ok _ _ _ (Some "")) by done. simpl.
        by apply (resourceList_loop_exact table id target ty "" name ck content). }
    assert (existsb (line_hit target ty (if String.eqb ty "domain" then targetDom else ""))
              (str_split "010" content) = true ↔ found) as Hfound.
    { rewrite existsb_exists. unfold found, line_hit. split.
      - intros (line & Hin & H). exists line. split; [by apply list_elem_of_In|].
        apply orb_true_iff in H as [H|[H1 H2]%andb_true_iff].
        + left. by apply String.eqb_eq.
        + right. apply String.eqb_eq in H1. subst ty. simpl in H2.
          split; [done|]. by apply String.eqb_eq.
      - intros (line & Hin & H). exists line. split; [by apply list_elem_of_In|].
        destruct H as [->|[-> ->]].
        + by rewrite String.eqb_refl.
        + simpl. rewrite String.eqb_refl. by rewrite orb_true_r. }
    split.
    + intros H. apply Hfound in H. by rewrite H.
    + intros H. destruct (existsb _ _); [|done]. destruct H. by apply Hfound.
  - intros tlds -> Ht Hn. subst o.
    unfold resourceList, enter, emit. simpl.
    unfold bind, opts_item. rewrite Ht, hostDomain_eq.
    destruct Hn as [-> | ->]; done.
Qed.

(** ** The classifier *)

Section ClassifierMore.
Context {rt : PyRuntime}.

Lemma match_any_false msg content rxs w :
  value (match_any msg content rxs w) = Ok false → Forall (misses content) rxs.
Proof.
  induction rxs as [|rx rxs IH]; [done|]. simpl. unfold bind, lift.
  destruct (re_match rx content flags_content) as [[|]|ex] eqn:E; [done| |done].
  destruct (match_any msg content rxs w) as [[r w1] l1]. simpl in *.
  intros H. constructor; [done|]. by apply IH.
Qed.

End ClassifierMore.

(** C1: a bad pattern that matches, the ones configured before it not
    matching, makes the verdict True whatever the later bad patterns and
    the good patterns are (they are not evaluated: they may even fail to
    compile), and the trace names that pattern; so the verdict is True
    whenever some bad pattern matches and all compile; and the verdict
    False only arises when no bad pattern matched. *)
Theorem bad_patterns_first {rt : PyRuntime} content goodregex badregex w :
  (∀ pre rx post,
     badregex = pre ++ rx :: post →
     Forall (misses content) pre → hits content rx →
     ∀ goodregex' post',
       contentMalicious content goodregex' (pre ++ rx :: post') w
       = (Ok (Some true), w, [SfDebug ("Found to be bad against bad regex: " +:+ rx)]))
  ∧ (Forall (λ rx, ∃ b, re_match rx content flags_content = Ok b) badregex →
     Exists (hits content) badregex →
     value (contentMalicious content goodregex badregex w) = Ok (Some true))
  ∧ (value (contentMalicious content goodregex badregex w) = Ok (Some false) →
     Forall (misses content) badregex).
Proof.
  split_and!.
  - intros pre rx post _ Hpre Hrx goodregex' post'. by apply contentMalicious_first_bad.
  - intros Hall Hex.
    destruct (first_hit content badregex Hall Hex) as (pre & rx & post & -> & Hpre & Hrx).
    by rewrite contentMalicious_first_bad.
  - unfold contentMalicious. intros H.
    destruct badregex as [|rx rxs]; [done|].
    change (0 <? length (rx :: rxs))%nat with true in H. cbv iota in H.
    apply (match_any_false "Found to be bad against bad regex: " content (rx :: rxs) w).
    unfold bind in H.
    destruct (match_any _ content (rx :: rxs) w) as [[[[|]|ex] w1] l1]; try done.
Qed.

(** C9: with no bad and no good pattern the verdict is None, for every
    content, and no pattern is evaluated; more generally the verdict is
    None whenever no bad and no good pattern matches. *)
Theorem empty_lists_unknown {rt : PyRuntime} content w :
  contentMalicious content [] [] w
  = (Ok None, w, [SfDebug "Neither good nor bad, unknown."])
  ∧ (∀ goodregex badregex,
       Forall (misses content) badregex → Forall (misses content) goodregex →
       contentMalicious content goodregex badregex w
       = (Ok None, w, [SfDebug "Neither good nor bad, unknown."])).
Proof.
  split; [reflexivity|].
  intros goodregex badregex Hbad Hgood. unfold contentMalicious, bind.
  assert (∀ msg rxs, Forall (misses content) rxs →
            (if (0 <? length rxs)%nat then match_any msg content rxs else ret false) w
            = (Ok false, w, [])) as Hphase.
  { intros msg rxs Hrxs. destruct (0 <? length rxs)%nat; [|done].
    by apply match_any_miss. }
  by rewrite !Hphase.
Qed.

Lemma classifier_one_pattern rx r content w :
  PyRe.re_parse rx = Some r →
  contentMalicious (rt := fragment_runtime) content [] [rx] w
  = if PyRe.match_prefix flags_content r content
    then (Ok (Some true), w, [SfDebug ("Found to be bad against bad regex: " +:+ rx)])
    else (Ok None, w, [SfDebug "Neither good nor bad, unknown."]).
Proof.
  intros Hp. unfold contentMalicious. simpl. unfold bind, lift. simpl.
  unfold PyRe.re_match. rewrite Hp.
  by destruct (PyRe.match_prefix flags_content r content).
Qed.

(** C8: under the model of [re], the classifier's verdict on one bad
    pattern is True exactly when a prefix of the content is a word of the
    pattern (the match starts at the first character: a pattern that has
    words only further inside the content gives None); the verdict is the
    same for contents that differ in letter case only; and the wildcard
    accepts every character, the newline included, so that a match goes
    on across lines. *)
Theorem classifier_match_semantics rx r content w :
  PyRe.re_parse rx = Some r →
  let verdict c := value (contentMalicious (rt := fragment_runtime) c [] [rx] w) in
  (verdict content = Ok (Some true)
   ↔ ∃ p q, content = p +:+ q ∧ PyRe.matches flags_content r p)
  ∧ ((¬ ∃ p q, content = p +:+ q ∧ PyRe.matches flags_content r p) →
     verdict content = Ok None)
  ∧ (∀ content', PyRe.str_lower content' = PyRe.str_lower content →
                 verdict content' = verdict content)
  ∧ (∀ d, value (contentMalicious (rt := fragment_runtime) (String d "") [] ["."] w)
          = Ok (Some true))
  ∧ (∀ a, verdict content = Ok (Some true) →
          PyRe.match_prefix flags_content
            (PyRe.Cat (PyRe.Star (PyRe.Atom PyRe.AAny)) r) (a +:+ content) = true).
Proof.
  intros Hp verdict.
  assert (∀ c, verdict c = Ok (if PyRe.match_prefix flags_content r c
                               then Some true else None)) as Hv.
  { intros c. unfold verdict. rewrite (classifier_one_pattern rx r c w Hp).
    by destruct (PyRe.match_prefix flags_content r c). }
  split_and!.
  - rewrite Hv, <- PyReFacts.match_prefix_spec.
    destruct (PyRe.match_prefix flags_content r content); split; congruence.
  - rewrite Hv, <- PyReFacts.match_prefix_spec.
    by destruct (PyRe.match_prefix flags_content r content).
  - intros content' Hl. rewrite !Hv.
    rewrite <- (PyReFacts.match_prefix_lower flags_content r content') by done.
    rewrite <- (PyReFacts.match_prefix_lower flags_content r content) by done.
    by rewrite Hl.
  - intros d. by rewrite (classifier_one_pattern "." (PyRe.Cat (PyRe.Atom PyRe.AAny) PyRe.Eps)).
  - intros a. rewrite Hv. intros H. apply PyReFacts.match_prefix_span; [done|].
    by destruct (PyRe.match_prefix flags_content r content).
Qed.

(** ** The statements on the scenarios *)

Lemma bad_patterns_first_witness :
  contentMalicious (rt := fragment_runtime) ">95/100 </td>" ["("]
    ["x"; ".*>[6-9][0-9]/100 </td>.*"; "("] (scan_world scan_opts [])
  = (Ok (Some true), scan_world scan_opts [],
     [SfDebug "Found to be bad against bad regex: .*>[6-9][0-9]/100 </td>.*"])
  ∧ value (contentMalicious (rt := fragment_runtime) ">95/100 </td>" [".*"]
             (c_badregex (snd (hd ("", query_check "" "") malchecks)))
             (scan_world scan_opts []))
    = Ok (Some true)
  ∧ Forall (misses (rt := fragment_runtime) "hello") ["x"].
Proof.
  split_and!.
  - apply (proj1 (bad_patterns_first (rt := fragment_runtime) ">95/100 </td>" []
                    ["x"; ".*>[6-9][0-9]/100 </td>.*"; "("] (scan_world scan_opts []))
             ["x"] ".*>[6-9][0-9]/100 </td>.*" ["("]).
    + reflexivity.
    + constructor; [vm_compute; reflexivity|constructor].
    + vm_compute; reflexivity.
  - apply (proj1 (proj2 (bad_patterns_first (rt := fragment_runtime) ">95/100 </td>" [".*"]
                    [".*>[6-9][0-9]/100 </td>.*"; ".*>100/100 </td>.*"]
                    (scan_world scan_opts [])))).
    + repeat constructor; eexists; vm_compute; reflexivity.
    + constructor. vm_compute; reflexivity.
  - apply (proj2 (proj2 (bad_patterns_first (rt := fragment_runtime) "hello" [".*"] ["x"]
                    (scan_world scan_opts [])))).
    vm_compute; reflexivity.
Defined.

Lemma stop_after_first_check_witness :
  let o := handleEvent (rt := fragment_runtime) three_checks (an_event "IP_ADDRESS" "1.2.3.4")
             (World (Some ∅) three_opts
                [λ _, Some "bad"; λ _, Some "bad"; λ _, Some "bad"] [] [] [true]) in
  filter (λ x, is_notify x = true) (calls o) = []
  ∧ filter (λ x, is_lookup_entry x = true) (calls o)
    = [Enter "lookupItem" ["_first"; "ip"; "1.2.3.4"]]
  ∧ ((∃ ex, value o = Raise ex)
     ∨ (value o = Ok tt ∧ last (calls o) = Some CheckForStop ∧ stops (after o) = [])).
Proof.
  apply (stop_after_first_check (rt := fragment_runtime) "First"
           (query_check "_first" "http://first/{0}")
           [("Second", query_check "_second" "http://second/{0}");
            ("Third", query_check "_third" "http://third/{0}")]
           (an_event "IP_ADDRESS" "1.2.3.4")
           (World (Some ∅) three_opts
                [λ _, Some "bad"; λ _, Some "bad"; λ _, Some "bad"] [] [] [true])
           ∅ (PyBool true) "ip" []); reflexivity.
Defined.

Lemma affiliate_gate_closed_witness :
  let e := an_event "AFFILIATE_IPADDR" "1.2.3.4" in
  let o := handleEvent (rt := fragment_runtime) malchecks e
             (scan_world (<["checkaffiliates" := PyBool false]> scan_opts)
                [Some ">95/100 </td>"]) in
  (calls o = [received e] ∨ calls o = [received e; skipping e])
  ∧ filter (λ x, is_notify x = true) (calls o) = []
  ∧ filter (λ x, is_lookup_entry x = true) (calls o) = []
  ∧ ∀ v, lookups v (calls o) = 0.
Proof.
  apply (affiliate_gate_closed (rt := fragment_runtime) malchecks "1.2.3.4"
           "sfp_dnsresolve" None). reflexivity.
Defined.

Lemma unrouted_kind_raises_witness :
  let w := scan_world scan_opts [Some ">95/100 </td>"] in
  handleEvent (rt := fragment_runtime) malchecks (an_event "DOMAIN_NAME" "example.com") w
  = (Raise (UnboundLocalError "typeId"),
     set_results (Some (<["example.com" := true]> ∅)) w,
     [received (an_event "DOMAIN_NAME" "example.com")]).
Proof.
  apply (unrouted_kind_raises (rt := fragment_runtime) malchecks
           (an_event "DOMAIN_NAME" "example.com")
           (scan_world scan_opts [Some ">95/100 </td>"]) ∅).
  - reflexivity.
  - reflexivity.
  - reflexivity.
  - repeat constructor. eexists. reflexivity.
  - constructor. eexists. split; reflexivity.
Defined.

Lemma resourceQuery_verdict_witness :
  let u := "http://reputationauthority.org/lookup?ip=1.2.3.4" in
  value (resourceQuery (rt := fragment_runtime) malchecks "_watchguard" "1.2.3.4" "ip"
           (scan_world scan_opts [None])) = Ok None
  ∧ value (resourceQuery (rt := fragment_runtime) malchecks "_watchguard" "1.2.3.4" "ip"
             (scan_world scan_opts [Some ">95/100 </td>"])) = Ok (Some u)
  ∧ value (resourceQuery (rt := fragment_runtime) malchecks "_watchguard" "1.2.3.4" "ip"
             (scan_world scan_opts [Some ">10/100 </td>"])) = Ok None.
Proof.
  assert (only_entry malchecks "_watchguard" "query" "Watchguard Reputation Authority Lookup"
            (snd (hd ("", query_check "" "") malchecks))) as Hentry.
  { exists [], []. split_and!; reflexivity. }
  split_and!.
  - apply (proj1 (resourceQuery_verdict (rt := fragment_runtime) malchecks "_watchguard"
                    "1.2.3.4" "ip" _ _ (scan_world scan_opts [None])
                    (PyInt 5) (PyStr "SpiderFoot")
                    "http://reputationauthority.org/lookup?ip=1.2.3.4"
                    Hentry eq_refl eq_refl eq_refl)).
    reflexivity.
  - apply (proj2 (resourceQuery_verdict (rt := fragment_runtime) malchecks "_watchguard"
                    "1.2.3.4" "ip" _ _ (scan_world scan_opts [Some ">95/100 </td>"])
                    (PyInt 5) (PyStr "SpiderFoot")
                    "http://reputationauthority.org/lookup?ip=1.2.3.4"
                    Hentry eq_refl eq_refl eq_refl) ">95/100 </td>" (Some true));
      reflexivity.
  - apply (proj2 (resourceQuery_verdict (rt := fragment_runtime) malchecks "_watchguard"
                    "1.2.3.4" "ip" _ _ (scan_world scan_opts [Some ">10/100 </td>"])
                    (PyInt 5) (PyStr "SpiderFoot")
                    "http://reputationauthority.org/lookup?ip=1.2.3.4"
                    Hentry eq_refl eq_refl eq_refl) ">10/100 </td>" None);
      reflexivity.
Defined.

Lemma resourceList_netblock_scan_witness :
  let scan ck target content :=
    value (resourceList (rt := fragment_runtime) [("List", ck)] "_list" target "netblock"
             (list_world content None)) in
  scan list_check "10.0.0.0/30" sample_list = Ok (Some "http://lists/bad.txt")
  ∧ scan list_check "10.0.0.8/30" "10.0.0.5" = Ok None
  ∧ scan list_check "10.0.0.0/30" ("not an address" +:+ String "010" " 10.0.0.2 ")
    = Ok (Some "http://lists/bad.txt")
  ∧ scan (template_check "ip={0}") "10.0.0.8/30" tagged_list
    = Ok (Some "http://lists/tpl.txt")
  ∧ scan (template_check "(ip)={0}") "10.0.0.8/30" "ip=10.0.0.9" = Ok None
  ∧ scan (template_check "(a)(b)(c)(d)(e)(f)(g){0}") "10.0.0.8/30" "abcdefg10.0.0.9"
    = Raise (AttributeError "'tuple' object has no attribute 'startswith'").
Proof.
  intros scan.
  assert (∀ ck, c_id ck = "_list" → c_type ck = "list" →
                first_entry [("List", ck)] "_list" "list" "List" ck) as Hentry.
  { intros ck Hid Hty. exists [], []. split_and!; [done| |done].
    unfold selected. simpl. by rewrite Hid, Hty. }
  assert (∀ content ck, list_at_hand (list_world content None) (c_id ck) (c_url ck) content)
    as Hhand.
  { intros content ck. by left. }
  assert (∀ t r, c_regex (template_check t) = Some r →
                 PyRe.re_compile (str_replace "{0}" "(\d+\.\d+\.\d+\.\d+)" t) flags_list = Ok tt →
                 re_compile (PyRuntime := fragment_runtime)
                   (str_replace "{0}" "(\d+\.\d+\.\d+\.\d+)" r) flags_list = Ok tt) as Htpl.
  { intros t r H Hc. injection H as <-. exact Hc. }
  assert (∀ r, c_regex list_check = Some r →
               re_compile (PyRuntime := fragment_runtime)
                 (str_replace "{0}" "(\d+\.\d+\.\d+\.\d+)" r) flags_list = Ok tt) as Hnone.
  { intros r H. discriminate H. }
  split_and!.
  - destruct (resourceList_netblock_scan (rt := fragment_runtime)
                [("List", list_check)] "_list" "10.0.0.0/30" "List" list_check
                sample_list (list_world sample_list None)
                (Hentry list_check eq_refl eq_refl) (Hhand _ _) Hnone) as (H1 & _ & H2 & _).
    apply H2; [by apply H1|].
    exists "10.0.0.1". split; [by left|]. split_and!; [vm_compute; lia|reflexivity..].
  - destruct (resourceList_netblock_scan (rt := fragment_runtime)
                [("List", list_check)] "_list" "10.0.0.8/30" "List" list_check
                "10.0.0.5" (list_world "10.0.0.5" None)
                (Hentry list_check eq_refl eq_refl) (Hhand _ _) Hnone) as (H1 & _ & _ & H3 & _).
    apply H3; [by apply H1|].
    intros (ip & Hin & _ & _ & Hip).
    apply list_elem_of_In in Hin. destruct Hin as [Heq|[]].
    injection Heq as <-. discriminate Hip.
  - destruct (resourceList_netblock_scan (rt := fragment_runtime)
                [("List", list_check)] "_list" "10.0.0.0/30" "List" list_check
                ("not an address" +:+ String "010" " 10.0.0.2 ")
                (list_world ("not an address" +:+ String "010" " 10.0.0.2 ") None)
                (Hentry list_check eq_refl eq_refl) (Hhand _ _) Hnone) as (H1 & _ & H2 & _).
    apply H2; [by apply H1|].
    exists " 10.0.0.2 ". split; [right; by left|].
    split_and!; [vm_compute; lia|reflexivity..].
  - destruct (resourceList_netblock_scan (rt := fragment_runtime)
                [("List", template_check "ip={0}")] "_list" "10.0.0.8/30" "List"
                (template_check "ip={0}") tagged_list (list_world tagged_list None)
                (Hentry (template_check "ip={0}") eq_refl eq_refl) (Hhand _ _)
                (λ r H, Htpl "ip={0}" r H eq_refl)) as (_ & _ & H2 & _).
    apply H2.
    + intros gs Hin. apply list_elem_of_In in Hin. destruct Hin as [Heq|[]].
      discriminate Heq.
    + exists "10.0.0.9". split; [by left|].
      split_and!; [vm_compute; lia|reflexivity..].
  - destruct (resourceList_netblock_scan (rt := fragment_runtime)
                [("List", template_check "(ip)={0}")] "_list" "10.0.0.8/30" "List"
                (template_check "(ip)={0}") "ip=10.0.0.9" (list_world "ip=10.0.0.9" None)
                (Hentry (template_check "(ip)={0}") eq_refl eq_refl) (Hhand _ _)
                (λ r H, Htpl "(ip)={0}" r H eq_refl)) as (_ & _ & _ & H3 & _).
    apply H3.
    + intros gs Hin. apply list_elem_of_In in Hin. destruct Hin as [Heq|[]].
      injection Heq as <-. vm_compute. lia.
    + intros (ip & Hin & _). apply list_elem_of_In in Hin. destruct Hin as [Heq|[]].
      discriminate Heq.
  - destruct (resourceList_netblock_scan (rt := fragment_runtime)
                [("List", template_check "(a)(b)(c)(d)(e)(f)(g){0}")] "_list" "10.0.0.8/30"
                "List" (template_check "(a)(b)(c)(d)(e)(f)(g){0}") "abcdefg10.0.0.9"
                (list_world "abcdefg10.0.0.9" None)
                (Hentry (template_check "(a)(b)(c)(d)(e)(f)(g){0}") eq_refl eq_refl) (Hhand _ _)
                (λ r H, Htpl "(a)(b)(c)(d)(e)(f)(g){0}" r H eq_refl)) as (_ & _ & _ & _ & H4).
    apply (H4 [] ["a"; "b"; "c"; "d"; "e"; "f"; "g"; "10.0.0.9"] []).
    + reflexivity.
    + vm_compute. lia.
    + intros gs Hin. by apply elem_of_nil in Hin.
    + intros (ip & Hin & _). by apply elem_of_nil in Hin.
Defined.

Lemma resourceList_exact_lines_witness :
  value (resourceList (rt := fragment_runtime) [("List", list_check)] "_list"
           "sub.evil.example.com" "domain"
           (list_world ("evil.example.com" +:+ String "010" "") (Some "evil.example.com")))
  = Ok (Some "http://lists/bad.txt")
  ∧ calls (resourceList (rt := fragment_runtime) [("List", list_check)] "_list"
             "sub.evil.example.com" "domain"
             (list_world ("evil.example.com" +:+ String "010" "") None))
    = [Enter "resourceList" ["_list"; "sub.evil.example.com"; "domain"];
       HostDomain "sub.evil.example.com" (PyList ["com"; "org"])].
Proof.
  assert (only_entry [("List", list_check)] "_list" "list" "List" list_check) as Hentry.
  { exists [], []. split_and!; reflexivity. }
  assert ("domain" ≠ "netblock") as Hty by discriminate.
  split.
  - assert ("domain" = "domain" →
            is_Some (opts (list_world ("evil.example.com" +:+ String "010" "")
                             (Some "evil.example.com")) !! "_internettlds")
            ∧ next_domain (list_world ("evil.example.com" +:+ String "010" "")
                             (Some "evil.example.com")) "sub.evil.example.com"
              = Some "evil.example.com"
            ∧ "evil.example.com" ≠ "") as Hdom.
    { intros _. split_and!; [by eexists|reflexivity|discriminate]. }
    apply (proj1 (proj1 (resourceList_exact_lines (rt := fragment_runtime)
                    [("List", list_check)] "_list" "sub.evil.example.com" "domain"
                    "List" list_check
                    (list_world ("evil.example.com" +:+ String "010" "") (Some "evil.example.com"))
                    Hty Hentry eq_refl)
                  ("evil.example.com" +:+ String "010" "") "evil.example.com"
                  Hdom (or_introl eq_refl))).
    exists "evil.example.com". split; [by left|]. by right.
  - apply (proj2 (resourceList_exact_lines (rt := fragment_runtime)
                    [("List", list_check)] "_list" "sub.evil.example.com" "domain"
                    "List" list_check
                    (list_world ("evil.example.com" +:+ String "010" "") None)
                    Hty Hentry eq_refl) (PyList ["com"; "org"]) eq_refl eq_refl).
    by left.
Defined.

Lemma classifier_match_semantics_witness :
  let w := scan_world scan_opts [] in
  let verdict c := value (contentMalicious (rt := fragment_runtime) c [] ["b.c"] w) in
  PyRe.re_parse "b.c"
  = Some (PyRe.Cat (PyRe.Atom (PyRe.AChr "b"))
            (PyRe.Cat (PyRe.Atom PyRe.AAny)
               (PyRe.Cat (PyRe.Atom (PyRe.AChr "c")) PyRe.Eps)))
  ∧ verdict "ab.c" = Ok None
  ∧ verdict "B.C" = verdict "b.c".
Proof.
  intros w verdict.
  pose proof (λ content,
    classifier_match_semantics "b.c"
      (PyRe.Cat (PyRe.Atom (PyRe.AChr "b"))
         (PyRe.Cat (PyRe.Atom PyRe.AAny)
            (PyRe.Cat (PyRe.Atom (PyRe.AChr "c")) PyRe.Eps)))
      content w eq_refl) as H.
  split_and!.
  - reflexivity.
  - destruct (H "ab.c") as (H1 & H2 & _). apply H2.
    intros Hex. apply H1 in Hex. discriminate Hex.
  - destruct (H "b.c") as (_ & _ & H3 & _). apply H3. reflexivity.
Defined.

Lemma empty_lists_unknown_witness :
  contentMalicious (rt := fragment_runtime) "hello" ["x"] ["y"; "z"] (scan_world scan_opts [])
  = (Ok None, scan_world scan_opts [], [SfDebug "Neither good nor bad, unknown."]).
Proof.
  apply (proj2 (empty_lists_unknown (rt := fragment_runtime) "hello"
                  (scan_world scan_opts [])) ["x"] ["y"; "z"]);
    repeat constructor.
Defined.

(** * Further properties of the code *)

(** ** The classifier: good patterns, errors and the trace *)

Section ClassifierPaths.
Context {rt : PyRuntime}.

Lemma match_any_raise msg content pre rx post ex w :
  Forall (misses content) pre → re_match rx content flags_content = Raise ex →
  match_any msg content (pre ++ rx :: post) w = (Raise ex, w, []).
Proof.
  intros Hpre Hrx. induction Hpre as [|p pre Hp _ IH]; simpl; unfold bind, lift.
  - by rewrite Hrx.
  - rewrite Hp. by rewrite IH.
Qed.

(** One loop of the classifier, guarded by its length test. *)
Lemma phase_miss msg content rxs w :
  Forall (misses content) rxs →
  (if (0 <? length rxs)%nat then match_any msg content rxs else ret false) w
  = (Ok false, w, []).
Proof.
  intros H. destruct (0 <? length rxs)%nat; [|done]. by apply match_any_miss.
Qed.

Lemma phase_cons msg content pre rx post :
  (if (0 <? length (pre ++ rx :: post))%nat
   then match_any msg content (pre ++ rx :: post) else ret false)
  = match_any msg content (pre ++ rx :: post).
Proof. by destruct pre. Qed.

(** What every path of [match_any] logs. *)
Lemma match_any_calls msg content rxs w :
  after (match_any msg content rxs w) = w
  ∧ match value (match_any msg content rxs w) with
    | Ok true => ∃ rx, rx ∈ rxs ∧ calls (match_any msg content rxs w) = [SfDebug (msg +:+ rx)]
    | _ => calls (match_any msg content rxs w) = []
    end.
Proof.
  induction rxs as [|rx rxs [IH1 IH2]]; [done|]. simpl. unfold bind, lift.
  destruct (re_match rx content flags_content) as [[|]|ex]; simpl.
  - split; [done|]. exists rx. split; [by left|done].
  - destruct (match_any msg content rxs w) as [[[[|]|ex] w1] l1];
      unfold value, after, calls in *; simpl in *; split; try done.
    destruct IH2 as (rx' & Hin & ->). exists rx'. split; [by right|done].
  - done.
Qed.

End ClassifierPaths.

(** X1: a good pattern that matches, no bad pattern and none of the good
    patterns before it matching, makes the verdict False; the trace names
    that pattern, and the good patterns after it are not evaluated. *)
Theorem good_pattern_first {rt : PyRuntime} content badregex pre rx post w :
  Forall (misses content) badregex →
  Forall (misses content) pre → hits content rx →
  contentMalicious content (pre ++ rx :: post) badregex w
  = (Ok (Some false), w, [SfDebug ("Found to be good againt good regex: " +:+ rx)]).
Proof.
  intros Hbad Hpre Hrx. unfold contentMalicious, bind.
  rewrite phase_miss by done. rewrite phase_cons.
  by rewrite match_any_first.
Qed.

(** X2: the patterns are evaluated bad ones first, then good ones; when
    the first of them that does not plainly miss makes [re.match] raise,
    [contentMalicious] raises that exception, with no verdict and no trace
    line. *)
Theorem malformed_pattern_raises {rt : PyRuntime} content goodregex badregex pre rx post ex w :
  badregex ++ goodregex = pre ++ rx :: post →
  Forall (misses content) pre →
  re_match rx content flags_content = Raise ex →
  contentMalicious content goodregex badregex w = (Raise ex, w, []).
Proof.
  intros Heq Hpre Hrx. unfold contentMalicious, bind.
  apply app_eq_app in Heq as [l [[-> Hpost]|[-> ->]]].
  - destruct l as [|x l].
    + rewrite app_nil_r in *. simpl in Hpost. subst goodregex.
      rewrite phase_miss by done.
      change (rx :: post) with ([] ++ rx :: post).
      rewrite phase_cons. by rewrite (match_any_raise _ _ _ _ _ ex).
    + injection Hpost as -> ->.
      rewrite phase_cons. by rewrite (match_any_raise _ _ _ _ _ ex).
  - apply Forall_app in Hpre as [Hbad Hl].
    rewrite phase_miss by done.
    rewrite phase_cons. by rewrite (match_any_raise _ _ _ _ _ ex).
Qed.

(** Every path of [contentMalicious]: the world it leaves and what it logs. *)
Lemma contentMalicious_outcome {rt : PyRuntime} content goodregex badregex w :
  let o := contentMalicious content goodregex badregex w in
  after o = w
  ∧ match value o with
    | Ok (Some true) =>
        ∃ rx, rx ∈ badregex
              ∧ calls o = [SfDebug ("Found to be bad against bad regex: " +:+ rx)]
    | Ok (Some false) =>
        ∃ rx, rx ∈ goodregex
              ∧ calls o = [SfDebug ("Found to be good againt good regex: " +:+ rx)]
    | Ok None => calls o = [SfDebug "Neither good nor bad, unknown."]
    | Raise _ => calls o = []
    end.
Proof.
  assert (∀ msg rxs, ∃ r l,
            (if (0 <? length rxs)%nat then match_any msg content rxs else ret false) w
            = (r, w, l)
            ∧ match r with
              | Ok true => ∃ rx, rx ∈ rxs ∧ l = [SfDebug (msg +:+ rx)]
              | _ => l = []
              end) as Hphase.
  { intros msg rxs. destruct (0 <? length rxs)%nat; [|by eexists _, _].
    destruct (match_any_calls msg content rxs w) as [H1 H2].
    destruct (match_any msg content rxs w) as [[r w1] l].
    unfold value, after, calls in *. simpl in *. subst w1.
    by exists r, l. }
  simpl. unfold contentMalicious, bind.
  destruct (Hphase "Found to be bad against bad regex: " badregex) as (r1 & l1 & -> & B).
  destruct r1 as [[|]|ex]; unfold value, after, calls; simpl.
  - destruct B as (rx & Hin & ->). split; [done|]. by exists rx.
  - subst l1.
    destruct (Hphase "Found to be good againt good regex: " goodregex) as (r2 & l2 & -> & G).
    destruct r2 as [[|]|ex]; simpl.
    + destruct G as (rx & Hin & ->). split; [done|]. by exists rx.
    + by subst l2.
    + by subst l2.
  - by subst l1.
Qed.

(** X3: [contentMalicious] leaves the state of the module as it was and
    talks to the framework through [debug] only: exactly one trace line
    when it returns a verdict, none when it raises. *)
Theorem contentMalicious_traces_once {rt : PyRuntime} content goodregex badregex w :
  let o := contentMalicious content goodregex badregex w in
  after o = w
  ∧ Forall (λ e, ∃ msg, e = SfDebug msg) (calls o)
  ∧ length (calls o) = match value o with Ok _ => 1 | Raise _ => 0 end.
Proof.
  intros o. destruct (contentMalicious_outcome content goodregex badregex w) as [Hw Hc].
  fold o in Hw, Hc. split; [done|].
  destruct (value o) as [[[|]|]|ex].
  - destruct Hc as (rx & _ & ->). split; [|done]. repeat constructor. by eexists.
  - destruct Hc as (rx & _ & ->). split; [|done]. repeat constructor. by eexists.
  - rewrite Hc. split; [|done]. repeat constructor. by eexists.
  - rewrite Hc. split; [|done]. constructor.
Qed.

(** ** Obtaining a list, and the scan with a line template *)

Section ListContent.
Context {rt : PyRuntime}.

Lemma calls_bind_ok {A B} (m : M A) (k : A → M B) w a :
  value (m w) = Ok a →
  calls (bind m k w) = calls (m w) ++ calls (k a (after (m w))).
Proof.
  intros H. destruct (bind_cases m k w) as [(a' & Ha & ->)|(e & He & ->)].
  - rewrite H in Ha. by injection Ha as ->.
  - rewrite H in He. discriminate He.
Qed.

Lemma value_bind_raise {A B} (m : M A) (k : A → M B) w ex :
  value (m w) = Raise ex → value (bind m k w) = Raise ex.
Proof.
  intros H. destruct (bind_cases m k w) as [(a' & Ha & ->)|(e & He & ->)].
  - rewrite H in Ha. discriminate Ha.
  - rewrite H in He. by injection He as ->.
Qed.

Lemma first_entry_split tbl id mode name ck :
  first_entry tbl id mode name ck →
  ∃ pre post, tbl = pre ++ (name, ck) :: post
    ∧ String.eqb id (c_id ck) && String.eqb (c_type ck) mode = true
    ∧ forallb (λ e, negb (selected id mode e)) pre = true.
Proof. intros (pre & post & H1 & H2 & H3). by exists pre, post. Qed.

(** [list_content], call by call. *)
Lemma list_content_eq cid url w :
  list_content cid url w
  = let period := default (PyInt 0) (opts w !! "cacheperiod") in
    let read := CacheGet (cache_key cid) period in
    match next_cached w (cache_key cid) with
    | Some content => (Ok (Some content), cache_read w, [read])
    | None =>
        match opts w !! "_fetchtimeout", opts w !! "_useragent" with
        | None, _ => (Raise (KeyError "_fetchtimeout"), cache_read w, [read])
        | Some _, None => (Raise (KeyError "_useragent"), cache_read w, [read])
        | Some t, Some a =>
            match next_fetch w url with
            | Some content =>
                (Ok (Some content), fetched (cache_read w),
                 [read; FetchUrl url t a; CachePut (cache_key cid) content])
            | None =>
                (Ok None, fetched (cache_read w),
                 [read; FetchUrl url t a; SfError ("Unable to fetch " +:+ url)])
            end
        end
    end.
Proof.
  assert (opts (cache_read w) = opts w) as Ho.
  { unfold cache_read. by destruct (cache w). }
  assert (next_fetch (cache_read w) url = next_fetch w url) as Hn.
  { unfold next_fetch, cache_read. by destruct (cache w). }
  unfold list_content, cache_key. unfold bind at 1, opts_get. unfold bind at 1.
  rewrite cacheGet_eq. simpl.
  destruct (next_cached w ("sfmal_" +:+ cid)) as [content|]; [done|].
  unfold bind at 1, opts_item. rewrite Ho.
  destruct (opts w !! "_fetchtimeout") as [t|]; [|done].
  unfold bind at 1. rewrite Ho.
  destruct (opts w !! "_useragent") as [a|]; [|done].
  unfold bind at 1. rewrite fetchUrl_eq, Hn.
  by destruct (next_fetch w url).
Qed.

Lemma resourceList_eq_plain table id target ty w :
  String.eqb ty "domain" = false →
  let o := resourceList_loop table id target ty "" w in
  resourceList table id target ty w
  = (value o, after o, Enter "resourceList" [id; target; ty] :: calls o).
Proof.
  intros Hty. simpl. unfold resourceList, enter, emit. rewrite Hty. simpl.
  unfold bind, ret.
  by destruct (resourceList_loop table id target ty "" w) as [[??]?].
Qed.

Lemma resourceList_eq_domain table id target tlds dom w :
  opts w !! "_internettlds" = Some tlds → next_domain w target = Some dom → dom ≠ "" →
  let o := resourceList_loop table id target "domain" dom (domain_asked w) in
  resourceList table id target "domain" w
  = (value o, after o,
     Enter "resourceList" [id; target; "domain"] :: HostDomain target tlds :: calls o).
Proof.
  intros Ht Hn Hne. simpl. unfold resourceList, enter, emit. simpl.
  unfold bind at 1 2 3, opts_item. rewrite Ht, hostDomain_eq, Hn.
  destruct (String.eqb_spec dom "") as [?|_]; [done|]. simpl.
  by destruct (resourceList_loop table id target "domain" dom (domain_asked w)) as [[??]?].
Qed.

(** After the base-domain step, [resourceList] is its loop. *)
Lemma resourceList_derived table id target ty dom w :
  derives w target ty dom →
  let o := resourceList_loop table id target ty dom (derived_world w ty) in
  value (resourceList table id target ty w) = value o
  ∧ ∃ l0, calls (resourceList table id target ty w) = l0 ++ calls o.
Proof.
  unfold derives, derived_world. destruct (String.eqb_spec ty "domain") as [->|Hne].
  - intros ([tlds Ht] & Hn & Hd). simpl.
    rewrite (resourceList_eq_domain table id target tlds dom w) by done.
    split; [done|]. by eexists [_; _].
  - intros ->. simpl. rewrite resourceList_eq_plain by by apply String.eqb_neq.
    split; [done|]. by eexists [_].
Qed.

Lemma list_at_hand_derived w ty cid url content :
  list_at_hand (derived_world w ty) cid url content ↔ list_at_hand w cid url content.
Proof.
  unfold derived_world. destruct (String.eqb ty "domain"); [|done].
  apply list_at_hand_domain_asked.
Qed.

Lemma regex_scan_pure rxDom rxTgt ty lines :
  ∃ r, ∀ w, regex_scan rxDom rxTgt ty lines w = (r, w, []).
Proof.
  induction lines as [|line lines (r & IH)]; simpl; [by eexists|].
  destruct (String.eqb ty "domain").
  - destruct (re_match rxDom line flags_list) as [[|]|ex1].
    + eexists. intros w. unfold bind, lift, ret. reflexivity.
    + destruct (re_match rxTgt line flags_list) as [[|]|ex2];
        eexists; intros w; unfold bind, lift, ret; simpl; rewrite ?IH; reflexivity.
    + eexists. intros w. unfold bind, lift, ret. reflexivity.
  - destruct (re_match rxTgt line flags_list) as [[|]|ex2];
      eexists; intros w; unfold bind, lift, ret; simpl; rewrite ?IH; reflexivity.
Qed.

Lemma regex_scan_miss rxDom rxTgt ty lines w :
  Forall (template_miss rxDom rxTgt ty) lines →
  regex_scan rxDom rxTgt ty lines w = (Ok false, w, []).
Proof.
  induction 1 as [|line lines [Hd Ht] _ IH]; [done|]. simpl.
  destruct (String.eqb_spec ty "domain") as [E|_].
  - unfold bind at 1 2, lift. rewrite (Hd E), Ht. simpl. by rewrite IH.
  - unfold bind at 1, lift. rewrite Ht. simpl. by rewrite IH.
Qed.

Lemma regex_scan_first rxDom rxTgt ty pre line post w :
  Forall (template_miss rxDom rxTgt ty) pre → template_hit rxDom rxTgt ty line →
  regex_scan rxDom rxTgt ty (pre ++ line :: post) w = (Ok true, w, []).
Proof.
  intros Hpre Hhit. induction Hpre as [|l pre [Hd Ht] _ IH]; simpl.
  - destruct Hhit as [[-> Hd]|[Hd Ht]].
    + unfold bind, lift. simpl. by rewrite Hd.
    + destruct (String.eqb_spec ty "domain") as [E|_].
      * unfold bind, lift. by rewrite (Hd E), Ht.
      * unfold bind, lift. by rewrite Ht.
  - destruct (String.eqb_spec ty "domain") as [E|_].
    + unfold bind at 1 2, lift. rewrite (Hd E), Ht. simpl. by rewrite IH.
    + unfold bind at 1, lift. rewrite Ht. simpl. by rewrite IH.
Qed.

End ListContent.

Section ListLoop.
Context {rt : PyRuntime}.

(** The loop of [resourceList] off netblocks at an entry it takes up that
    has no line template. *)
Lemma resourceList_loop_plain name ck post id target ty dom content w :
  selected id "list" (name, ck) = true → ty ≠ "netblock" → c_regex ck = None →
  list_at_hand w (c_id ck) (c_url ck) content →
  value (resourceList_loop ((name, ck) :: post) id target ty dom w)
  = if existsb (line_hit target ty dom) (str_split "010" content)
    then Ok (Some (c_url ck))
    else value (resourceList_loop post id target ty dom
                  (after (list_content (c_id ck) (c_url ck) w))).
Proof.
  intros Hsel Hty Hrx Hhand. simpl.
  unfold selected in Hsel. simpl in Hsel. rewrite Hsel.
  rewrite (value_bind_ok _ _ _ (Some content)) by by apply list_content_at_hand.
  destruct (String.eqb_spec ty "netblock") as [?|_]; [done|]. rewrite Hrx.
  destruct (existsb _ _); [|done].
  unfold debug. by rewrite value_bind_emit.
Qed.

Lemma template_block_eq r dom target ty lines msg w :
  try_except
    (let* rxDom := lift (str_format r dom) in
     let* rxTgt := lift (str_format r target) in
     let* hit := regex_scan rxDom rxTgt ty lines in
     if hit then debug msg;; ret true else ret false)
    (λ e, debug ("Error encountered parsing 2: " +:+ str_exn e);; ret false) w
  = match template_attempt r dom target ty lines with
    | Ok true => (Ok true, w, [SfDebug msg])
    | Ok false => (Ok false, w, [])
    | Raise ex =>
        (Ok false, w, [SfDebug ("Error encountered parsing 2: " +:+ str_exn ex)])
    end.
Proof.
  unfold template_attempt, try_except, bind at 1, lift.
  destruct (str_format r dom) as [rxDom|ex1]; [|done].
  unfold bind at 1.
  destruct (str_format r target) as [rxTgt|ex2]; [|done].
  destruct (regex_scan_pure rxDom rxTgt ty lines) as (res & Hres).
  unfold bind at 1. rewrite !Hres. unfold value. simpl.
  by destruct res as [[|]|ex3].
Qed.

(** The same at an entry with a line template: what the guarded block
    comes to decides. *)
Lemma resourceList_loop_template name ck post id target ty dom content r w :
  selected id "list" (name, ck) = true → ty ≠ "netblock" → c_regex ck = Some r →
  list_at_hand w (c_id ck) (c_url ck) content →
  let w2 := after (list_content (c_id ck) (c_url ck) w) in
  let o := resourceList_loop ((name, ck) :: post) id target ty dom w in
  match template_attempt r dom target ty (str_split "010" content) with
  | Ok true => value o = Ok (Some (c_url ck))
  | Ok false => value o = value (resourceList_loop post id target ty dom w2)
  | Raise ex =>
      value o = value (resourceList_loop post id target ty dom w2)
      ∧ SfDebug ("Error encountered parsing 2: " +:+ str_exn ex) ∈ calls o
  end.
Proof.
  intros Hsel Hty Hrx Hhand. simpl.
  unfold selected in Hsel. simpl in Hsel. rewrite Hsel.
  pose proof (list_content_at_hand w _ _ _ Hhand) as Hlc.
  rewrite (value_bind_ok _ _ _ (Some content)) by done.
  rewrite (calls_bind_ok _ _ _ (Some content)) by done.
  set (w2 := after (list_content (c_id ck) (c_url ck) w)).
  destruct (String.eqb_spec ty "netblock") as [?|_]; [done|]. rewrite Hrx.
  pose proof (template_block_eq r dom target ty (str_split "010" content)
                (target +:+ "/" +:+ dom +:+ " found in " +:+ name +:+ " list.") w2) as Hb.
  destruct (template_attempt r dom target ty (str_split "010" content)) as [[|]|ex].
  - rewrite (value_bind_ok _ _ _ true) by by rewrite Hb. done.
  - rewrite (value_bind_ok _ _ _ false) by by rewrite Hb. by rewrite Hb.
  - rewrite (value_bind_ok _ _ _ false) by by rewrite Hb.
    rewrite (calls_bind_ok _ _ _ false) by by rewrite Hb.
    rewrite Hb. split; [done|].
    apply elem_of_app. right. apply elem_of_app. left. by left.
Qed.

End ListLoop.

(** ** The resolvers: edge cases and errors *)

Section TemplateScan.
Context {rt : PyRuntime}.

Lemma regex_scan_raise rxDom rxTgt ty pre line post ex w :
  Forall (template_miss rxDom rxTgt ty) pre → template_raises rxDom rxTgt ty line ex →
  regex_scan rxDom rxTgt ty (pre ++ line :: post) w = (Raise ex, w, []).
Proof.
  intros Hpre Hhit. induction Hpre as [|l pre [Hd Ht] _ IH]; simpl.
  - destruct Hhit as [[-> Hd]|[Hd Ht]].
    + unfold bind, lift. simpl. by rewrite Hd.
    + destruct (String.eqb_spec ty "domain") as [E|_].
      * unfold bind, lift. by rewrite (Hd E), Ht.
      * unfold bind, lift. by rewrite Ht.
  - destruct (String.eqb_spec ty "domain") as [E|_].
    + unfold bind at 1 2, lift. rewrite (Hd E), Ht. simpl. by rewrite IH.
    + unfold bind at 1, lift. rewrite Ht. simpl. by rewrite IH.
Qed.

Lemma regex_scan_value rxDom rxTgt ty lines w w' :
  value (regex_scan rxDom rxTgt ty lines w) = value (regex_scan rxDom rxTgt ty lines w').
Proof. destruct (regex_scan_pure rxDom rxTgt ty lines) as (r & H). by rewrite !H. Qed.

End TemplateScan.

(** X4: when no entry of the dictionary is a query check of the given
    identifier, [resourceQuery] returns None after its opening trace line,
    without any fetch. *)
Theorem resourceQuery_no_entry {rt : PyRuntime} table id target ty w :
  forallb (λ e, negb (selected id "query" e)) table = true →
  resourceQuery table id target ty w
  = (Ok None, w,
     [Enter "resourceQuery" [id; target; ty];
      SfDebug ("Querying " +:+ id +:+ " for maliciousness of " +:+ target)]).
Proof.
  intros H. rewrite resourceQuery_eq. by rewrite resourceQuery_loop_none.
Qed.

(** X5: the errors of [resourceQuery] at the first query entry of the
    identifier.  A URL template that [format] rejects and a missing
    [_fetchtimeout] or [_useragent] option raise before any fetch (the
    template's error, KeyError); an exception of the classifier on the
    fetched content is raised after the one fetch. *)
Theorem resourceQuery_errors {rt : PyRuntime} table id target ty name ck w :
  first_entry table id "query" name ck →
  let o := resourceQuery table id target ty w in
  let started := [Enter "resourceQuery" [id; target; ty];
                  SfDebug ("Querying " +:+ id +:+ " for maliciousness of " +:+ target)] in
  (∀ ex, str_format (c_url ck) target = Raise ex → o = (Raise ex, w, started))
  ∧ (∀ u, str_format (c_url ck) target = Ok u → opts w !! "_fetchtimeout" = None →
          o = (Raise (KeyError "_fetchtimeout"), w, started))
  ∧ (∀ u t, str_format (c_url ck) target = Ok u →
            opts w !! "_fetchtimeout" = Some t → opts w !! "_useragent" = None →
            o = (Raise (KeyError "_useragent"), w, started))
  ∧ (∀ u t a content ex,
       str_format (c_url ck) target = Ok u →
       opts w !! "_fetchtimeout" = Some t → opts w !! "_useragent" = Some a →
       next_fetch w u = Some content →
       value (contentMalicious content (c_goodregex ck) (c_badregex ck) w) = Raise ex →
       o = (Raise ex, fetched w, started ++ [FetchUrl u t a])).
Proof.
  intros (pre & post & -> & Hsel & Hpre) o started. subst o started.
  rewrite resourceQuery_eq, resourceQuery_loop_skip by done.
  split_and!.
  - intros ex Hu. simpl. unfold selected in Hsel. simpl in Hsel. rewrite Hsel.
    unfold bind, lift. by rewrite Hu.
  - intros u Hu Ht. simpl. unfold selected in Hsel. simpl in Hsel. rewrite Hsel.
    unfold bind, lift, opts_item. by rewrite Hu, Ht.
  - intros u t Hu Ht Ha. simpl. unfold selected in Hsel. simpl in Hsel. rewrite Hsel.
    unfold bind, lift, opts_item. by rewrite Hu, Ht, Ha.
  - intros u t a content ex Hu Ht Ha Hf Hv.
    rewrite (resourceQuery_loop_selected name ck post id target w t a u) by done.
    rewrite Hf. cbv zeta. rewrite Hv.
    destruct (contentMalicious_outcome content (c_goodregex ck) (c_badregex ck) w)
      as [_ Hc].
    rewrite Hv in Hc. unfold value, after, calls in *. simpl. by rewrite Hc.
Qed.

(** X6: [resourceQuery] at the first query entry of the identifier.  A
    failed fetch ends the whole lookup with None.  A fetched content ends it
    with the formatted URL on the verdict True only; on the verdicts False
    and None the loop goes on with the later entries of the dictionary. *)
Theorem resourceQuery_later_entries {rt : PyRuntime} pre name ck post id target ty w t a u :
  forallb (λ e, negb (selected id "query" e)) pre = true →
  selected id "query" (name, ck) = true →
  opts w !! "_fetchtimeout" = Some t → opts w !! "_useragent" = Some a →
  str_format (c_url ck) target = Ok u →
  let o := resourceQuery (pre ++ (name, ck) :: post) id target ty w in
  (next_fetch w u = None → value o = Ok None)
  ∧ (∀ content verdict,
       next_fetch w u = Some content →
       value (contentMalicious content (c_goodregex ck) (c_badregex ck) w) = Ok verdict →
       value o = if bool_decide (verdict = Some true) then Ok (Some u)
                 else value (resourceQuery_loop post id target (fetched w))).
Proof.
  intros Hpre Hsel Ht Ha Hu o. subst o.
  rewrite resourceQuery_eq, resourceQuery_loop_skip by done.
  rewrite (resourceQuery_loop_selected name ck post id target w t a u) by done.
  split.
  - by intros ->.
  - intros content verdict -> Hv. cbv zeta. rewrite Hv.
    by destruct verdict as [[|]|].
Qed.

(** X7: how a list is obtained.  A cache hit is used without any fetch;
    on a cache miss the list is fetched and, when the fetch delivers, stored
    under the key [sfmal_] + identifier; a failed fetch is reported and
    nothing is stored; a missing [_fetchtimeout] option raises KeyError
    after the cache was read. *)
Theorem cached_list_protocol cid url w :
  let key := "sfmal_" +:+ cid in
  let read := CacheGet key (default (PyInt 0) (opts w !! "cacheperiod")) in
  let o := list_content cid url w in
  (∀ content, next_cached w key = Some content →
     o = (Ok (Some content), cache_read w, [read]))
  ∧ (∀ t a content,
       next_cached w key = None →
       opts w !! "_fetchtimeout" = Some t → opts w !! "_useragent" = Some a →
       next_fetch w url = Some content →
       o = (Ok (Some content), fetched (cache_read w),
            [read; FetchUrl url t a; CachePut key content]))
  ∧ (∀ t a,
       next_cached w key = None →
       opts w !! "_fetchtimeout" = Some t → opts w !! "_useragent" = Some a →
       next_fetch w url = None →
       o = (Ok None, fetched (cache_read w),
            [read; FetchUrl url t a; SfError ("Unable to fetch " +:+ url)]))
  ∧ (next_cached w key = None → opts w !! "_fetchtimeout" = None →
     o = (Raise (KeyError "_fetchtimeout"), cache_read w, [read])).
Proof.
  intros key read o. subst o. rewrite list_content_eq. fold key. cbv zeta. fold read.
  unfold cache_key. fold key.
  split_and!.
  - by intros content ->.
  - by intros t a content -> -> -> ->.
  - by intros t a -> -> -> ->.
  - by intros -> ->.
Qed.

Section DerivedWorld.
Context {rt : PyRuntime}.

Lemma derived_world_fields w ty :
  opts (derived_world w ty) = opts w
  ∧ (∀ k, next_cached (derived_world w ty) k = next_cached w k)
  ∧ (∀ u, next_fetch (derived_world w ty) u = next_fetch w u).
Proof.
  unfold derived_world, domain_asked.
  destruct (String.eqb ty "domain"); [|done]. by destruct (domains w).
Qed.

End DerivedWorld.

(** X8: when the cache misses and the fetch of the first list entry of
    the identifier fails, [resourceList] returns None, reports the error
    with the URL of the check, and stores nothing in the cache, whatever
    the later entries of the dictionary are. *)
Theorem resourceList_fetch_failure {rt : PyRuntime} table id target ty dom name ck w t a :
  derives w target ty dom →
  first_entry table id "list" name ck →
  next_cached w ("sfmal_" +:+ c_id ck) = None →
  opts w !! "_fetchtimeout" = Some t → opts w !! "_useragent" = Some a →
  next_fetch w (c_url ck) = None →
  let o := resourceList table id target ty w in
  value o = Ok None
  ∧ SfError ("Unable to fetch " +:+ c_url ck) ∈ calls o
  ∧ Forall (λ e, ∀ k c, e ≠ CachePut k c) (calls o).
Proof.
  intros Hd (pre & post & -> & Hsel & Hpre) Hc Ht Ha Hf o. subst o.
  destruct (derived_world_fields w ty) as (Ho & Hnc & Hnf).
  assert (list_content (c_id ck) (c_url ck) (derived_world w ty)
          = (Ok None, fetched (cache_read (derived_world w ty)),
             [CacheGet (cache_key (c_id ck)) (default (PyInt 0) (opts w !! "cacheperiod"));
              FetchUrl (c_url ck) t a; SfError ("Unable to fetch " +:+ c_url ck)])) as Hlc.
  { rewrite list_content_eq. unfold cache_key. rewrite Hnc, Ho, Hc, Ht, Ha, Hnf, Hf. done. }
  assert (resourceList_loop (pre ++ (name, ck) :: post) id target ty dom (derived_world w ty)
          = (Ok None, fetched (cache_read (derived_world w ty)),
             [CacheGet (cache_key (c_id ck)) (default (PyInt 0) (opts w !! "cacheperiod"));
              FetchUrl (c_url ck) t a; SfError ("Unable to fetch " +:+ c_url ck)])) as Hloop.
  { rewrite resourceList_loop_skip by done. simpl.
    unfold selected in Hsel. simpl in Hsel. rewrite Hsel.
    unfold bind. by rewrite Hlc. }
  unfold derives, derived_world in *. destruct (String.eqb_spec ty "domain") as [->|Hne].
  - destruct Hd as ([tlds Htl] & Hn & Hdne).
    rewrite (resourceList_eq_domain _ id target tlds dom w) by done.
    rewrite Hloop. unfold value, calls. simpl. split_and!; [done| |].
    + do 4 right. by left.
    + repeat constructor; by intros.
  - subst dom. rewrite resourceList_eq_plain by by apply String.eqb_neq.
    rewrite Hloop. unfold value, calls. simpl. split_and!; [done| |].
    + do 3 right. by left.
    + repeat constructor; by intros.
Qed.

(** X9: on a netblock, a line template that [re.compile] rejects (after
    [{0}] was replaced by the address pattern) makes [resourceList] raise:
    this compilation is outside the guarded blocks. *)
Theorem netblock_template_error_raises {rt : PyRuntime} table id target name ck content r ex w :
  first_entry table id "list" name ck →
  list_at_hand w (c_id ck) (c_url ck) content →
  c_regex ck = Some r →
  re_compile (str_replace "{0}" "(\d+\.\d+\.\d+\.\d+)" r) flags_list = Raise ex →
  value (resourceList table id target "netblock" w) = Raise ex.
Proof.
  intros (pre & post & -> & Hsel & Hpre) Hhand Hrx Hcomp.
  rewrite resourceList_netblock, resourceList_loop_skip by done. simpl.
  unfold selected in Hsel. simpl in Hsel. rewrite Hsel.
  rewrite (value_bind_ok _ _ _ (Some content)) by by apply list_content_at_hand.
  rewrite Hrx. apply value_bind_raise. apply value_bind_raise.
  unfold lift. by rewrite Hcomp.
Qed.

Section FirstListEntry.
Context {rt : PyRuntime}.

(** [resourceList] off netblocks, at the first entry it takes up. *)
Lemma resourceList_at_first pre name ck post id target ty dom w :
  derives w target ty dom →
  forallb (λ e, negb (selected id "list" e)) pre = true →
  let o := resourceList_loop ((name, ck) :: post) id target ty dom (derived_world w ty) in
  value (resourceList (pre ++ (name, ck) :: post) id target ty w) = value o
  ∧ ∃ l0, calls (resourceList (pre ++ (name, ck) :: post) id target ty w) = l0 ++ calls o.
Proof.
  intros Hd Hpre o.
  destruct (resourceList_derived (pre ++ (name, ck) :: post) id target ty dom w Hd)
    as (Hv & l0 & Hc).
  rewrite resourceList_loop_skip in Hv, Hc by done. split; [done|]. by exists l0.
Qed.

Lemma template_attempt_raise r dom target ty lines ex :
  (str_format r dom = Raise ex
   ∨ (∃ rxDom, str_format r dom = Ok rxDom ∧ str_format r target = Raise ex)
   ∨ (∃ rxDom rxTgt pre line post,
        str_format r dom = Ok rxDom ∧ str_format r target = Ok rxTgt
        ∧ lines = pre ++ line :: post
        ∧ Forall (template_miss rxDom rxTgt ty) pre
        ∧ template_raises rxDom rxTgt ty line ex)) →
  template_attempt r dom target ty lines = Raise ex.
Proof.
  unfold template_attempt.
  intros [->|[(rxDom & -> & ->)|(rxDom & rxTgt & pre & line & post & -> & -> & -> & Hpre & Hr)]];
    [done..|].
  by rewrite (regex_scan_raise rxDom rxTgt ty pre line post ex).
Qed.

End FirstListEntry.

(** X10: off netblocks, an exception inside the guarded block of the
    template branch (the template rejected by [format], or a pattern that
    makes [re.match] raise on a line before any line matched) is caught: a
    trace line carries its text, the entry yields no finding, and the loop
    goes on with the later entries; with no later entry for the identifier
    the result is None. *)
Theorem template_failure_skips_entry {rt : PyRuntime}
    pre name ck post id target ty dom content r ex w :
  derives w target ty dom → ty ≠ "netblock" →
  forallb (λ e, negb (selected id "list" e)) pre = true →
  selected id "list" (name, ck) = true →
  c_regex ck = Some r →
  list_at_hand w (c_id ck) (c_url ck) content →
  (str_format r dom = Raise ex
   ∨ (∃ rxDom, str_format r dom = Ok rxDom ∧ str_format r target = Raise ex)
   ∨ (∃ rxDom rxTgt lpre line lpost,
        str_format r dom = Ok rxDom ∧ str_format r target = Ok rxTgt
        ∧ str_split "010" content = lpre ++ line :: lpost
        ∧ Forall (template_miss rxDom rxTgt ty) lpre
        ∧ template_raises rxDom rxTgt ty line ex)) →
  let o := resourceList (pre ++ (name, ck) :: post) id target ty w in
  value o
  = value (resourceList_loop post id target ty dom
             (after (list_content (c_id ck) (c_url ck) (derived_world w ty))))
  ∧ SfDebug ("Error encountered parsing 2: " +:+ str_exn ex) ∈ calls o
  ∧ (forallb (λ e, negb (selected id "list" e)) post = true → value o = Ok None).
Proof.
  intros Hd Hty Hpre Hsel Hrx Hhand Hfail o. subst o.
  destruct (resourceList_at_first pre name ck post id target ty dom w Hd Hpre)
    as (-> & l0 & ->).
  apply template_attempt_raise in Hfail.
  pose proof (resourceList_loop_template name ck post id target ty dom content r
                (derived_world w ty) Hsel Hty Hrx
                (proj2 (list_at_hand_derived w ty _ _ _) Hhand)) as H.
  cbv zeta in H. rewrite Hfail in H. destruct H as [Hv Hin].
  split_and!; [done| |].
  - apply elem_of_app. by right.
  - intros Hpost. rewrite Hv. by rewrite resourceList_loop_none.
Qed.

(** X11: off netblocks, with a line template, the URL of the check is
    returned as soon as a line matches the pattern built from the target or
    (for a domain) the one built from the base domain, the lines before it
    matching neither; the lines after it are not evaluated. *)
Theorem template_first_line_wins {rt : PyRuntime}
    table id target ty dom name ck content r rxDom rxTgt lpre line lpost w :
  derives w target ty dom → ty ≠ "netblock" →
  first_entry table id "list" name ck →
  c_regex ck = Some r →
  list_at_hand w (c_id ck) (c_url ck) content →
  str_format r dom = Ok rxDom → str_format r target = Ok rxTgt →
  str_split "010" content = lpre ++ line :: lpost →
  Forall (template_miss rxDom rxTgt ty) lpre →
  template_hit rxDom rxTgt ty line →
  value (resourceList table id target ty w) = Ok (Some (c_url ck)).
Proof.
  intros Hd Hty (pre & post & -> & Hsel & Hpre) Hrx Hhand HrxD HrxT Hlines Hmiss Hhit.
  destruct (resourceList_at_first pre name ck post id target ty dom w Hd Hpre)
    as (-> & _).
  pose proof (resourceList_loop_template name ck post id target ty dom content r
                (derived_world w ty) Hsel Hty Hrx
                (proj2 (list_at_hand_derived w ty _ _ _) Hhand)) as H.
  cbv zeta in H. unfold template_attempt in H.
  rewrite HrxD, HrxT, Hlines in H.
  by rewrite (regex_scan_first rxDom rxTgt ty lpre line lpost) in H.
Qed.

(** X12: off netblocks, a list entry none of whose lines gives a finding
    (no line equal to the target or the base domain without template, no
    line matching with a template) does not end the lookup: the result is
    that of the later entries of the dictionary, in the world left by
    obtaining the list. *)
Theorem list_entries_in_turn {rt : PyRuntime}
    pre name ck post id target ty dom content w :
  derives w target ty dom → ty ≠ "netblock" →
  forallb (λ e, negb (selected id "list" e)) pre = true →
  selected id "list" (name, ck) = true →
  list_at_hand w (c_id ck) (c_url ck) content →
  let o := resourceList (pre ++ (name, ck) :: post) id target ty w in
  let later := resourceList_loop post id target ty dom
                 (after (list_content (c_id ck) (c_url ck) (derived_world w ty))) in
  (c_regex ck = None →
     Forall (λ line, line ≠ target ∧ (ty = "domain" → line ≠ dom)) (str_split "010" content) →
     value o = value later)
  ∧ (∀ r rxDom rxTgt,
       c_regex ck = Some r →
       str_format r dom = Ok rxDom → str_format r target = Ok rxTgt →
       Forall (template_miss rxDom rxTgt ty) (str_split "010" content) →
       value o = value later).
Proof.
  intros Hd Hty Hpre Hsel Hhand o later. subst o later.
  destruct (resourceList_at_first pre name ck post id target ty dom w Hd Hpre)
    as (-> & _).
  apply (list_at_hand_derived w ty) in Hhand.
  split.
  - intros Hrx Hlines.
    rewrite (resourceList_loop_plain name ck post id target ty dom content) by done.
    assert (existsb (line_hit target ty dom) (str_split "010" content) = false) as ->; [|done].
    apply not_true_is_false. intros (line & Hin & Hhit)%existsb_exists.
    apply list_elem_of_In in Hin.
    rewrite Forall_forall in Hlines. destruct (Hlines line Hin) as [H1 H2].
    unfold line_hit in Hhit.
    apply orb_true_iff in Hhit as [H|[Hty' H]%andb_true_iff].
    + by apply String.eqb_eq in H.
    + apply String.eqb_eq in Hty', H. by apply H2.
  - intros r rxDom rxTgt Hrx HrxD HrxT Hmiss.
    pose proof (resourceList_loop_template name ck post id target ty dom content r
                  (derived_world w ty) Hsel Hty Hrx Hhand) as H.
    cbv zeta in H. unfold template_attempt in H. rewrite HrxD, HrxT in H.
    by rewrite regex_scan_miss in H.
Qed.

(** X13: on a netblock, the length test is made on the candidate as it
    stands in the list, before it is stripped.  A list all of whose
    candidates are shorter than eight (characters of a string, groups of a
    tuple) gives None, whatever the netblock; and a candidate of eight
    characters or more that is no comment is judged on its stripped text:
    when that is an address inside the netblock and the candidates before
    it are short, the URL of the check is returned. *)
Theorem netblock_length_before_strip {rt : PyRuntime} table id target name ck content w :
  first_entry table id "list" name ck →
  list_at_hand w (c_id ck) (c_url ck) content →
  (∀ r, c_regex ck = Some r →
        re_compile (str_replace "{0}" "(\d+\.\d+\.\d+\.\d+)" r) flags_list = Ok tt) →
  let o := resourceList table id target "netblock" w in
  (Forall short (candidates ck content) → value o = Ok None)
  ∧ (∀ pre ip post,
       candidates ck content = pre ++ FoundStr ip :: post →
       Forall short pre →
       (8 ≤ String.length ip)%nat → startswith "#" ip = false →
       ip_in_network (str_strip ip) target = Ok true →
       value o = Ok (Some (c_url ck))).
Proof.
  intros Hentry Hhand Hcomp o. subst o.
  destruct (resourceList_loop_netblock table id target "" name ck content w Hentry Hhand Hcomp)
    as (w' & Hv).
  rewrite resourceList_netblock, Hv.
  assert (∀ l, Forall short l →
               Forall (λ c, netblock_breaks c = false) l
               ∧ existsb (netblock_hit target) l = false) as Hshort.
  { induction 1 as [|c l Hc _ [IH1 IH2]]; [done|].
    destruct (short_passes target c Hc) as [Hb Hh].
    split; [by constructor|]. cbn [existsb]. by rewrite Hh, IH2. }
  split.
  - intros Hall. destruct (Hshort _ Hall) as [Hb Hh].
    rewrite netblock_scan_value by done. by rewrite Hh.
  - intros pre ip post Hcand Hpre H8 Hs Hip. rewrite Hcand.
    destruct (Hshort _ Hpre) as [Hb Hh].
    apply netblock_scan_first_hit; [done..|].
    unfold netblock_hit. rewrite Hip, Hs. apply Nat.leb_le in H8. by rewrite H8.
Qed.

(** ** [lookupItem] *)

Section Lookup.
Context {rt : PyRuntime}.
Variable table : list (string * check).

Lemma lookupItem_loop_skip pre tbl rid ty target :
  forallb (λ e, negb (item_selected rid ty e)) pre = true →
  lookupItem_loop table (pre ++ tbl) rid ty target = lookupItem_loop table tbl rid ty target.
Proof.
  induction pre as [|[name ck] pre IH]; [done|]. simpl.
  intros [Hh Ht]%andb_true_iff. apply negb_true_iff in Hh.
  unfold item_selected in Hh. simpl in Hh. rewrite Hh. by apply IH.
Qed.

Lemma lookupItem_loop_none tbl rid ty target w :
  forallb (λ e, negb (item_selected rid ty e)) tbl = true →
  lookupItem_loop table tbl rid ty target w = (Ok None, w, []).
Proof.
  intros H. rewrite <- (app_nil_r tbl). by rewrite lookupItem_loop_skip.
Qed.

Lemma lookupItem_eq rid ty target w :
  let o := lookupItem_loop table table rid ty target w in
  lookupItem table rid ty target w
  = (value o, after o, Enter "lookupItem" [rid; ty; target] :: calls o).
Proof.
  simpl. unfold lookupItem, enter, emit, bind.
  by destruct (lookupItem_loop table table rid ty target w) as [[??]?].
Qed.

(** The loop of [lookupItem] at an entry it takes up. *)
Lemma lookupItem_loop_selected name ck post rid ty target w :
  item_selected rid ty (name, ck) = true →
  let o := (if String.eqb (c_type ck) "query" then resourceQuery table (c_id ck) target ty
            else if String.eqb (c_type ck) "list" then resourceList table (c_id ck) target ty
            else lookupItem_loop table post rid ty target) w in
  lookupItem_loop table ((name, ck) :: post) rid ty target w
  = (value o, after o,
     SfDebug ("Checking maliciousness of " +:+ target +:+ " (" +:+ ty
                 +:+ ") with: " +:+ c_id ck) :: calls o).
Proof.
  intros Hsel. simpl. unfold item_selected in Hsel. simpl in Hsel. rewrite Hsel.
  unfold bind, debug, emit.
  destruct (String.eqb (c_type ck) "query").
  { by destruct (resourceQuery table (c_id ck) target ty w) as [[??]?]. }
  destruct (String.eqb (c_type ck) "list").
  { by destruct (resourceList table (c_id ck) target ty w) as [[??]?]. }
  by destruct (lookupItem_loop table post rid ty target w) as [[??]?].
Qed.

End Lookup.

(** X14: when no entry of the dictionary has the identifier and covers
    the indicator kind, [lookupItem] returns None and calls nothing; with
    the shipped dictionary this is so for every kind but [ip]. *)
Theorem lookupItem_no_entry {rt : PyRuntime} rid ty target w :
  (∀ table,
     forallb (λ e, negb (item_selected rid ty e)) table = true →
     lookupItem table rid ty target w
     = (Ok None, w, [Enter "lookupItem" [rid; ty; target]]))
  ∧ (ty ≠ "ip" →
     lookupItem malchecks rid ty target w
     = (Ok None, w, [Enter "lookupItem" [rid; ty; target]])).
Proof.
  assert (∀ table,
     forallb (λ e, negb (item_selected rid ty e)) table = true →
     lookupItem table rid ty target w
     = (Ok None, w, [Enter "lookupItem" [rid; ty; target]])) as H.
  { intros table Hn. rewrite lookupItem_eq. by rewrite lookupItem_loop_none. }
  split; [done|]. intros Hty. apply H. simpl. unfold item_selected, str_in. simpl.
  apply String.eqb_neq in Hty. rewrite Hty. by rewrite andb_false_r.
Qed.

(** X15: [lookupItem] takes the first entry that has the identifier and
    covers the indicator kind, writes its trace line and hands over to
    [resourceQuery] for a query check and to [resourceList] for a list
    check, whose result and calls are its own; an entry of any other type
    only writes the trace line and the loop goes on with the later
    entries. *)
Theorem lookupItem_resolver {rt : PyRuntime} pre name ck post rid ty target w :
  forallb (λ e, negb (item_selected rid ty e)) pre = true →
  item_selected rid ty (name, ck) = true →
  let table := pre ++ (name, ck) :: post in
  let started :=
    [Enter "lookupItem" [rid; ty; target];
     SfDebug ("Checking maliciousness of " +:+ target +:+ " (" +:+ ty
                 +:+ ") with: " +:+ rid)] in
  (c_type ck = "query" →
     let o := resourceQuery table rid target ty w in
     lookupItem table rid ty target w = (value o, after o, started ++ calls o))
  ∧ (c_type ck = "list" →
     let o := resourceList table rid target ty w in
     lookupItem table rid ty target w = (value o, after o, started ++ calls o))
  ∧ (c_type ck ≠ "query" → c_type ck ≠ "list" →
     let o := lookupItem_loop table post rid ty target w in
     lookupItem table rid ty target w = (value o, after o, started ++ calls o)).
Proof.
  intros Hpre Hsel table started. subst table started.
  assert (c_id ck = rid) as Hid.
  { unfold item_selected in Hsel. simpl in Hsel.
    apply andb_true_iff in Hsel as [H _]. by apply String.eqb_eq. }
  split_and!.
  - intros Hq o. subst o. rewrite lookupItem_eq, lookupItem_loop_skip by done.
    rewrite lookupItem_loop_selected by done. rewrite Hq, Hid. done.
  - intros Hq o. subst o. rewrite lookupItem_eq, lookupItem_loop_skip by done.
    rewrite lookupItem_loop_selected by done. rewrite Hq, Hid. done.
  - intros Hq Hl o. subst o. rewrite lookupItem_eq, lookupItem_loop_skip by done.
    rewrite lookupItem_loop_selected by done.
    apply String.eqb_neq in Hq, Hl. rewrite Hq, Hl, Hid. done.
Qed.

(** ** [handleEvent]: the store, the gates and the options of the checks *)

Section DispatchRounds.
Context {rt : PyRuntime}.
Variable table : list (string * check).

Lemma checkForStop_eq w : checkForStop w = (Ok (next_stop w), polled w, [CheckForStop]).
Proof. unfold checkForStop, next_stop, polled. by destruct (stops w). Qed.

(** One round of the dispatch loop on a check that is enabled. *)
Lemma dispatch_step name ck rest e locals w v typeId :
  opts w !! c_id ck = Some v → truthy v = true →
  (route (eventType e) locals).1 = Some typeId →
  let lk := lookupItem table (c_id ck) typeId (data e) w in
  let w1 := polled (after lk) in
  let next := dispatch table rest e (route (eventType e) locals) w1 in
  dispatch table ((name, ck) :: rest) e locals w
  = match value lk with
    | Raise ex => (Raise ex, after lk, calls lk)
    | Ok url =>
        if next_stop (after lk) then (Ok tt, w1, calls lk ++ [CheckForStop])
        else
          match url with
          | None => (value next, after next, calls lk ++ CheckForStop :: calls next)
          | Some url =>
              match (route (eventType e) locals).2 with
              | None =>
                  (Raise (UnboundLocalError "evtType"), w1, calls lk ++ [CheckForStop])
              | Some kind =>
                  (value next, after next,
                   calls lk ++ CheckForStop
                     :: NotifyListeners
                          (SpiderFootEvent kind (finding_text name (data e) url)
                             self_name (Some e))
                     :: calls next)
              end
          end
    end.
Proof.
  intros Hv Ht Hr. simpl.
  unfold bind at 1, opts_item. rewrite Hv, Ht. unfold bind at 1. rewrite Hr. simpl.
  match goal with
  | |- context [bind (lookupItem ?a ?b ?c ?d) ?k ?w] =>
      destruct (bind_cases (lookupItem a b c d) k w) as [(url & Hu & E)|(ex & Hex & E)]
  end.
  2:{ by rewrite E, Hex. }
  rewrite E, Hu. clear E.
  set (alk := after (lookupItem table (c_id ck) typeId (data e) w)).
  set (next := dispatch table rest e (route (eventType e) locals) (polled alk)).
  match goal with
  | |- (value ?K, after ?K, _ ++ calls ?K) = _ =>
      assert (K = if next_stop alk then (Ok tt, polled alk, [CheckForStop])
                  else match url with
                       | None => (value next, after next, CheckForStop :: calls next)
                       | Some url =>
                           match (route (eventType e) locals).2 with
                           | None => (Raise (UnboundLocalError "evtType"), polled alk,
                                      [CheckForStop])
                           | Some kind =>
                               (value next, after next,
                                CheckForStop
                                  :: NotifyListeners
                                       (SpiderFootEvent kind (finding_text name (data e) url)
                                          self_name (Some e))
                                  :: calls next)
                           end
                       end) as ->
  end.
  { unfold bind at 1. rewrite checkForStop_eq.
    destruct (next_stop alk); [done|].
    destruct url as [url|].
    - destruct ((route (eventType e) locals).2) as [kind|]; [|done].
      unfold bind, local, ret, notifyListeners, emit, finding_text. fold next.
      by destruct next as [[??]?].
    - fold next. by destruct next as [[??]?]. }
  destruct (next_stop alk); [done|].
  destruct url as [url|]; [|done].
  by destruct ((route (eventType e) locals).2).
Qed.

Lemma dispatch_disabled_prefix pre tbl e locals w :
  Forall (disabled (opts w)) pre →
  dispatch table (pre ++ tbl) e locals w = dispatch table tbl e locals w.
Proof.
  induction 1 as [|[name ck] pre (v & Hv & Ht) _ IH]; [done|]. simpl in *.
  unfold bind at 1, opts_item. rewrite Hv, Ht. simpl. rewrite IH.
  by destruct (dispatch table tbl e locals w) as [[??]?].
Qed.

Lemma dispatch_all_disabled tbl e locals w :
  Forall (disabled (opts w)) tbl → dispatch table tbl e locals w = (Ok tt, w, []).
Proof.
  intros H. rewrite <- (app_nil_r tbl). by rewrite dispatch_disabled_prefix.
Qed.

Lemma dispatch_missing name ck rest e locals w :
  opts w !! c_id ck = None →
  dispatch table ((name, ck) :: rest) e locals w = (Raise (KeyError (c_id ck)), w, []).
Proof. intros H. simpl. unfold bind, opts_item. by rewrite H. Qed.

End DispatchRounds.

(** What one call of [handleEvent] does to the store and the options. *)
Lemma handleEvent_store {rt : PyRuntime} table e w r :
  results w = Some r →
  let o := handleEvent table e w in
  results (after o)
  = Some (if bool_decide (is_Some (r !! data e)) then r else <[data e := true]> r)
  ∧ opts (after o) = opts w.
Proof.
  intros Hres o. subst o. destruct (r !! data e) as [b|] eqn:Hd.
  - rewrite (handleEvent_seen table e w r) by (rewrite ?Hd; eauto).
    rewrite bool_decide_true by eauto. done.
  - rewrite (handleEvent_fresh table e w r) by done.
    rewrite bool_decide_false by by intros [? ?].
    destruct (tame_after_mark table e (set_results (Some (<[data e := true]> r)) w))
      as (T1 & T2 & _).
    unfold after in *. simpl. by rewrite T1, T2.
Qed.

(** X16: each of the four gated kinds (co-hosted site, affiliate address,
    netblock owner, netblock member) whose option is absent or false ends
    [handleEvent] on a new payload after the payload was marked: one trace
    line, no lookup, no poll of the stop signal. *)
Theorem closed_gate_only_marks {rt : PyRuntime} table e w r kind opt :
  (kind, opt) ∈ gates → eventType e = kind →
  truthy (default (PyBool false) (opts w !! opt)) = false →
  results w = Some r → r !! data e = None →
  handleEvent table e w
  = (Ok tt, set_results (Some (<[data e := true]> r)) w, [received e]).
Proof.
  intros Hin Hk Hopt Hres Hfresh.
  rewrite (handleEvent_fresh table e w r) by done.
  rewrite after_mark_closed; [done|]. simpl. rewrite Hk.
  unfold gates in Hin. unfold gate_open.
  repeat (apply elem_of_cons in Hin as [Hin|Hin]; [injection Hin as -> ->; by simpl|]).
  by apply elem_of_nil in Hin.
Qed.

(** X17: a check whose option is missing from the options makes
    [handleEvent] raise KeyError with the identifier of the check, the
    checks before it being disabled; the payload is already marked by
    then. *)
Theorem missing_check_option_raises {rt : PyRuntime} pre name ck post e w r :
  results w = Some r → r !! data e = None →
  gate_open (opts w) (eventType e) = true →
  Forall (disabled (opts w)) pre →
  opts w !! c_id ck = None →
  handleEvent (pre ++ (name, ck) :: post) e w
  = (Raise (KeyError (c_id ck)), set_results (Some (<[data e := true]> r)) w,
     [received e]).
Proof.
  intros Hres Hfresh Hgate Hpre Hmiss.
  rewrite (handleEvent_fresh _ e w r) by done.
  rewrite after_mark_open by done.
  rewrite dispatch_disabled_prefix by done.
  by rewrite dispatch_missing.
Qed.

(** X18: with every check of the dictionary disabled, [handleEvent] on a
    new payload marks it and returns: no lookup, no poll of the stop signal,
    no event, whatever the kind of the event (even one that is not
    routed). *)
Theorem disabled_checks_do_nothing {rt : PyRuntime} table e w r :
  results w = Some r → r !! data e = None →
  Forall (disabled (opts w)) table →
  handleEvent table e w
  = (Ok tt, set_results (Some (<[data e := true]> r)) w, [received e]).
Proof.
  intros Hres Hfresh Hdis.
  rewrite (handleEvent_fresh _ e w r) by done.
  destruct (gate_open (opts w) (eventType e)) eqn:Hgate.
  - rewrite after_mark_open by done.
    by rewrite dispatch_all_disabled.
  - by rewrite after_mark_closed.
Qed.

(** ** The events sent to the listeners *)

Lemma route_table name :
  route name (None, None)
  = match kind_row name kinds with
    | Some (ty, kind) => (Some ty, Some kind)
    | None => (None, None)
    end.
Proof.
  destruct (str_in name routed_kinds) eqn:H.
  - unfold str_in, routed_kinds in H. simpl in H.
    repeat (apply orb_true_iff in H as [H|H];
            [apply String.eqb_eq in H; subst name; reflexivity|]).
    discriminate H.
  - rewrite route_unrouted by done.
    unfold str_in, routed_kinds in H. simpl in H.
    repeat (apply orb_false_iff in H as [? H]).
    unfold kinds, kind_row.
    repeat match goal with E : String.eqb _ _ = false |- _ => rewrite E; clear E end.
    done.
Qed.

Lemma route_stable name :
  route name (route name (None, None)) = route name (None, None).
Proof.
  destruct (str_in name routed_kinds) eqn:H.
  - unfold str_in, routed_kinds in H. simpl in H.
    repeat (apply orb_true_iff in H as [H|H];
            [apply String.eqb_eq in H; subst name; reflexivity|]).
    discriminate H.
  - by rewrite !route_unrouted.
Qed.

Section Events.
Context {rt : PyRuntime}.
Variable table : list (string * check).

Lemma only_bind P {A B} (m : M A) (k : A → M B) :
  only P m → (∀ a, only P (k a)) → only P (bind m k).
Proof.
  intros Hm Hk w. specialize (Hm w).
  destruct (bind_cases m k w) as [(a & _ & ->)|(ex & _ & ->)]; [|done].
  unfold calls in *. simpl. apply Forall_app. split; [done|]. apply Hk.
Qed.

Lemma only_bind_ret P {A B} (a : A) (k : A → M B) :
  only P (k a) → only P (bind (ret a) k).
Proof.
  intros H w. specialize (H w). unfold bind, ret.
  by destruct (k a w) as [[??]?].
Qed.

Lemma only_nil P {A} (m : M A) : (∀ w, calls (m w) = []) → only P m.
Proof. intros H w. by rewrite H. Qed.

Lemma only_emit P eff : P eff → only P (emit eff).
Proof. intros H w. by repeat constructor. Qed.

Lemma only_inner (P : effect → Prop) {A} (m : M A) :
  (∀ eff, is_notify eff = false → P eff) → quiet m → only P m.
Proof.
  intros HP Hm w. destruct (Hm w) as (H & _).
  eapply Forall_impl; [exact H|]. intros eff Hin. apply HP.
  unfold inner in Hin. by destruct (is_notify eff), (is_lookup_entry eff).
Qed.

Lemma finding_of_other tbl e eff : is_notify eff = false → finding_of tbl e eff.
Proof. intros H evt ->. discriminate H. Qed.

Lemma finding_of_cons x tbl e eff : finding_of tbl e eff → finding_of (x :: tbl) e eff.
Proof.
  intros H evt Heq. destruct (H evt Heq) as (name & ck & url & ty & kind & Hin & Hk & ->).
  exists name, ck, url, ty, kind. split_and!; [by right|done..].
Qed.

Lemma only_lookupItem tbl e rid ty target :
  only (finding_of tbl e) (lookupItem table rid ty target).
Proof.
  intros w. destruct (lookupItem_shape table rid ty target w) as (l & -> & Hl & _).
  constructor; [by apply finding_of_other|].
  eapply Forall_impl; [exact Hl|]. intros eff Hin. apply finding_of_other.
  unfold inner in Hin. by destruct (is_notify eff), (is_lookup_entry eff).
Qed.

Lemma only_dispatch tbl e locals :
  locals = (None, None) ∨ locals = route (eventType e) (None, None) →
  only (finding_of tbl e) (dispatch table tbl e locals).
Proof.
  revert locals. induction tbl as [|[name ck] tbl IH]; intros locals Hloc; simpl.
  { by apply only_nil. }
  assert (route (eventType e) locals = route (eventType e) (None, None)) as Hr.
  { destruct Hloc as [-> | ->]; [done|apply route_stable]. }
  apply only_bind.
  { apply only_nil. intros w. unfold opts_item. by destruct (opts w !! c_id ck). }
  intros enabled. destruct (truthy enabled).
  2:{ intros w. eapply Forall_impl; [apply (IH locals Hloc)|]. apply finding_of_cons. }
  apply only_bind.
  { apply only_nil. intros w. by destruct ((route (eventType e) locals).1). }
  intros typeId. apply only_bind; [apply only_lookupItem|].
  intros url. apply only_bind.
  { intros w. rewrite checkForStop_eq. repeat constructor. by apply finding_of_other. }
  intros [|]; [by apply only_nil|].
  assert (only (finding_of ((name, ck) :: tbl) e)
            (dispatch table tbl e (route (eventType e) locals))) as Hrest.
  { intros w. eapply Forall_impl; [apply (IH _ (or_intror Hr))|]. apply finding_of_cons. }
  destruct url as [url|]; [|done].
  rewrite Hr in *. rewrite route_table in *.
  destruct (kind_row (eventType e) kinds) as [[ty kind]|] eqn:Hk; simpl.
  - apply only_bind_ret.
    apply only_bind; [|done].
    apply only_emit. intros evt Heq. injection Heq as Heq. subst evt.
    exists name, ck, url, ty, kind. split_and!; [by left|done..].
  - apply only_nil. intros w. reflexivity.
Qed.

Lemma only_handleEvent e : only (finding_of table e) (handleEvent table e).
Proof.
  unfold handleEvent. apply only_bind.
  { apply only_emit. by apply finding_of_other. }
  intros _. apply only_bind.
  { apply only_nil. intros w. unfold results_contains. by destruct (results w). }
  intros [|].
  { apply only_bind; [|by intros; apply only_nil].
    apply only_emit. by apply finding_of_other. }
  apply only_bind.
  { apply only_nil. intros w. unfold results_mark. by destruct (results w). }
  intros _.
  repeat (apply only_bind;
          [apply only_inner; [apply finding_of_other|apply quiet_gated]|];
          intros [|]; [by apply only_nil|]).
  apply only_dispatch. by left.
Qed.

End Events.

(** X19: every event [handleEvent] sends to the listeners is a finding:
    its kind is the one the routing gives for the kind of the received
    event, its text names a check of the dictionary, the payload and a URL
    in the fixed layout, its module is this module and its source is the
    received event. *)
Theorem emitted_events_are_findings {rt : PyRuntime} table e w evt :
  NotifyListeners evt ∈ calls (handleEvent table e w) →
  ∃ name ck url ty kind,
    (name, ck) ∈ table
    ∧ kind_row (eventType e) kinds = Some (ty, kind)
    ∧ evt = SpiderFootEvent kind (finding_text name (data e) url) self_name (Some e).
Proof.
  intros Hin. pose proof (only_handleEvent table e w) as H.
  rewrite Forall_forall in H. by apply (H _ Hin evt).
Qed.

(** X20: for an event of a kind the module declares to watch, every
    event it sends is of a kind it declares to produce. *)
Theorem watched_events_give_produced_events {rt : PyRuntime} table e w evt :
  str_in (eventType e) watchedEvents = true →
  NotifyListeners evt ∈ calls (handleEvent table e w) →
  str_in (eventType evt) producedEvents = true.
Proof.
  intros Hw Hin. pose proof (only_handleEvent table e w) as H.
  rewrite Forall_forall in H.
  destruct (H _ Hin evt eq_refl) as (name & ck & url & ty & kind & _ & Hk & ->).
  unfold str_in, watchedEvents in Hw. simpl in Hw.
  apply orb_true_iff in Hw as [Hw|Hw]; [|apply orb_true_iff in Hw as [Hw|Hw]];
    [apply String.eqb_eq in Hw; rewrite Hw in Hk; injection Hk as <- <-..|discriminate Hw];
    reflexivity.
Qed.

(** ** From an event to its findings *)

Section EndToEnd.
Context {rt : PyRuntime}.

Lemma filter_lookup_calls table rid ty target w :
  filter (λ x, is_notify x = true) (calls (lookupItem table rid ty target w)) = []
  ∧ filter (λ x, is_lookup_entry x = true) (calls (lookupItem table rid ty target w))
    = [Enter "lookupItem" [rid; ty; target]].
Proof.
  destruct (lookupItem_shape table rid ty target w) as (l & -> & Hl & _).
  split.
  - rewrite filter_cons_False by (by vm_compute). by apply filter_inner_notify.
  - rewrite filter_cons_True by (by vm_compute). by rewrite filter_inner_entry.
Qed.

(** [lookupItem] on a dictionary of one query check that covers the kind. *)
Lemma lookupItem_single_query name ck ty target w t a u content verdict :
  c_type ck = "query" → str_in ty (c_checks ck) = true →
  opts w !! "_fetchtimeout" = Some t → opts w !! "_useragent" = Some a →
  str_format (c_url ck) target = Ok u →
  next_fetch w u = Some content →
  value (contentMalicious content (c_goodregex ck) (c_badregex ck) w) = Ok verdict →
  value (lookupItem [(name, ck)] (c_id ck) ty target w)
  = Ok (match verdict with Some true => Some u | _ => None end).
Proof.
  intros Hq Hty Ht Ha Hu Hf Hv.
  rewrite lookupItem_eq. unfold value at 1. cbn [fst].
  rewrite (lookupItem_loop_selected [(name, ck)] name ck [] (c_id ck) ty target w)
    by (unfold item_selected; simpl; by rewrite String.eqb_refl, Hty).
  unfold value at 1. cbn [fst]. rewrite Hq. cbn [String.eqb Ascii.eqb Bool.eqb].
  rewrite resourceQuery_eq. unfold value at 1. cbn [fst].
  rewrite (resourceQuery_loop_selected name ck [] (c_id ck) target w t a u);
    [|unfold selected; simpl; by rewrite String.eqb_refl, Hq|done..].
  rewrite Hf. cbv zeta. rewrite Hv.
  by destruct verdict as [[|]|].
Qed.

End EndToEnd.

(** X21: end to end, with a dictionary of one enabled query check that
    covers the indicator kind: on a new payload that passes its gate, with
    the content fetched and no stop requested, [handleEvent] returns
    normally and sends exactly one finding with the formatted URL when the
    verdict on the content is True, and no event on the verdicts False and
    None. *)
Theorem single_query_check_finding {rt : PyRuntime}
    name ck e w r ty kind v t a u content verdict :
  results w = Some r → r !! data e = None →
  gate_open (opts w) (eventType e) = true →
  kind_row (eventType e) kinds = Some (ty, kind) →
  opts w !! c_id ck = Some v → truthy v = true →
  c_type ck = "query" → str_in ty (c_checks ck) = true →
  opts w !! "_fetchtimeout" = Some t → opts w !! "_useragent" = Some a →
  str_format (c_url ck) (data e) = Ok u →
  next_fetch w u = Some content →
  value (contentMalicious content (c_goodregex ck) (c_badregex ck) w) = Ok verdict →
  next_stop w = false →
  let o := handleEvent [(name, ck)] e w in
  value o = Ok tt
  ∧ filter (λ x, is_notify x = true) (calls o)
    = match verdict with
      | Some true =>
          [NotifyListeners
             (SpiderFootEvent kind (finding_text name (data e) u) self_name (Some e))]
      | _ => []
      end.
Proof.
  intros Hres Hfresh Hgate Hk Hv Htr Hq Hty Ht Ha Hu Hf Hverdict Hstop o. subst o.
  rewrite (handleEvent_fresh _ e w r) by done.
  set (w1 := set_results _ w).
  rewrite (after_mark_open _ e w1) by done.
  assert (route (eventType e) (None, None) = (Some ty, Some kind)) as Hroute.
  { by rewrite route_table, Hk. }
  rewrite (dispatch_step [(name, ck)] name ck [] e (None, None) w1 v ty)
    by (by rewrite ?Hroute).
  destruct (contentMalicious_pure content (c_goodregex ck) (c_badregex ck)) as (cr & cl & Hpure).
  assert (value (lookupItem [(name, ck)] (c_id ck) ty (data e) w1)
          = Ok (match verdict with Some true => Some u | _ => None end)) as Hlk.
  { apply (lookupItem_single_query name ck ty (data e) w1 t a u content verdict);
      try done. rewrite Hpure. by rewrite Hpure in Hverdict. }
  rewrite Hlk.
  destruct (lookupItem_shape [(name, ck)] (c_id ck) ty (data e) w1) as (l & Hl & Hin & _ & _ & Hst).
  destruct (filter_lookup_calls [(name, ck)] (c_id ck) ty (data e) w1) as [Hfn _].
  assert (next_stop (after (lookupItem [(name, ck)] (c_id ck) ty (data e) w1)) = false) as ->.
  { unfold next_stop in *. by rewrite Hst. }
  rewrite Hroute. simpl.
  destruct verdict as [[|]|]; unfold value, calls; simpl;
    (split; [done|]);
    rewrite filter_cons_False, filter_app by (by vm_compute);
    unfold calls in Hfn; rewrite Hfn; reflexivity.
Qed.

(** X22: when no stop is requested and [handleEvent] returns normally
    on a new payload of a routed kind that passes its gate, [lookupItem] was
    entered once for each enabled check, in the order of the dictionary,
    with the identifier of the check, the indicator kind of the event and
    the payload; disabled checks are passed over. *)
Theorem enabled_checks_looked_up_in_order {rt : PyRuntime} table e w r ty kind :
  results w = Some r → r !! data e = None →
  gate_open (opts w) (eventType e) = true →
  kind_row (eventType e) kinds = Some (ty, kind) →
  Forall (λ b, b = false) (stops w) →
  let o := handleEvent table e w in
  value o = Ok tt →
  filter (λ x, is_lookup_entry x = true) (calls o)
  = map (λ entry, Enter "lookupItem" [c_id entry.2; ty; data e])
        (filter (λ entry, enabled (opts w) entry = true) table).
Proof.
  intros Hres Hfresh Hgate Hk Hstops o. subst o.
  rewrite (handleEvent_fresh _ e w r) by done.
  set (w1 := set_results _ w).
  rewrite (after_mark_open _ e w1) by done.
  unfold value at 1, calls at 1. simpl.
  rewrite filter_cons_False by (by vm_compute).
  assert (route (eventType e) (None, None) = (Some ty, Some kind)) as Hroute.
  { by rewrite route_table, Hk. }
  assert (∀ tbl locals w',
            opts w' = opts w → Forall (λ b, b = false) (stops w') →
            route (eventType e) locals = (Some ty, Some kind) →
            value (dispatch table tbl e locals w') = Ok tt →
            filter (λ x, is_lookup_entry x = true) (calls (dispatch table tbl e locals w'))
            = map (λ entry, Enter "lookupItem" [c_id entry.2; ty; data e])
                (filter (λ entry, enabled (opts w) entry = true) tbl)) as Hgen.
  { clear w1. induction tbl as [|[name ck] tbl IH]; intros locals w' Ho Hs Hr; [done|].
    destruct (opts w' !! c_id ck) as [v|] eqn:Hv.
    2:{ rewrite dispatch_missing by done. discriminate. }
    destruct (truthy v) eqn:Htr.
    2:{ rewrite (dispatch_disabled_prefix table [(name, ck)] tbl e locals w')
          by (repeat constructor; by exists v).
        rewrite filter_cons_False
          by (unfold enabled; simpl; rewrite <- Ho, Hv, Htr; discriminate).
        by apply IH. }
    rewrite filter_cons_True by (unfold enabled; simpl; by rewrite <- Ho, Hv).
    rewrite (dispatch_step table name ck tbl e locals w' v ty) by (by rewrite ?Hr).
    destruct (lookupItem_shape table (c_id ck) ty (data e) w')
      as (l & Hl & Hin & _ & Hop & Hst).
    destruct (filter_lookup_calls table (c_id ck) ty (data e) w') as [_ Hfl].
    set (lk := lookupItem table (c_id ck) ty (data e) w') in *.
    destruct (value lk) as [url|ex]; [|discriminate].
    assert (next_stop (after lk) = false) as Hns.
    { unfold next_stop. rewrite Hst. by destruct Hs. }
    assert (opts (polled (after lk)) = opts w) as Ho1.
    { unfold polled. destruct (stops (after lk)); simpl; congruence. }
    assert (Forall (λ b, b = false) (stops (polled (after lk)))) as Hs1.
    { unfold polled. rewrite Hst. destruct Hs; simpl; [by rewrite Hst|done]. }
    rewrite Hns, Hr. cbn [fst snd].
    assert (route (eventType e) (Some ty, Some kind) = (Some ty, Some kind)) as Hr2.
    { rewrite <- Hroute at 1. rewrite route_stable. done. }
    destruct url as [url|]; unfold value at 1; cbn [fst snd]; intros Hval;
      unfold calls at 1; cbn [snd]; rewrite filter_app, Hfl; cbn [app map].
    - rewrite !filter_cons_False by (by vm_compute). f_equal.
      by apply IH.
    - rewrite filter_cons_False by (by vm_compute). f_equal.
      by apply IH. }
  apply Hgen; done.
Qed.

(** ** Runs, and [setup] *)

(** X23: over any run of events once the store exists, whatever the
    handling of an event raises, the results store holds at the end exactly
    the payloads it held before and the payloads of the events of the run,
    and the options are unchanged. *)
Theorem run_marks_every_payload {rt : PyRuntime} table evs w r :
  results w = Some r →
  ∃ r', results (run table evs w).1 = Some r'
        ∧ (∀ k, is_Some (r' !! k) ↔ is_Some (r !! k) ∨ ∃ e, e ∈ evs ∧ data e = k)
        ∧ opts (run table evs w).1 = opts w.
Proof.
  revert w r. induction evs as [|e evs IH]; intros w r Hres; simpl.
  { exists r. split_and!; [done| |done]. intros k. split; [by left|].
    intros [H|(e & He & _)]; [done|]. by apply elem_of_nil in He. }
  destruct (handleEvent_store table e w r Hres) as [Hr1 Ho1].
  set (r1 := if bool_decide (is_Some (r !! data e)) then r else <[data e := true]> r) in *.
  destruct (IH (after (handleEvent table e w)) r1 Hr1) as (r' & Hr' & Hdom & Ho').
  destruct (run table evs (after (handleEvent table e w))) as [w' l] eqn:Erun.
  simpl in *. exists r'. split_and!; [done| |congruence].
  assert (∀ k, is_Some (r1 !! k) ↔ is_Some (r !! k) ∨ data e = k) as Hr1dom.
  { intros k. subst r1. case_bool_decide as Hd.
    - split; [by left|]. intros [H|<-]; done.
    - destruct (decide (data e = k)) as [<-|Hne].
      + rewrite lookup_insert_eq. split; [by right|]. by eexists.
      + rewrite lookup_insert_ne by done. split; [by left|]. by intros [H|H]. }
  intros k. rewrite Hdom, Hr1dom. split.
  - intros [[H|H]|(e' & He' & Hk)].
    + by left.
    + right. exists e. split; [by left|done].
    + right. exists e'. split; [by right|done].
  - intros [H|(e' & He' & Hk)].
    + by left; left.
    + apply elem_of_cons in He' as [->|He'].
      * by left; right.
      * right. by exists e'.
Qed.

(** X24: [setup] empties the results store and writes the user's options
    over the options in force, the other options staying as they were (so
    options of an earlier [setup] persist unless overridden); the first
    event handled afterwards is never skipped, whatever was checked
    before. *)
Theorem setup_starts_afresh {rt : PyRuntime} table userOpts e w :
  let w1 := after (setup userOpts w) in
  results w1 = Some ∅
  ∧ (∀ k v, userOpts !! k = Some v → opts w1 !! k = Some v)
  ∧ (∀ k, userOpts !! k = None → opts w1 !! k = opts w !! k)
  ∧ (let o := after_mark table e (set_results (Some (<[data e := true]> ∅)) w1) in
     handleEvent table e w1 = (value o, after o, received e :: calls o)).
Proof.
  intros w1. split_and!.
  - done.
  - intros k v Hk. unfold w1, after, setup. simpl. by apply lookup_union_Some_l.
  - intros k Hk. unfold w1, after, setup. simpl. by apply lookup_union_r.
  - apply (handleEvent_fresh table e w1 ∅); done.
Qed.

(** ** The further statements on the scenarios *)

Lemma good_pattern_first_witness :
  contentMalicious (rt := fragment_runtime) ">10/100 </td>"
    ["x"; ".*>[0-5][0-9]/100 </td>.*"; "("]
    [".*>[6-9][0-9]/100 </td>.*"; ".*>100/100 </td>.*"] (scan_world scan_opts [])
  = (Ok (Some false), scan_world scan_opts [],
     [SfDebug "Found to be good againt good regex: .*>[0-5][0-9]/100 </td>.*"]).
Proof.
  apply (good_pattern_first (rt := fragment_runtime) ">10/100 </td>"
           [".*>[6-9][0-9]/100 </td>.*"; ".*>100/100 </td>.*"]
           ["x"] ".*>[0-5][0-9]/100 </td>.*" ["("]).
  - repeat (constructor; [vm_compute; reflexivity|]). constructor.
  - repeat (constructor; [vm_compute; reflexivity|]). constructor.
  - vm_compute. reflexivity.
Defined.

Lemma malformed_pattern_raises_witness :
  contentMalicious (rt := fragment_runtime) "hello" ["("] ["x"] (scan_world scan_opts [])
  = (Raise (ReError "pattern outside the modelled fragment"), scan_world scan_opts [], []).
Proof.
  apply (malformed_pattern_raises (rt := fragment_runtime) "hello" ["("] ["x"] ["x"] "(" []).
  - reflexivity.
  - repeat (constructor; [vm_compute; reflexivity|]). constructor.
  - vm_compute. reflexivity.
Defined.

Lemma resourceQuery_no_entry_witness :
  resourceQuery (rt := fragment_runtime) malchecks "_other" "1.2.3.4" "ip"
    (scan_world scan_opts [Some ">95/100 </td>"])
  = (Ok None, scan_world scan_opts [Some ">95/100 </td>"],
     [Enter "resourceQuery" ["_other"; "1.2.3.4"; "ip"];
      SfDebug "Querying _other for maliciousness of 1.2.3.4"]).
Proof.
  apply (resourceQuery_no_entry (rt := fragment_runtime) malchecks "_other" "1.2.3.4" "ip").
  reflexivity.
Defined.

Lemma resourceQuery_errors_witness :
  value (resourceQuery (rt := fragment_runtime) malchecks "_watchguard" "1.2.3.4" "ip"
           (scan_world default_opts [Some ">95/100 </td>"]))
  = Raise (KeyError "_fetchtimeout")
  ∧ value (resourceQuery (rt := fragment_runtime) [("T", query_check "_t" "http://t/{")]
             "_t" "1.2.3.4" "ip" (scan_world scan_opts []))
    = Raise (FormatError "Single '{' encountered in format string")
  ∧ resourceQuery (rt := fragment_runtime)
      [("T", MkCheck "_t" "query" ["ip"] "http://t/{0}" ["("] [] None)]
      "_t" "1.2.3.4" "ip" (scan_world scan_opts [Some "x"])
    = (Raise (ReError "pattern outside the modelled fragment"), scan_world scan_opts [],
       [Enter "resourceQuery" ["_t"; "1.2.3.4"; "ip"];
        SfDebug "Querying _t for maliciousness of 1.2.3.4";
        FetchUrl "http://t/1.2.3.4" (PyInt 5) (PyStr "SpiderFoot")]).
Proof.
  split_and!.
  - assert (first_entry malchecks "_watchguard" "query"
              "Watchguard Reputation Authority Lookup" watchguard) as Hentry.
    { exists [], []. split_and!; reflexivity. }
    rewrite (proj1 (proj2 (resourceQuery_errors (rt := fragment_runtime) malchecks
                             "_watchguard" "1.2.3.4" "ip" _ _
                             (scan_world default_opts [Some ">95/100 </td>"]) Hentry))
               "http://reputationauthority.org/lookup?ip=1.2.3.4" eq_refl eq_refl).
    reflexivity.
  - assert (first_entry [("T", query_check "_t" "http://t/{")] "_t" "query"
              "T" (query_check "_t" "http://t/{")) as Hentry.
    { exists [], []. split_and!; reflexivity. }
    rewrite (proj1 (resourceQuery_errors (rt := fragment_runtime) _
                      "_t" "1.2.3.4" "ip" _ _ (scan_world scan_opts []) Hentry)
               (FormatError "Single '{' encountered in format string") eq_refl).
    reflexivity.
  - assert (first_entry [("T", MkCheck "_t" "query" ["ip"] "http://t/{0}" ["("] [] None)]
              "_t" "query" "T" (MkCheck "_t" "query" ["ip"] "http://t/{0}" ["("] [] None))
      as Hentry.
    { exists [], []. split_and!; reflexivity. }
    apply (proj2 (proj2 (proj2 (resourceQuery_errors (rt := fragment_runtime) _
                      "_t" "1.2.3.4" "ip" _ _ (scan_world scan_opts [Some "x"]) Hentry)))
             "http://t/1.2.3.4" (PyInt 5) (PyStr "SpiderFoot") "x"
             (ReError "pattern outside the modelled fragment"));
      reflexivity.
Defined.

Lemma resourceQuery_later_entries_witness :
  value (resourceQuery (rt := fragment_runtime) two_queries "_dup" "1.2.3.4" "ip"
           (scan_world scan_opts [Some "fine"; Some "bad"]))
  = Ok (Some "http://b/1.2.3.4")
  ∧ value (resourceQuery (rt := fragment_runtime) two_queries "_dup" "1.2.3.4" "ip"
             (scan_world scan_opts [None; Some "bad"]))
    = Ok None.
Proof.
  split.
  - etransitivity; [exact (proj2 (resourceQuery_later_entries (rt := fragment_runtime) []
                      "A" (query_check "_dup" "http://a/{0}")
                      [("B", query_check "_dup" "http://b/{0}")] "_dup" "1.2.3.4" "ip"
                      (scan_world scan_opts [Some "fine"; Some "bad"])
                      (PyInt 5) (PyStr "SpiderFoot") "http://a/1.2.3.4"
                      eq_refl eq_refl eq_refl eq_refl eq_refl)
               "fine" None eq_refl eq_refl)|].
    reflexivity.
  - apply (proj1 (resourceQuery_later_entries (rt := fragment_runtime) []
                      "A" (query_check "_dup" "http://a/{0}")
                      [("B", query_check "_dup" "http://b/{0}")] "_dup" "1.2.3.4" "ip"
                      (scan_world scan_opts [None; Some "bad"])
                      (PyInt 5) (PyStr "SpiderFoot") "http://a/1.2.3.4"
                      eq_refl eq_refl eq_refl eq_refl eq_refl)).
    reflexivity.
Defined.

Lemma cached_list_protocol_witness :
  list_content "_list" "http://lists/bad.txt" (list_world "a" None)
  = (Ok (Some "a"), cache_read (list_world "a" None), [CacheGet "sfmal__list" (PyInt 0)])
  ∧ list_content "_list" "http://lists/bad.txt" (scan_world scan_opts [Some "a"])
    = (Ok (Some "a"), fetched (cache_read (scan_world scan_opts [Some "a"])),
       [CacheGet "sfmal__list" (PyInt 0);
        FetchUrl "http://lists/bad.txt" (PyInt 5) (PyStr "SpiderFoot");
        CachePut "sfmal__list" "a"])
  ∧ value (list_content "_list" "http://lists/bad.txt" (scan_world default_opts [Some "a"]))
    = Raise (KeyError "_fetchtimeout").
Proof.
  split_and!.
  - apply (proj1 (cached_list_protocol "_list" "http://lists/bad.txt" (list_world "a" None))).
    reflexivity.
  - apply (proj1 (proj2 (cached_list_protocol "_list" "http://lists/bad.txt"
                           (scan_world scan_opts [Some "a"])))); reflexivity.
  - rewrite (proj2 (proj2 (proj2 (cached_list_protocol "_list" "http://lists/bad.txt"
                                    (scan_world default_opts [Some "a"])))) eq_refl eq_refl).
    reflexivity.
Defined.

Lemma resourceList_fetch_failure_witness :
  let o := resourceList (rt := fragment_runtime) [("List", list_check)] "_list"
             "1.2.3.4" "ip" (scan_world scan_opts [None]) in
  value o = Ok None
  ∧ SfError "Unable to fetch http://lists/bad.txt" ∈ calls o
  ∧ Forall (λ e, ∀ k c, e ≠ CachePut k c) (calls o).
Proof.
  apply (resourceList_fetch_failure (rt := fragment_runtime) [("List", list_check)] "_list"
           "1.2.3.4" "ip" "" "List" list_check (scan_world scan_opts [None])
           (PyInt 5) (PyStr "SpiderFoot")); try reflexivity.
  exists [], []. split_and!; reflexivity.
Defined.

Lemma netblock_template_error_raises_witness :
  value (resourceList (rt := fragment_runtime) [("Tpl", template_check "(")] "_list"
           "10.0.0.0/30" "netblock" (list_world "10.0.0.1" None))
  = Raise (ReError "pattern outside the modelled fragment").
Proof.
  apply (netblock_template_error_raises (rt := fragment_runtime) [("Tpl", template_check "(")]
           "_list" "10.0.0.0/30" "Tpl" (template_check "(") "10.0.0.1" "(").
  - exists [], []. split_and!; reflexivity.
  - by left.
  - reflexivity.
  - vm_compute. reflexivity.
Defined.

Lemma template_failure_skips_entry_witness :
  let o := resourceList (rt := fragment_runtime)
             [("Tpl", template_check "{"); ("Second", second_list)] "_list"
             "evil.com" "ip"
             (World (Some ∅) scan_opts [] [λ _, Some "evil.com"; λ _, Some "evil.com"] [] []) in
  value o = Ok (Some "http://lists/second.txt")
  ∧ SfDebug "Error encountered parsing 2: Single '{' encountered in format string" ∈ calls o.
Proof.
  destruct (template_failure_skips_entry (rt := fragment_runtime) [] "Tpl" (template_check "{")
              [("Second", second_list)] "_list" "evil.com" "ip" "" "evil.com" "{"
              (FormatError "Single '{' encountered in format string")
              (World (Some ∅) scan_opts [] [λ _, Some "evil.com"; λ _, Some "evil.com"] [] []))
    as (Hv & Hin & _).
  - reflexivity.
  - discriminate.
  - reflexivity.
  - reflexivity.
  - reflexivity.
  - by left.
  - by left.
  - split; [|exact Hin]. etransitivity; [exact Hv|]. reflexivity.
Defined.

Lemma template_first_line_wins_witness :
  value (resourceList (rt := fragment_runtime) [("Tpl", template_check "{0}")] "_list"
           "evil.com" "ip" (list_world ("good.org" +:+ String "010" "evil.com") None))
  = Ok (Some "http://lists/tpl.txt").
Proof.
  apply (template_first_line_wins (rt := fragment_runtime) [("Tpl", template_check "{0}")]
           "_list" "evil.com" "ip" "" "Tpl" (template_check "{0}")
           ("good.org" +:+ String "010" "evil.com") "{0}" "" "evil.com"
           ["good.org"] "evil.com" []).
  - reflexivity.
  - discriminate.
  - exists [], []. split_and!; reflexivity.
  - reflexivity.
  - by left.
  - reflexivity.
  - reflexivity.
  - reflexivity.
  - constructor; [|constructor]. split; [discriminate|vm_compute; reflexivity].
  - right. split; [discriminate|vm_compute; reflexivity].
Defined.

Lemma list_entries_in_turn_witness :
  value (resourceList (rt := fragment_runtime)
           [("List", list_check); ("Second", second_list)] "_list" "evil.com" "ip"
           (World (Some ∅) scan_opts [] [λ _, Some "good.org"; λ _, Some "evil.com"] [] []))
  = Ok (Some "http://lists/second.txt").
Proof.
  etransitivity;
    [apply (proj1 (list_entries_in_turn (rt := fragment_runtime) [] "List" list_check
                    [("Second", second_list)] "_list" "evil.com" "ip" "" "good.org"
                    (World (Some ∅) scan_opts []
                       [λ _, Some "good.org"; λ _, Some "evil.com"] [] [])
                    eq_refl ltac:(discriminate) eq_refl eq_refl (or_introl eq_refl)))|].
  - reflexivity.
  - constructor; [|constructor]. split; discriminate.
  - reflexivity.
Defined.

Lemma netblock_length_before_strip_witness :
  let scan content :=
    value (resourceList (rt := fragment_runtime) [("List", list_check)] "_list"
             "1.2.3.4/32" "netblock" (list_world content None)) in
  scan "1.2.3.4" = Ok None
  ∧ scan ("1.2.3.4" +:+ String "010" " 1.2.3.4") = Ok (Some "http://lists/bad.txt").
Proof.
  intros scan.
  assert (first_entry [("List", list_check)] "_list" "list" "List" list_check) as Hentry.
  { exists [], []. split_and!; reflexivity. }
  assert (∀ r, c_regex list_check = Some r →
               re_compile (PyRuntime := fragment_runtime)
                 (str_replace "{0}" "(\d+\.\d+\.\d+\.\d+)" r) flags_list = Ok tt) as Hcomp.
  { intros r H. discriminate H. }
  split.
  - apply (proj1 (netblock_length_before_strip (rt := fragment_runtime)
                    [("List", list_check)] "_list" "1.2.3.4/32" "List" list_check
                    "1.2.3.4" (list_world "1.2.3.4" None) Hentry (or_introl eq_refl) Hcomp)).
    constructor; [vm_compute; lia|constructor].
  - apply (proj2 (netblock_length_before_strip (rt := fragment_runtime)
                    [("List", list_check)] "_list" "1.2.3.4/32" "List" list_check
                    ("1.2.3.4" +:+ String "010" " 1.2.3.4")
                    (list_world ("1.2.3.4" +:+ String "010" " 1.2.3.4") None)
                    Hentry (or_introl eq_refl) Hcomp)
             [FoundStr "1.2.3.4"] " 1.2.3.4" []).
    + reflexivity.
    + constructor; [vm_compute; lia|constructor].
    + vm_compute. lia.
    + reflexivity.
    + reflexivity.
Defined.

Lemma lookupItem_no_entry_witness :
  lookupItem (rt := fragment_runtime) malchecks "_watchguard" "domain" "example.com"
    (scan_world scan_opts [Some ">95/100 </td>"])
  = (Ok None, scan_world scan_opts [Some ">95/100 </td>"],
     [Enter "lookupItem" ["_watchguard"; "domain"; "example.com"]]).
Proof.
  apply (proj2 (lookupItem_no_entry (rt := fragment_runtime) "_watchguard" "domain"
                  "example.com" (scan_world scan_opts [Some ">95/100 </td>"]))).
  discriminate.
Defined.

Lemma lookupItem_resolver_witness :
  let w := scan_world scan_opts [Some ">95/100 </td>"] in
  let o := resourceQuery (rt := fragment_runtime) malchecks "_watchguard" "1.2.3.4" "ip" w in
  lookupItem (rt := fragment_runtime) malchecks "_watchguard" "ip" "1.2.3.4" w
  = (value o, after o,
     [Enter "lookupItem" ["_watchguard"; "ip"; "1.2.3.4"];
      SfDebug "Checking maliciousness of 1.2.3.4 (ip) with: _watchguard"] ++ calls o).
Proof.
  apply (proj1 (lookupItem_resolver (rt := fragment_runtime) []
                  "Watchguard Reputation Authority Lookup" watchguard [] "_watchguard" "ip"
                  "1.2.3.4" (scan_world scan_opts [Some ">95/100 </td>"])
                  eq_refl eq_refl)).
  reflexivity.
Defined.

Lemma run_marks_every_payload_witness :
  let evs := [an_event "IP_ADDRESS" "1.2.3.4"; an_event "DOMAIN_NAME" "example.com";
              an_event "IP_ADDRESS" "1.2.3.4"] in
  let w := scan_world scan_opts [Some ">95/100 </td>"] in
  ∃ r', results (run (rt := fragment_runtime) malchecks evs w).1 = Some r'
        ∧ (∀ k, is_Some (r' !! k)
                ↔ is_Some ((∅ : gmap string bool) !! k) ∨ ∃ e, e ∈ evs ∧ data e = k)
        ∧ opts (run (rt := fragment_runtime) malchecks evs w).1 = opts w.
Proof.
  intros evs w. apply (run_marks_every_payload (rt := fragment_runtime) malchecks evs w ∅).
  reflexivity.
Defined.

Lemma closed_gate_only_marks_witness :
  let e := an_event "NETBLOCK_OWNER" "10.0.0.0/8" in
  let w := scan_world scan_opts [Some ">95/100 </td>"] in
  handleEvent (rt := fragment_runtime) malchecks e w
  = (Ok tt, set_results (Some (<["10.0.0.0/8" := true]> ∅)) w, [received e]).
Proof.
  intros e w.
  apply (closed_gate_only_marks (rt := fragment_runtime) malchecks e w ∅
           "NETBLOCK_OWNER" "checknetblocks").
  - do 2 right. by left.
  - reflexivity.
  - reflexivity.
  - reflexivity.
  - reflexivity.
Defined.

Lemma missing_check_option_raises_witness :
  let e := an_event "IP_ADDRESS" "1.2.3.4" in
  let w := scan_world default_opts [Some ">95/100 </td>"] in
  handleEvent (rt := fragment_runtime) malchecks e w
  = (Raise (KeyError "_watchguard"), set_results (Some (<["1.2.3.4" := true]> ∅)) w,
     [received e]).
Proof.
  intros e w.
  apply (missing_check_option_raises (rt := fragment_runtime) []
           "Watchguard Reputation Authority Lookup" watchguard [] e w ∅).
  - reflexivity.
  - reflexivity.
  - reflexivity.
  - constructor.
  - reflexivity.
Defined.

Lemma disabled_checks_do_nothing_witness :
  let e := an_event "IP_ADDRESS" "1.2.3.4" in
  let w := scan_world (<["_watchguard" := PyBool false]> scan_opts) [Some ">95/100 </td>"] in
  handleEvent (rt := fragment_runtime) malchecks e w
  = (Ok tt, set_results (Some (<["1.2.3.4" := true]> ∅)) w, [received e]).
Proof.
  intros e w.
  apply (disabled_checks_do_nothing (rt := fragment_runtime) malchecks e w ∅).
  - reflexivity.
  - reflexivity.
  - constructor; [|constructor]. exists (PyBool false). split; reflexivity.
Defined.

Lemma emitted_events_are_findings_witness :
  let e := an_event "AFFILIATE_IPADDR" "1.2.3.4" in
  let w := scan_world scan_opts [Some ">95/100 </td>"] in
  let evt :=
    SpiderFootEvent "MALICIOUS_AFFILIATE_IPADDR"
      (finding_text "Watchguard Reputation Authority Lookup" "1.2.3.4"
         "http://reputationauthority.org/lookup?ip=1.2.3.4")
      self_name (Some e) in
  NotifyListeners evt ∈ calls (handleEvent (rt := fragment_runtime) malchecks e w)
  ∧ ∃ name ck url ty kind,
      (name, ck) ∈ malchecks
      ∧ kind_row (eventType e) kinds = Some (ty, kind)
      ∧ evt = SpiderFootEvent kind (finding_text name (data e) url) self_name (Some e).
Proof.
  intros e w evt.
  assert (NotifyListeners evt ∈ calls (handleEvent (rt := fragment_runtime) malchecks e w))
    as Hin.
  { vm_compute. repeat first [left | right]. }
  split; [exact Hin|].
  exact (emitted_events_are_findings (rt := fragment_runtime) malchecks e w evt Hin).
Defined.

Lemma watched_events_give_produced_events_witness :
  let e := an_event "IP_ADDRESS" "1.2.3.4" in
  let w := scan_world scan_opts [Some ">95/100 </td>"] in
  let evt :=
    SpiderFootEvent "MALICIOUS_IPADDR"
      (finding_text "Watchguard Reputation Authority Lookup" "1.2.3.4"
         "http://reputationauthority.org/lookup?ip=1.2.3.4")
      self_name (Some e) in
  NotifyListeners evt ∈ calls (handleEvent (rt := fragment_runtime) malchecks e w)
  ∧ str_in (eventType evt) producedEvents = true.
Proof.
  intros e w evt.
  assert (NotifyListeners evt ∈ calls (handleEvent (rt := fragment_runtime) malchecks e w))
    as Hin.
  { vm_compute. repeat first [left | right]. }
  split; [exact Hin|].
  exact (watched_events_give_produced_events (rt := fragment_runtime) malchecks e w evt
           eq_refl Hin).
Defined.

Lemma single_query_check_finding_witness :
  let e := an_event "IP_ADDRESS" "1.2.3.4" in
  let w := scan_world scan_opts [Some ">95/100 </td>"] in
  let o := handleEvent (rt := fragment_runtime) malchecks e w in
  value o = Ok tt
  ∧ filter (λ x, is_notify x = true) (calls o)
    = [NotifyListeners
         (SpiderFootEvent "MALICIOUS_IPADDR"
            (finding_text "Watchguard Reputation Authority Lookup" "1.2.3.4"
               "http://reputationauthority.org/lookup?ip=1.2.3.4")
            self_name (Some e))].
Proof.
  intros e w.
  apply (single_query_check_finding (rt := fragment_runtime)
           "Watchguard Reputation Authority Lookup" watchguard e w ∅ "ip" "MALICIOUS_IPADDR"
           (PyBool true) (PyInt 5) (PyStr "SpiderFoot")
           "http://reputationauthority.org/lookup?ip=1.2.3.4" ">95/100 </td>" (Some true));
    reflexivity.
Defined.

Lemma enabled_checks_looked_up_in_order_witness :
  let e := an_event "IP_ADDRESS" "1.2.3.4" in
  let w := scan_world (<["_second" := PyBool false]> three_opts)
             [Some "bad"; Some "fine"; Some "bad"] in
  filter (λ x, is_lookup_entry x = true)
    (calls (handleEvent (rt := fragment_runtime) three_checks e w))
  = map (λ entry, Enter "lookupItem" [c_id entry.2; "ip"; "1.2.3.4"])
      (filter (λ entry, enabled (opts w) entry = true) three_checks).
Proof.
  intros e w.
  apply (enabled_checks_looked_up_in_order (rt := fragment_runtime) three_checks e w ∅
           "ip" "MALICIOUS_IPADDR").
  - reflexivity.
  - reflexivity.
  - reflexivity.
  - reflexivity.
  - constructor.
  - vm_compute. reflexivity.
Defined.

Lemma setup_starts_afresh_witness :
  let e := an_event "IP_ADDRESS" "1.2.3.4" in
  let w := World (Some (<["1.2.3.4" := true]> ∅)) scan_opts [] [] [] [] in
  let w1 := after (setup (<["checkaffiliates" := PyBool false]> ∅) w) in
  results w1 = Some ∅
  ∧ opts w1 !! "checkaffiliates" = Some (PyBool false)
  ∧ opts w1 !! "_watchguard" = Some (PyBool true).
Proof.
  intros e w w1.
  destruct (setup_starts_afresh (rt := fragment_runtime) malchecks
              (<["checkaffiliates" := PyBool false]> ∅) e w) as (H1 & H2 & H3 & _).
  split_and!.
  - exact H1.
  - apply H2. reflexivity.
  - unfold w1. rewrite H3; reflexivity.
Defined.
